(** * Protein_database.py: a shallow embedding and its verified properties

    The script keeps six SQLite tables (Subjects, Samples, three abundance
    tables and Annotation), fills them from delimited text files and answers
    nine fixed queries.  The embedding follows the script function by
    function.  What the script delegates to libraries is modelled as far as
    the script observes it:

    - [csv.DictReader] is represented by what it yields: a sequence of
      dictionaries from column name to field value, in header order;
    - the SQLite store is a record of optional tables (a table that was
      never created is [None]); rows are lists of dynamically typed values,
      and every inserted value passes through the affinity of its column as
      declared by the [CREATE TABLE] statements of [database_struct];
    - [print], [connect], [commit], [close] and [savefig] are recorded, in
      order, in a trace, next to the value returned or the exception raised.

    SQLite's double-precision reals are idealised as exact rationals. *)

From Stdlib Require Import ZArith QArith List String Ascii Bool Lia DecimalString.
From Stdlib Require Import Sorted Permutation.
From Stdlib Require OrderedTypeEx.
Import ListNotations.

Local Open Scope string_scope.
Local Open Scope Z_scope.
Local Open Scope list_scope.

(** ** Values *)

(** A field of a row yielded by [csv.DictReader]: a string, or [None] for a
    field missing from a short line. *)
Inductive pyval : Type :=
| PNone
| PStr (s : string).

(** A row of the reader: a Python dict, kept in insertion order. *)
Definition pydict : Type := list (string * pyval).

(** The storage classes of SQLite that the script can produce. *)
Inductive value : Type :=
| VNull
| VInt (z : Z)
| VReal (q : Q)
| VText (s : string).

Definition row : Type := list value.

Definition is_null (v : value) : bool :=
  match v with VNull => true | _ => false end.

(** ** Numeric text, as SQLite reads it (sqlite3AtoF) *)

Module Numeric.

Definition is_space (c : ascii) : bool :=
  let n := N_of_ascii c in
  ((n =? 32) || ((9 <=? n) && (n <=? 13)))%N.

Definition digit (c : ascii) : option Z :=
  let n := Z.of_N (N_of_ascii c) in
  if (48 <=? n) && (n <=? 57) then Some (n - 48) else None.

Fixpoint skip_spaces (s : string) : string :=
  match s with
  | String c s' => if is_space c then skip_spaces s' else s
  | EmptyString => s
  end.

(** Reads a run of decimal digits onto [acc]; returns the accumulated
    number, how many digits were read and the rest of the text. *)
Fixpoint read_digits (s : string) (acc : Z) (n : nat) : Z * nat * string :=
  match s with
  | String c s' =>
      match digit c with
      | Some d => read_digits s' (acc * 10 + d) (S n)
      | None => (acc, n, s)
      end
  | EmptyString => (acc, n, s)
  end.

Definition read_sign (s : string) : Z * string :=
  match s with
  | String "-" r => (-1, r)
  | String "+" r => (1, r)
  | _ => (1, s)
  end.

Definition is_e (c : ascii) : bool :=
  (Ascii.eqb c "e" || Ascii.eqb c "E")%char.

(** [atof s] is the number denoted by the longest numeric prefix of [s]
    (0 when there is none) and whether all of [s] is a well-formed
    literal: blanks, sign, digits, optional fraction, optional exponent,
    blanks. *)
Definition atof (s : string) : Q * bool :=
  let '(sign, s1) := read_sign (skip_spaces s) in
  let '(ip, n1, s2) := read_digits s1 0 0%nat in
  let '(mant, n2, s3) :=
    match s2 with
    | String "." r => read_digits r ip 0%nat
    | _ => (ip, 0%nat, s2)
    end in
  let '(ex, evalid, s4) :=
    match s3 with
    | String c r =>
        if is_e c then
          let '(esign, r1) := read_sign r in
          let '(e, ne, r2) := read_digits r1 0 0%nat in
          match ne with
          | O => (0, false, r2)
          | S _ => (esign * e, true, skip_spaces r2)
          end
        else (0, true, skip_spaces s3)
    | EmptyString => (0, true, s3)
    end in
  let q := (inject_Z (sign * mant) * Qpower (10 # 1) (ex - Z.of_nat n2))%Q in
  let at_end := match s4 with EmptyString => true | _ => false end in
  (Qred q, at_end && negb (Nat.eqb (n1 + n2) 0) && evalid).

Definition in_int64 (z : Z) : bool :=
  (- 2 ^ 63 <=? z) && (z <=? 2 ^ 63 - 1).

(** A real that is an integer in the 64-bit range is stored as INTEGER
    (sqlite3VdbeIntegerAffinity). *)
Definition integer_if_exact (q : Q) : value :=
  let q' := Qred q in
  match Qden q' with
  | xH => if in_int64 (Qnum q') then VInt (Qnum q') else VReal q'
  | _ => VReal q'
  end.

End Numeric.

(** ** Column affinity *)

Inductive affinity : Type := AffText | AffInteger | AffReal.

(** The script binds only Python strings and [None] to its INSERT
    statements: [None] becomes NULL, a string becomes TEXT and is then
    converted according to the affinity of the column it lands in. *)
Definition store (a : affinity) (p : pyval) : value :=
  match p with
  | PNone => VNull
  | PStr s =>
      match a with
      | AffText => VText s
      | AffInteger =>
          match Numeric.atof s with
          | (q, true) => Numeric.integer_if_exact q
          | (_, false) => VText s
          end
      | AffReal =>
          match Numeric.atof s with
          | (q, true) => VReal q
          | (_, false) => VText s
          end
      end
  end.

(** ** Exceptions, trace and the monad of the script's functions *)

Inductive exn : Type :=
| KeyError (key : string)
| ValueError (msg : string)
| AttributeError (msg : string)
| TypeError (msg : string)
| UnboundLocalError (name : string)
| OperationalError (msg : string)
| IntegrityError (msg : string).

(** [except sqlite3.Error] catches the exceptions of the database module. *)
Definition is_sqlite3_Error (e : exn) : bool :=
  match e with
  | OperationalError _ | IntegrityError _ => true
  | _ => false
  end.

Definition is_KeyError (e : exn) : bool :=
  match e with KeyError _ => true | _ => false end.

(** [UnboundLocalError] is a subclass of [NameError]. *)
Definition is_NameError (e : exn) : bool :=
  match e with UnboundLocalError _ => true | _ => false end.

(** What [print] is given.  Interpolated objects are kept as they are
    instead of being rendered. *)
Inductive line : Type :=
| Text (s : string)
| TextExn (prefix : string) (e : exn)
| TextDict (prefix : string) (d : pydict)
| TextRows (prefix : string) (rows : list row)
| TextValue (prefix : string) (v : value)
| TextFixed2 (prefix : string) (v : value)
| TabJoined (r : row).

Inductive event : Type :=
| Print (l : line)
| Connect
| Commit
| Close
| Savefig (file : string).

(** A run: the events in order, then the exception raised or the value
    returned. *)
Definition io (A : Type) : Type := list event * (exn + A).

Definition ret {A} (a : A) : io A := ([], inr a).

Definition raise {A} (e : exn) : io A := ([], inl e).

Definition emit (ev : event) : io unit := ([ev], inr tt).

Definition print (l : line) : io unit := emit (Print l).

Definition lift {A} (r : exn + A) : io A := ([], r).

Definition bind {A B} (m : io A) (f : A -> io B) : io B :=
  match snd m with
  | inl e => (fst m, inl e)
  | inr a => (fst m ++ fst (f a), snd (f a))
  end.

Declare Scope io_scope.
Delimit Scope io_scope with io.
Notation "x <- m ;; k" := (bind m (fun x => k))
  (at level 100, m at next level, right associativity) : io_scope.
Notation "m ;; k" := (bind m (fun _ => k))
  (at level 100, right associativity) : io_scope.
Local Open Scope io_scope.

(** [try: m  except <catches> as e: handler e]. *)
Definition try_except {A} (m : io A) (catches : exn -> bool)
    (handler : exn -> io A) : io A :=
  match snd m with
  | inl e =>
      if catches e
      then (fst m ++ fst (handler e), snd (handler e))
      else m
  | inr _ => m
  end.

(** [try: m  finally: cleanup]: the cleanup runs on both exits and the
    outcome of [m] is kept. *)
Definition try_finally {A} (m : io A) (cleanup : io unit) : io A :=
  match snd cleanup with
  | inl e => (fst m ++ fst cleanup, inl e)
  | inr _ => (fst m ++ fst cleanup, snd m)
  end.

(** [for x in l: body], threading the loop state. *)
Fixpoint for_each {A S} (body : A -> S -> io S) (l : list A) (s : S) : io S :=
  match l with
  | [] => ret s
  | x :: l' => s' <- body x s ;; for_each body l' s'
  end.

(** ** The store *)

Inductive table_name : Type :=
| Subjects
| Samples
| TranscriptAbundance
| ProteinAbundance
| MetaboliteAbundance
| Annotation.

Definition table : Type := list row.

Record database : Type := mkdb {
  tSubjects : option table;
  tSamples : option table;
  tTranscriptAbundance : option table;
  tProteinAbundance : option table;
  tMetaboliteAbundance : option table;
  tAnnotation : option table
}.

Definition get (t : table_name) (db : database) : option table :=
  match t with
  | Subjects => tSubjects db
  | Samples => tSamples db
  | TranscriptAbundance => tTranscriptAbundance db
  | ProteinAbundance => tProteinAbundance db
  | MetaboliteAbundance => tMetaboliteAbundance db
  | Annotation => tAnnotation db
  end.

Definition set (t : table_name) (v : option table) (db : database) : database :=
  match t with
  | Subjects =>
      mkdb v (tSamples db) (tTranscriptAbundance db) (tProteinAbundance db)
        (tMetaboliteAbundance db) (tAnnotation db)
  | Samples =>
      mkdb (tSubjects db) v (tTranscriptAbundance db) (tProteinAbundance db)
        (tMetaboliteAbundance db) (tAnnotation db)
  | TranscriptAbundance =>
      mkdb (tSubjects db) (tSamples db) v (tProteinAbundance db)
        (tMetaboliteAbundance db) (tAnnotation db)
  | ProteinAbundance =>
      mkdb (tSubjects db) (tSamples db) (tTranscriptAbundance db) v
        (tMetaboliteAbundance db) (tAnnotation db)
  | MetaboliteAbundance =>
      mkdb (tSubjects db) (tSamples db) (tTranscriptAbundance db)
        (tProteinAbundance db) v (tAnnotation db)
  | Annotation =>
      mkdb (tSubjects db) (tSamples db) (tTranscriptAbundance db)
        (tProteinAbundance db) (tMetaboliteAbundance db) v
  end.

(** A database file that holds no table yet. *)
Definition empty_database : database := mkdb None None None None None None.

Definition table_name_eqb (a b : table_name) : bool :=
  match a, b with
  | Subjects, Subjects | Samples, Samples
  | TranscriptAbundance, TranscriptAbundance
  | ProteinAbundance, ProteinAbundance
  | MetaboliteAbundance, MetaboliteAbundance
  | Annotation, Annotation => true
  | _, _ => false
  end.

Definition name_of (t : table_name) : string :=
  match t with
  | Subjects => "Subjects"
  | Samples => "Samples"
  | TranscriptAbundance => "TranscriptAbundance"
  | ProteinAbundance => "ProteinAbundance"
  | MetaboliteAbundance => "MetaboliteAbundance"
  | Annotation => "Annotation"
  end.

(** The columns of the [CREATE TABLE] statements of [database_struct], in
    declaration order, with the affinity of their declared type. *)
Definition columns (t : table_name) : list (string * affinity) :=
  match t with
  | Subjects =>
      [("SubjectID", AffText); ("Sex", AffText); ("Age", AffInteger);
       ("BMI", AffReal); ("Race", AffText); ("SSPG", AffReal);
       ("InsulinStatus", AffText)]
  | Samples =>
      [("SampleID", AffText); ("SubjectID", AffText); ("VisitID", AffInteger)]
  | TranscriptAbundance =>
      [("SampleID", AffText); ("TranscriptID", AffText); ("Abundance", AffReal)]
  | ProteinAbundance =>
      [("SampleID", AffText); ("ProteinID", AffText); ("Abundance", AffReal)]
  | MetaboliteAbundance =>
      [("SampleID", AffText); ("PeakID", AffText); ("Abundance", AffReal)]
  | Annotation =>
      [("PeakID", AffText); ("Metabolite", AffText); ("KEGG", AffText);
       ("HMDB", AffText); ("Pathway", AffText)]
  end.

(** Positions of the PRIMARY KEY columns. *)
Definition primary_key (t : table_name) : list nat :=
  match t with
  | Subjects | Samples => [0%nat]
  | _ => [0%nat; 1%nat]
  end.

(** Equality as a UNIQUE index sees it: NULL differs from everything,
    NULL included. *)
Definition same_key (a b : value) : bool :=
  match a, b with
  | VText s, VText s' => String.eqb s s'
  | VInt z, VInt z' => Z.eqb z z'
  | VReal q, VReal q' => Qeq_bool q q'
  | VInt z, VReal q | VReal q, VInt z => Qeq_bool (inject_Z z) q
  | _, _ => false
  end.

Definition conflicts (t : table_name) (r r' : row) : bool :=
  forallb (fun i => same_key (nth i r VNull) (nth i r' VNull)) (primary_key t).

(** The row stored for the parameters of an INSERT that names every column
    of [t] in declaration order. *)
Definition bind_row (t : table_name) (params : list pyval) : row :=
  map (fun cp => store (snd (fst cp)) (snd cp)) (combine (columns t) params).

Definition no_such_table (t : table_name) : exn :=
  OperationalError ("no such table: " ++ name_of t)%string.

Definition unique_failed (t : table_name) : exn :=
  IntegrityError ("UNIQUE constraint failed: " ++ name_of t)%string.

(** [DELETE FROM t]. *)
Definition delete_from (t : table_name) (db : database) : exn + database :=
  match get t db with
  | None => inl (no_such_table t)
  | Some _ => inr (set t (Some []) db)
  end.

(** [INSERT INTO t (...) VALUES (?, ...)]. *)
Definition insert_into (t : table_name) (params : list pyval) (db : database)
    : exn + database :=
  match get t db with
  | None => inl (no_such_table t)
  | Some rows =>
      let r := bind_row t params in
      if existsb (conflicts t r) rows
      then inl (unique_failed t)
      else inr (set t (Some (rows ++ [r])) db)
  end.

(** [INSERT OR IGNORE INTO t (...) VALUES (?, ...)]. *)
Definition insert_or_ignore (t : table_name) (params : list pyval)
    (db : database) : exn + database :=
  match get t db with
  | None => inl (no_such_table t)
  | Some rows =>
      let r := bind_row t params in
      if existsb (conflicts t r) rows
      then inr db
      else inr (set t (Some (rows ++ [r])) db)
  end.

(** [CREATE TABLE t (...)]. *)
Definition create_table (t : table_name) (db : database) : exn + database :=
  match get t db with
  | Some _ => inl (OperationalError ("table " ++ name_of t ++ " already exists")%string)
  | None => inr (set t (Some []) db)
  end.

(** [executescript]: the statements run one after the other, each in its
    own transaction; the first failure stops the script and what the
    earlier statements did stays. *)
Fixpoint executescript (script : list table_name) (db : database)
    : database * option exn :=
  match script with
  | [] => (db, None)
  | t :: rest =>
      match create_table t db with
      | inl e => (db, Some e)
      | inr db' => executescript rest db'
      end
  end.

Definition schema_script : list table_name :=
  [Subjects; Samples; TranscriptAbundance; ProteinAbundance;
   MetaboliteAbundance; Annotation].

(** ** Python helpers *)

(** [d[k]]. *)
Definition getitem (d : pydict) (k : string) : io pyval :=
  match find (fun kv => String.eqb (fst kv) k) d with
  | Some kv => ret (snd kv)
  | None => raise (KeyError k)
  end.

(** [d.pop(k)]: the value and the dict without the key. *)
Definition pop (d : pydict) (k : string) : io (pyval * pydict) :=
  match find (fun kv => String.eqb (fst kv) k) d with
  | Some kv => ret (snd kv, filter (fun kv => negb (String.eqb (fst kv) k)) d)
  | None => raise (KeyError k)
  end.

(** [v in (s1, s2, ...)] for a tuple of strings. *)
Definition in_tuple (v : pyval) (t : list string) : bool :=
  match v with
  | PStr s => existsb (String.eqb s) t
  | PNone => false
  end.

(** [s.split(sep)] for a one-character separator. *)
Fixpoint split (sep : ascii) (s : string) : list string :=
  match s with
  | EmptyString => [EmptyString]
  | String c s' =>
      if Ascii.eqb c sep then EmptyString :: split sep s'
      else
        match split sep s' with
        | p :: ps => String c p :: ps
        | [] => [String c EmptyString]
        end
  end.

(** [a, b = parts]. *)
Definition unpack2 (parts : list string) : io (string * string) :=
  match parts with
  | [a; b] => ret (a, b)
  | [] => raise (ValueError "not enough values to unpack (expected 2, got 0)")
  | [_] => raise (ValueError "not enough values to unpack (expected 2, got 1)")
  | _ => raise (ValueError "too many values to unpack (expected 2)")
  end.

(** ** Schema creation *)

(** The statements of the script act on the file as they run, so the
    database that the function leaves is the one [executescript] leaves,
    whether or not it raised. *)
Definition database_struct (db : database) : io database :=
  let (db', failure) := executescript schema_script db in
  try_finally
    (try_except
       (emit Connect ;;
        print (Text "Database Construction Has Begun") ;;
        match failure with
        | Some e => raise e
        | None => emit Commit
        end)
       is_sqlite3_Error
       (fun e => print (TextExn "SQLite error: " e)))
    (emit Close) ;;
  ret db'.

(** ** Loaders *)

(** The body of the loop over the rows of the subjects file. *)
Definition subject_row (row : pydict) (cur : database) : io database :=
  v <- getitem row "Age" ;;
  let age := if in_tuple v ["NA"; EmptyString] then PNone else v in
  subject_id <- getitem row "SubjectID" ;;
  sex <- getitem row "Sex" ;;
  row_age <- getitem row "Age" ;;
  bmi <- getitem row "BMI" ;;
  race <- getitem row "Race" ;;
  sspg <- getitem row "SSPG" ;;
  status <- getitem row "IR_IS_classification" ;;
  lift (insert_into Subjects
          [subject_id; sex; row_age; bmi; race; sspg; status] cur).

Definition subject_table_populator (file : list pydict) (db : database)
    : io database :=
  emit Connect ;;
  cur <- lift (delete_from Subjects db) ;;
  cur <- for_each subject_row file cur ;;
  emit Commit ;;
  emit Close ;;
  print (Text "Subjects table populated successfully.") ;;
  ret cur.

(** The body of the loop over the rows of the samples file, with its
    [try] / [except KeyError].  The loader strips the header names before
    the loop; the rows taken here have their keys stripped already. *)
Definition sample_row (row : pydict) (cur : database) : io database :=
  try_except
    (sample_id <- getitem row "SampleID" ;;
     parts <- match sample_id with
              | PStr s => ret (split "-" s)
              | PNone =>
                  raise (AttributeError
                           "'NoneType' object has no attribute 'split'")
              end ;;
     sv <- unpack2 parts ;;
     lift (insert_or_ignore Samples
             [sample_id; PStr (fst sv); PStr (snd sv)] cur))
    is_KeyError
    (fun _ => print (TextDict "SampleID not found: " row) ;; ret cur).

Definition sample_table_populator (file : list pydict) (db : database)
    : io database :=
  emit Connect ;;
  cur <- lift (delete_from Samples db) ;;
  cur <- for_each sample_row file cur ;;
  emit Commit ;;
  emit Close ;;
  print (Text "Samples table populated successfully.") ;;
  ret cur.

(** The three wide-format loaders have the same body up to the table and
    the final message.  [wide_row] is the body of the loop over the lines:
    the sample identifier is popped and every remaining column is inserted
    as one row. *)
Definition wide_row (t : table_name) (row : pydict) (cur : database)
    : io database :=
  popped <- pop row "SampleID" ;;
  let sample_id := fst popped in
  for_each (fun item cur =>
      lift (insert_into t [sample_id; PStr (fst item); snd item] cur))
    (snd popped) cur.

Definition wide_populator (t : table_name) (done : string)
    (file : list pydict) (db : database) : io database :=
  emit Connect ;;
  cur <- lift (delete_from t db) ;;
  cur <- for_each (wide_row t) file cur ;;
  emit Commit ;;
  emit Close ;;
  print (Text done) ;;
  ret cur.

Definition transcriptome_populator : list pydict -> database -> io database :=
  wide_populator TranscriptAbundance
    "Transcript Abundance Table Populated Successfully.".

Definition protein_populator : list pydict -> database -> io database :=
  wide_populator ProteinAbundance
    "Protein Abundance Table Populated Successfully.".

Definition Metabolite_populator : list pydict -> database -> io database :=
  wide_populator MetaboliteAbundance
    "Metabolite Table Populated Successfully.".

Definition annotation_row (row : pydict) (cur : database) : io database :=
  peak <- getitem row "PeakID" ;;
  metabolite <- getitem row "Metabolite" ;;
  kegg <- getitem row "KEGG" ;;
  hmdb <- getitem row "HMDB" ;;
  pathway <- getitem row "Pathway" ;;
  lift (insert_into Annotation [peak; metabolite; kegg; hmdb; pathway] cur).

Definition Annotations_populator (file : list pydict) (db : database)
    : io database :=
  emit Connect ;;
  cur <- lift (delete_from Annotation db) ;;
  cur <- for_each annotation_row file cur ;;
  emit Commit ;;
  emit Close ;;
  print (Text "Metabolite Annotation Table Populated successfully.") ;;
  ret cur.

(** ** Expressions of the queries *)

Definition to_Q (v : value) : Q :=
  match v with
  | VInt z => inject_Z z
  | VReal q => q
  | VText s => fst (Numeric.atof s)
  | VNull => 0%Q
  end.

(** The order of SQLite on values: NULL, then numbers by magnitude, then
    text byte by byte. *)
Definition compare_values (a b : value) : comparison :=
  match a, b with
  | VNull, VNull => Eq
  | VNull, _ => Lt
  | _, VNull => Gt
  | VText s, VText s' => String.compare s s'
  | VText _, _ => Gt
  | _, VText _ => Lt
  | _, _ => Qcompare (to_Q a) (to_Q b)
  end.

(** Comparison operators are three-valued: [None] is SQL's NULL. *)
Definition sql_cmp (test : comparison -> bool) (a b : value) : option bool :=
  if is_null a || is_null b then None else Some (test (compare_values a b)).

Definition sql_eq : value -> value -> option bool :=
  sql_cmp (fun c => match c with Eq => true | _ => false end).
Definition sql_ne : value -> value -> option bool :=
  sql_cmp (fun c => match c with Eq => false | _ => true end).
Definition sql_gt : value -> value -> option bool :=
  sql_cmp (fun c => match c with Gt => true | _ => false end).
Definition sql_ge : value -> value -> option bool :=
  sql_cmp (fun c => match c with Lt => false | _ => true end).
Definition sql_le : value -> value -> option bool :=
  sql_cmp (fun c => match c with Gt => false | _ => true end).

Definition sql_and (a b : option bool) : option bool :=
  match a, b with
  | Some false, _ | _, Some false => Some false
  | Some true, Some true => Some true
  | _, _ => None
  end.

Definition sql_or (a b : option bool) : option bool :=
  match a, b with
  | Some true, _ | _, Some true => Some true
  | Some false, Some false => Some false
  | _, _ => None
  end.

Definition is_not_null (v : value) : option bool := Some (negb (is_null v)).

(** [x BETWEEN lo AND hi]. *)
Definition sql_between (x lo hi : value) : option bool :=
  sql_and (sql_ge x lo) (sql_le x hi).

(** [x IN (v1, v2, ...)]. *)
Definition sql_in (x : value) (vs : list value) : option bool :=
  fold_right (fun v acc => sql_or (sql_eq x v) acc) (Some false) vs.

(** A WHERE or HAVING clause keeps a row when its condition is true. *)
Definition holds (c : option bool) : bool :=
  match c with Some true => true | _ => false end.

Fixpoint position (name : string) (cols : list (string * affinity)) : nat :=
  match cols with
  | [] => O
  | c :: cols' => if String.eqb (fst c) name then O else S (position name cols')
  end.

(** The value of column [name] in a row of table [t]. *)
Definition column (t : table_name) (name : string) (r : row) : value :=
  nth (position name (columns t)) r VNull.

(** [FROM t]: the rows of the table, or the error of a missing table. *)
Definition scan (t : table_name) (db : database) : exn + list row :=
  match get t db with
  | Some rows => inr rows
  | None => inl (no_such_table t)
  end.

(** DISTINCT and GROUP BY take two NULLs for the same value. *)
Definition same_value (a b : value) : bool :=
  match compare_values a b with Eq => true | _ => false end.

Fixpoint distinct (vs : list value) : list value :=
  match vs with
  | [] => []
  | v :: vs' => v :: filter (fun w => negb (same_value v w)) (distinct vs')
  end.

(** Aggregates skip NULL and give NULL on no value at all. *)
Definition agg_min (vs : list value) : value :=
  fold_left (fun acc v =>
      if is_null v then acc
      else if is_null acc then v
      else match compare_values v acc with Lt => v | _ => acc end)
    vs VNull.

Definition agg_max (vs : list value) : value :=
  fold_left (fun acc v =>
      if is_null v then acc
      else if is_null acc then v
      else match compare_values v acc with Gt => v | _ => acc end)
    vs VNull.

Definition agg_avg (vs : list value) : value :=
  let counted := filter (fun v => negb (is_null v)) vs in
  match counted with
  | [] => VNull
  | _ :: _ =>
      let total := fold_left (fun acc v => (acc + to_Q v)%Q) counted 0%Q in
      VReal (Qred (total / inject_Z (Z.of_nat (List.length counted))))
  end.

(** [ORDER BY key DESC], by insertion; rows of equal key keep their order. *)
Fixpoint insert_desc (key : row -> value) (r : row) (sorted : list row)
    : list row :=
  match sorted with
  | [] => [r]
  | r' :: rest =>
      match compare_values (key r) (key r') with
      | Gt => r :: sorted
      | _ => r' :: insert_desc key r rest
      end
  end.

Definition order_by_desc (key : row -> value) (rows : list row) : list row :=
  fold_left (fun sorted r => insert_desc key r sorted) rows [].

(** ** The nine SELECT statements

    Where SQL leaves the order of the result open, the rows come in the
    order of the scan. *)

Definition select_subjects_over_70 (db : database) : exn + list row :=
  match scan Subjects db with
  | inl e => inl e
  | inr rows =>
      inr (map (fun r => [column Subjects "SubjectID" r; column Subjects "Age" r])
             (filter (fun r => holds (sql_gt (column Subjects "Age" r) (VInt 70)))
                rows))
  end.

Definition select_females_with_healthy_BMI (db : database) : exn + list row :=
  match scan Subjects db with
  | inl e => inl e
  | inr rows =>
      inr (map (fun r => [column Subjects "SubjectID" r])
             (order_by_desc (column Subjects "SubjectID")
                (filter (fun r =>
                     holds (sql_and
                              (sql_eq (column Subjects "Sex" r) (VText "F"))
                              (sql_between (column Subjects "BMI" r)
                                 (VReal (185 # 10)) (VReal (249 # 10)))))
                   rows)))
  end.

Definition select_visits_by_ZNQOVZV (db : database) : exn + list row :=
  match scan Samples db with
  | inl e => inl e
  | inr rows =>
      inr (map (fun r => [column Samples "VisitID" r])
             (filter (fun r =>
                  holds (sql_eq (column Samples "SubjectID" r) (VText "ZNQOVZV")))
                rows))
  end.

Definition select_insulin_resistant (db : database) : exn + list row :=
  match scan Samples db, scan Subjects db with
  | inl e, _ => inl e
  | _, inl e => inl e
  | inr samples, inr subjects =>
      inr (map (fun v => [v])
             (distinct
                (flat_map (fun s =>
                     map (fun _ => column Samples "SubjectID" s)
                       (filter (fun sub =>
                            holds (sql_eq (column Samples "SubjectID" s)
                                     (column Subjects "SubjectID" sub))
                            && holds (sql_eq (column Subjects "InsulinStatus" sub)
                                        (VText "IR")))
                          subjects))
                   samples)))
  end.

Definition select_KEGG_ids (db : database) : exn + list row :=
  match scan Annotation db with
  | inl e => inl e
  | inr rows =>
      inr (map (fun v => [v])
             (distinct
                (map (column Annotation "KEGG")
                   (filter (fun r =>
                        holds (sql_in (column Annotation "PeakID" r)
                                 [VText "nHILIC_121.0505_3.5";
                                  VText "nHILIC_130.0872_6.3";
                                  VText "nHILIC_133.0506_2.3";
                                  VText "nHILIC_133.0506_4.4"]))
                      rows))))
  end.

(** The WHERE clause of query 6: [Age IS NOT NULL AND Age != 'NA']. *)
Definition age_is_valid (age : value) : bool :=
  holds (sql_and (is_not_null age) (sql_ne age (VText "NA"))).

(** An aggregate query without GROUP BY yields exactly one row. *)
Definition select_age_statistics (db : database) : exn + row :=
  match scan Subjects db with
  | inl e => inl e
  | inr rows =>
      let ages := filter age_is_valid (map (column Subjects "Age") rows) in
      inr [agg_min ages; agg_max ages; agg_avg ages]
  end.

Definition select_pathway_counts (db : database) : exn + list row :=
  match scan Annotation db with
  | inl e => inl e
  | inr rows =>
      let pathways := map (column Annotation "Pathway") rows in
      let groups :=
        map (fun p =>
               [p; VInt (Z.of_nat (List.length (filter (same_value p) pathways)))])
          (distinct pathways) in
      inr (order_by_desc (fun g => nth 1 g VNull)
             (filter (fun g => holds (sql_ge (nth 1 g VNull) (VInt 10))) groups))
  end.

Definition select_max_A1BG (db : database) : exn + row :=
  match scan TranscriptAbundance db, scan Samples db with
  | inl e, _ => inl e
  | _, inl e => inl e
  | inr abundances, inr samples =>
      let of_subject :=
        map (column Samples "SampleID")
          (filter (fun s =>
               holds (sql_eq (column Samples "SubjectID" s) (VText "ZOZOW1T")))
             samples) in
      inr [agg_max
             (map (column TranscriptAbundance "Abundance")
                (filter (fun r =>
                     holds (sql_and
                              (sql_eq (column TranscriptAbundance "TranscriptID" r)
                                 (VText "A1BG"))
                              (sql_in (column TranscriptAbundance "SampleID" r)
                                 of_subject)))
                   abundances))]
  end.

Definition select_age_bmi (db : database) : exn + list row :=
  match scan Subjects db with
  | inl e => inl e
  | inr rows =>
      inr (map (fun r => [column Subjects "Age" r; column Subjects "BMI" r])
             (filter (fun r =>
                  holds (sql_and (is_not_null (column Subjects "Age" r))
                           (is_not_null (column Subjects "BMI" r))))
                rows))
  end.

(** ** The query functions *)

(** Truth value of a Python list or tuple. *)
Definition nonempty {A} (l : list A) : bool :=
  match l with [] => false | _ :: _ => true end.

Definition subjects_over_70 (db : database) : io (list row) :=
  emit Connect ;;
  answer <- lift (select_subjects_over_70 db) ;;
  emit Close ;;
  if nonempty answer then ret answer
  else print (Text "No subjects over age 70.") ;; ret [].

Definition females_with_healthy_BMI (db : database) : io (list row) :=
  emit Connect ;;
  answer <- lift (select_females_with_healthy_BMI db) ;;
  emit Close ;;
  if nonempty answer then ret answer
  else print (Text "No Females with Healthy BMI.") ;; ret [].

Definition visits_by_ZNQOVZV (db : database) : io (list row) :=
  emit Connect ;;
  answer <- lift (select_visits_by_ZNQOVZV db) ;;
  emit Close ;;
  ret answer.

Definition subjects_metabolomic_insulin_resistant (db : database)
    : io (list row) :=
  emit Connect ;;
  answer <- lift (select_insulin_resistant db) ;;
  emit Close ;;
  if nonempty answer then ret answer
  else print (Text "No Insulin-Resistant Subjects with metabolomics samples found") ;;
       ret [].

Definition KEGG_id_retriever (db : database) : io (list row) :=
  emit Connect ;;
  answer <- lift (select_KEGG_ids db) ;;
  emit Close ;;
  if nonempty answer then ret answer
  else print (Text "No KEGG IDs found for specified peaks") ;; ret [].

(** The local variable [answer] is bound only when the statement ran:
    [None] stands for the unbound name. *)
Definition statistical_data_on_age (db : database) : io (list row) :=
  emit Connect ;;
  answer <- try_finally
              (try_except
                 (r <- lift (select_age_statistics db) ;; ret (Some r))
                 is_sqlite3_Error
                 (fun e => print (TextExn "Database error: " e) ;; ret None))
              (emit Close) ;;
  match answer with
  | None => raise (UnboundLocalError "answer")
  | Some answer =>
      (if negb (nonempty answer) || forallb is_null answer
       then print (Text "No valid data found.")
       else ret tt) ;;
      ret [answer]
  end.

Definition pathway_annotation_counter (db : database) : io (list row) :=
  emit Connect ;;
  answer <- lift (select_pathway_counts db) ;;
  emit Close ;;
  if nonempty answer then ret answer
  else print (Text "No pathways with at least 10 annotations found.") ;; ret [].

(** Returns the maximum, or [VNull] for Python's [None]. *)
Definition max_A1BG_abundance (db : database) : io value :=
  emit Connect ;;
  answer <- lift (select_max_A1BG db) ;;
  emit Close ;;
  if nonempty answer && negb (is_null (nth 0 answer VNull))
  then ret (nth 0 answer VNull)
  else print (Text "No data found for A1BG abundance for Subject 'ZOZOW1T'.") ;;
       ret VNull.

(** [isinstance(v, (int, float))]. *)
Definition is_number (v : value) : bool :=
  match v with VInt _ | VReal _ => true | _ => false end.

Definition age_bmi_plot (db : database) : io (list row) :=
  emit Connect ;;
  data <- lift (select_age_bmi db) ;;
  emit Close ;;
  print (TextRows "Retrieved data: " data) ;;
  let numeric_data :=
    filter (fun r => is_number (nth 0 r VNull) && is_number (nth 1 r VNull))
      data in
  let ages := map (fun r => nth 0 r VNull) numeric_data in
  let bmis := map (fun r => nth 1 r VNull) numeric_data in
  (if nonempty ages && nonempty bmis
   then emit (Savefig "age_vs_bmi_scatterplot.png") ;;
        print (Text "Plot saved as 'age_vs_bmi_scatterplot.png'")
   else print (Text "No valid Age and BMI data to plot.")) ;;
  ret data.

(** ** Command line *)

(** The parsed arguments.  A file option holds the rows of the file it
    names, [None] when the option is absent. *)
Record args : Type := mkargs {
  createdb : bool;
  loaddb : bool;
  querydb : option Z;
  subjects : option (list pydict);
  samples : option (list pydict);
  transcripts : option (list pydict);
  proteome : option (list pydict);
  metabolome : option (list pydict);
  annotations : option (list pydict)
}.

(** [if args.x: loader(args.x, db)]. *)
Definition when_given (file : option (list pydict))
    (loader : list pydict -> database -> io database) (db : database)
    : io database :=
  match file with
  | Some rows => loader rows db
  | None => ret db
  end.

Definition print_rows (answer : list row) : io unit :=
  for_each (fun r _ => print (TabJoined r)) answer tt.

(** [print(f"...{v:.2f}")]. *)
Definition print_fixed2 (prefix : string) (v : value) : io unit :=
  match v with
  | VInt _ | VReal _ => print (TextFixed2 prefix v)
  | VNull =>
      raise (TypeError "unsupported format string passed to NoneType.__format__")
  | VText _ =>
      raise (ValueError "Unknown format code 'f' for object of type 'str'")
  end.

(** Python truth of an optional integer: [None] and [0] are false. *)
Definition int_given (n : option Z) : bool :=
  match n with
  | Some z => negb (z =? 0)
  | None => false
  end.

Definition run_query (n : Z) (db : database) : io unit :=
  if n =? 1 then answer <- subjects_over_70 db ;; print_rows answer
  else if n =? 2 then answer <- females_with_healthy_BMI db ;; print_rows answer
  else if n =? 3 then answer <- visits_by_ZNQOVZV db ;; print_rows answer
  else if n =? 4 then
    answer <- subjects_metabolomic_insulin_resistant db ;; print_rows answer
  else if n =? 5 then answer <- KEGG_id_retriever db ;; print_rows answer
  else if n =? 6 then
    answer <- statistical_data_on_age db ;;
    match answer with
    | [] => print (Text "No valid age data")
    | [min_age; max_age; avg_age] :: _ =>
        print_fixed2 "Minimum Age: " min_age ;;
        print_fixed2 "Maximum Age: " max_age ;;
        print_fixed2 "Average Age: " avg_age
    | _ :: _ => raise (ValueError "wrong number of values to unpack")
    end
  else if n =? 7 then answer <- pathway_annotation_counter db ;; print_rows answer
  else if n =? 8 then
    answer <- max_A1BG_abundance db ;;
    print (TextValue "Maximum Abundance of A1BG: " answer)
  else if n =? 9 then
    answer <- age_bmi_plot db ;;
    if nonempty answer
    then print (Text "Age vs BMI data successfully retrieved and plotted.")
    else print (Text "No valid Age and BMI data available to plot.")
  else print (Text "Invalid query number. Please choose between 1 and 9.").

(** [main], from the parsed arguments and the database file on; returns
    the database file as the run leaves it. *)
Definition main (a : args) (db : database) : io database :=
  db <- (if createdb a
         then print (Text "Creating Database Structure") ;;
              db' <- database_struct db ;;
              print (Text "Database Structure has Been Created") ;;
              ret db'
         else ret db) ;;
  db <- (if loaddb a
         then db <- when_given (subjects a) subject_table_populator db ;;
              db <- when_given (samples a) sample_table_populator db ;;
              db <- when_given (transcripts a) transcriptome_populator db ;;
              db <- when_given (proteome a) protein_populator db ;;
              db <- when_given (metabolome a) Metabolite_populator db ;;
              db <- when_given (annotations a) Annotations_populator db ;;
              print (Text "All data loaded successfully.") ;;
              ret db
         else ret db) ;;
  (if int_given (querydb a)
   then match querydb a with
        | Some n => run_query n db
        | None => ret tt
        end
   else ret tt) ;;
  ret db.

(** * Vocabulary of the statements *)

(** The database that [database_struct] leaves when run on a new file. *)
Definition fresh_database : database :=
  mkdb (Some []) (Some []) (Some []) (Some []) (Some []) (Some []).

(** The arguments of a run that only asks for query [n]. *)
Definition only_query (n : Z) : args :=
  mkargs false false (Some n) None None None None None None.

(** [k in d]. *)
Definition has_key (d : pydict) (k : string) : bool :=
  existsb (fun kv => String.eqb (fst kv) k) d.

(** The value under [k], for use where the key is known to be present. *)
Definition field (d : pydict) (k : string) : pyval :=
  match find (fun kv => String.eqb (fst kv) k) d with
  | Some kv => snd kv
  | None => PNone
  end.

(** No row of [rows] has the primary key of an earlier one. *)
Definition collision_free (t : table_name) (rows : list row) : Prop :=
  ForallOrdPairs (fun earlier later => conflicts t later earlier = false) rows.

(** The columns that [subject_row] reads, in the order of the INSERT. *)
Definition subject_fields : list string :=
  ["SubjectID"; "Sex"; "Age"; "BMI"; "Race"; "SSPG"; "IR_IS_classification"].

(** The parameters that [subject_row] binds for a row with all fields. *)
Definition subject_params (row : pydict) : list pyval :=
  map (field row) subject_fields.

(** A subjects file whose rows have every field and no two of which collide
    on the primary key. *)
Definition subjects_file_ok (file : list pydict) : Prop :=
  Forall (fun row => forallb (has_key row) subject_fields = true) file
  /\ collision_free Subjects (map (fun row => bind_row Subjects (subject_params row)) file).

(** A line of a subjects file, as the reader yields it. *)
Definition subject (id sex age bmi race sspg status : string) : pydict :=
  [("SubjectID", PStr id); ("Sex", PStr sex); ("Age", PStr age);
   ("BMI", PStr bmi); ("Race", PStr race); ("SSPG", PStr sspg);
   ("IR_IS_classification", PStr status)].

(** The columns of a line other than the sample identifier. *)
Definition data_items (row : pydict) : pydict :=
  filter (fun kv => negb (String.eqb (fst kv) "SampleID")) row.

(** The parameters of the INSERT statements of a wide-format load, in
    order: one triple per line and data column. *)
Definition pivot (file : list pydict) : list (list pyval) :=
  flat_map (fun row =>
      map (fun item => [field row "SampleID"; PStr (fst item); snd item])
        (data_items row))
    file.

(** What a wide-format load is expected to leave in its table [t]: the
    pivot of the file, [N] rows per line. *)
Definition loads_pivot (loader : list pydict -> database -> io database)
    (t : table_name) (file : list pydict) (db : database) (N : nat) : Prop :=
  exists tr db' rows,
    loader file db = (tr, inr db')
    /\ get t db' = Some rows
    /\ rows = map (bind_row t) (pivot file)
    /\ List.length rows = (N * List.length file)%nat.

(** A line of an abundance file with two analyte columns. *)
Definition abundance_line (sample a b : string) : pydict :=
  [("SampleID", PStr sample); ("A1BG", PStr a); ("A2M", PStr b)].

(** The value is the text NA. *)
Definition is_text_NA (v : value) : bool :=
  match v with
  | VText s => String.eqb s "NA"
  | _ => false
  end.

(** The ages that query 6 aggregates. *)
Definition valid_ages (rows : table) : list value :=
  filter (fun v => negb (is_null v) && negb (is_text_NA v))
    (map (column Subjects "Age") rows).

(** The statistics "over exactly the non-null Age values", in the words of
    the specification, with the aggregates of the store. *)
Definition age_statistics_over_non_null (rows : table) : row :=
  let ages := filter (fun v => negb (is_null v))
                (map (column Subjects "Age") rows) in
  [agg_min ages; agg_max ages; agg_avg ages].

(** The Subjects table that the loader leaves for a subject aged 10 and a
    subject whose age is given as NA. *)
Definition rows_with_NA_age : table :=
  [[VText "S1"; VText "F"; VInt 10; VReal (112 # 5);
    VText "C"; VText "NA"; VText "IS"];
   [VText "S2"; VText "M"; VText "NA"; VReal (301 # 10);
    VText "A"; VReal (91 # 1); VText "IR"]].

(** A created database whose Subjects table holds these two rows. *)
Definition subjects_with_NA_age : database :=
  set Subjects (Some rows_with_NA_age) fresh_database.

(** The text splits on the dash into exactly two parts. *)
Definition splits_in_two (s : string) : bool :=
  Nat.eqb (List.length (split "-" s)) 2.

(** A row that the loop gets past: it has no SampleID, or its SampleID
    splits into exactly two parts. *)
Definition sample_row_loads (row : pydict) : Prop :=
  has_key row "SampleID" = false
  \/ exists s, field row "SampleID" = PStr s /\ splits_in_two s = true.

(** The text of an integer, as concatenation renders it. *)
Definition text_of_int (z : Z) : string := NilZero.string_of_int (Z.to_int z).

(** A row of Samples as the loop stores it: the identifier is the subject
    part, a dash and the visit part, and the visit part went through the
    INTEGER affinity of the VisitID column. *)
Definition split_shape (r : row) : Prop :=
  exists subj visit,
    r = [VText (subj ++ "-" ++ visit); VText subj;
         store AffInteger (PStr visit)].

(** The common frame of the six loaders: connect, empty the table, run the
    loop over the rows of the file, commit, close, report. *)
Definition run_loader (t : table_name)
    (body : pydict -> database -> io database) (done : string)
    (file : list pydict) (db : database) : io database :=
  emit Connect ;;
  cur <- lift (delete_from t db) ;;
  cur <- for_each body file cur ;;
  emit Commit ;;
  emit Close ;;
  print (Text done) ;;
  ret cur.

(** The six loaders, each with its table and the body of its loop. *)
Definition loaders
    : list (table_name * (pydict -> database -> io database)
            * (list pydict -> database -> io database)) :=
  [(Subjects, subject_row, subject_table_populator);
   (Samples, sample_row, sample_table_populator);
   (TranscriptAbundance, wide_row TranscriptAbundance, transcriptome_populator);
   (ProteinAbundance, wide_row ProteinAbundance, protein_populator);
   (MetaboliteAbundance, wide_row MetaboliteAbundance, Metabolite_populator);
   (Annotation, annotation_row, Annotations_populator)].

(** [inserts t c c']: [c'] comes from [c] by a run of successful INSERT or
    INSERT OR IGNORE statements on table [t]. *)
Inductive inserts (t : table_name) : database -> database -> Prop :=
| inserts_none (c : database) : inserts t c c
| inserts_step (c c1 c' : database) (p : list pyval) :
    insert_into t p c = inr c1 \/ insert_or_ignore t p c = inr c1 ->
    inserts t c1 c' ->
    inserts t c c'.

(** The trace holds nothing but [print] events. *)
Definition only_prints (tr : list event) : Prop :=
  Forall (fun ev => exists l, ev = Print l) tr.

(** The columns that [annotation_row] reads, in the order of the INSERT. *)
Definition annotation_fields : list string :=
  ["PeakID"; "Metabolite"; "KEGG"; "HMDB"; "Pathway"].

(** The rows that a subjects file gives, in file order. *)
Definition subject_rows (file : list pydict) : table :=
  map (fun row => bind_row Subjects (subject_params row)) file.

(** A bound parameter stored without conversion. *)
Definition as_given (p : pyval) : value :=
  match p with
  | PStr s => VText s
  | PNone => VNull
  end.

(** The rows that an annotation file gives: every field as given. *)
Definition annotation_rows (file : list pydict) : table :=
  map (fun row => map (fun k => as_given (field row k)) annotation_fields) file.

(** An annotation file whose rows have the five fields and no two of which
    have the same PeakID and the same Metabolite. *)
Definition annotations_file_ok (file : list pydict) : Prop :=
  Forall (fun row => forallb (has_key row) annotation_fields = true) file
  /\ collision_free Annotation (annotation_rows file).

(** The identifier of a samples row with its two parts, when it has them. *)
Definition sample_parts (row : pydict) : list (string * string * string) :=
  match field row "SampleID" with
  | PStr s =>
      match split "-" s with
      | [a; b] => [(s, a, b)]
      | _ => []
      end
  | PNone => []
  end.

(** The row of Samples for an identifier and its parts. *)
Definition sample_record (parts : string * string * string) : row :=
  [VText (fst (fst parts)); VText (snd (fst parts));
   store AffInteger (PStr (snd parts))].

(** The rows that a samples file gives, in file order. *)
Definition sample_rows (file : list pydict) : table :=
  map sample_record (flat_map sample_parts file).

(** The result of query 3 expected from a samples file: the stored visits
    of the lines whose subject part is ZNQOVZV. *)
Definition visits_of_ZNQOVZV (file : list pydict) : list row :=
  map (fun parts => [store AffInteger (PStr (snd parts))])
    (filter (fun parts => String.eqb (snd (fst parts)) "ZNQOVZV")
       (flat_map sample_parts file)).

(** What [Age > 70] keeps: integers and reals above 70, and every text,
    since text sorts after all numbers; NULL is never kept. *)
Definition over_70 (age : value) : bool :=
  match age with
  | VInt z => 70 <? z
  | VReal q => negb (Qle_bool q (70 # 1))
  | VText _ => true
  | VNull => false
  end.

(** The rows of Subjects that query 9 returns: Age and BMI of the rows
    where neither is NULL. *)
Definition age_bmi_rows (rows : table) : list row :=
  map (fun r => [column Subjects "Age" r; column Subjects "BMI" r])
    (filter (fun r => negb (is_null (column Subjects "Age" r))
                      && negb (is_null (column Subjects "BMI" r)))
       rows).

(** A row of query 9 that can be plotted: both values are numbers. *)
Definition plottable (r : row) : bool :=
  is_number (nth 0 r VNull) && is_number (nth 1 r VNull).

(** The abundances that query 8 takes the maximum of: those of transcript
    A1BG in samples of subject ZOZOW1T. *)
Definition A1BG_abundances (abundances samples : table) : list value :=
  map (column TranscriptAbundance "Abundance")
    (filter (fun r =>
         holds (sql_eq (column TranscriptAbundance "TranscriptID" r)
                  (VText "A1BG"))
         && existsb (fun s =>
                holds (sql_eq (column Samples "SubjectID" s) (VText "ZOZOW1T"))
                && holds (sql_eq (column TranscriptAbundance "SampleID" r)
                            (column Samples "SampleID" s)))
              samples)
       abundances).

(** Samples of two subjects, two of them of ZOZOW1T. *)
Definition sample_rows_of_two_subjects : table :=
  [[VText "ZOZOW1T-01"; VText "ZOZOW1T"; VInt 1];
   [VText "ZOZOW1T-02"; VText "ZOZOW1T"; VInt 2];
   [VText "S2-01"; VText "S2"; VInt 1]].

(** Abundances of two transcripts in these samples. *)
Definition abundance_rows_of_two_subjects : table :=
  [[VText "ZOZOW1T-01"; VText "A1BG"; VReal (3 # 2)];
   [VText "ZOZOW1T-02"; VText "A1BG"; VReal (5 # 2)];
   [VText "S2-01"; VText "A1BG"; VReal (9 # 1)];
   [VText "ZOZOW1T-02"; VText "A2M"; VReal (7 # 1)]].

(** A created database holding these samples and abundances. *)
Definition transcripts_of_two_subjects : database :=
  set TranscriptAbundance (Some abundance_rows_of_two_subjects)
    (set Samples (Some sample_rows_of_two_subjects) fresh_database).

(** What [BMI BETWEEN 18.5 AND 24.9] keeps: the numbers from 18.5 to 24.9,
    bounds included; no text and no NULL. *)
Definition healthy_bmi (bmi : value) : bool :=
  match bmi with
  | VInt z => Qle_bool (185 # 10) (inject_Z z) && Qle_bool (inject_Z z) (249 # 10)
  | VReal q => Qle_bool (185 # 10) q && Qle_bool q (249 # 10)
  | _ => false
  end.

(** The value is the text [s]. *)
Definition is_text (s : string) (v : value) : bool :=
  match v with
  | VText s' => String.eqb s' s
  | _ => false
  end.

(** The rows of Subjects that query 2 selects. *)
Definition healthy_females (rows : table) : list row :=
  filter (fun r => is_text "F" (column Subjects "Sex" r)
                   && healthy_bmi (column Subjects "BMI" r))
    rows.

(** [a] does not come before [b] in the order of the store: the relation
    between neighbours of a list in descending order. *)
Definition not_before (key : row -> value) (a b : row) : Prop :=
  compare_values (key a) (key b) <> Lt.

(** The number of annotation rows whose Pathway is [p]. *)
Definition annotations_of (rows : table) (p : value) : Z :=
  Z.of_nat (List.length
              (filter (same_value p) (map (column Annotation "Pathway") rows))).

(** The four peaks of query 5. *)
Definition queried_peaks : list string :=
  ["nHILIC_121.0505_3.5"; "nHILIC_130.0872_6.3";
   "nHILIC_133.0506_2.3"; "nHILIC_133.0506_4.4"].

(** No two values of the list are the same for DISTINCT. *)
Definition pairwise_distinct (vs : list value) : Prop :=
  ForallOrdPairs (fun a b => same_value a b = false) vs.

(** Twelve annotations: ten of one pathway and two of another. *)
Definition twelve_annotations : table :=
  map (fun m => [VText "nHILIC_121.0505_3.5"; VText m; VText "C00245";
                 VText "HMDB00251"; VText "Taurine metabolism"])
    ["m01"; "m02"; "m03"; "m04"; "m05"; "m06"; "m07"; "m08"; "m09"; "m10"]
  ++ map (fun m => [VText "nHILIC_130.0872_6.3"; VText m; VNull;
                    VText "HMDB00001"; VText "Lysine degradation"])
       ["m11"; "m12"].

(** A created database holding these annotations. *)
Definition database_of_twelve_annotations : database :=
  set Annotation (Some twelve_annotations) fresh_database.

(** The subjects of the samples that query 4 joins to an insulin-resistant
    subject, one per matching pair, before DISTINCT. *)
Definition resistant_sample_subjects (samples subjects : table) : list value :=
  flat_map (fun s =>
      map (fun _ => column Samples "SubjectID" s)
        (filter (fun sub =>
             holds (sql_eq (column Samples "SubjectID" s)
                      (column Subjects "SubjectID" sub))
             && is_text "IR" (column Subjects "InsulinStatus" sub))
           subjects))
    samples.

(** The KEGG values of the annotations of the four peaks, before
    DISTINCT. *)
Definition queried_keggs (rows : table) : list value :=
  map (column Annotation "KEGG")
    (filter (fun r =>
         existsb (fun peak => is_text peak (column Annotation "PeakID" r))
           queried_peaks)
       rows).

(** The arguments of a run with [--createdb --loaddb --subjects file]. *)
Definition create_and_load_subjects (file : list pydict) : args :=
  mkargs true true None (Some file) None None None None None.

(** * Properties *)

(** ** Affinity at work *)

(** Text that reads as a number is stored as a number in an INTEGER or REAL
    column; other text stays text; a TEXT column keeps everything. *)
Example store_integer_column :
  map (store AffInteger)
    [PStr "01"; PStr " 12 "; PStr "1e2"; PStr "1.5"; PStr "-7";
     PStr "NA"; PStr "E1"; PStr "12abc"; PStr EmptyString; PNone]
  = [VInt 1; VInt 12; VInt 100; VReal (3 # 2); VInt (-7);
     VText "NA"; VText "E1"; VText "12abc"; VText EmptyString; VNull].
Proof. reflexivity. Qed.

Example store_real_column :
  map (store AffReal) [PStr "20"; PStr "24.9"; PStr "-.5e-1"; PStr "NA"; PNone]
  = [VReal (20 # 1); VReal (249 # 10); VReal (-1 # 20); VText "NA"; VNull].
Proof. reflexivity. Qed.

Example store_text_column :
  map (store AffText) [PStr "01"; PStr "NA"; PNone]
  = [VText "01"; VText "NA"; VNull].
Proof. reflexivity. Qed.

(** ** The monad *)

Lemma bind_ret {A B} (a : A) (f : A -> io B) : bind (ret a) f = f a.
Proof. unfold bind, ret; simpl. now destruct (f a). Qed.

Lemma bind_raise {A B} (e : exn) (f : A -> io B) : bind (raise e) f = raise e.
Proof. reflexivity. Qed.

Lemma bind_returns {A B} (tr : list event) (a : A) (f : A -> io B) :
  bind (tr, inr a) f = (tr ++ fst (f a), snd (f a)).
Proof. reflexivity. Qed.

Lemma bind_raises {A B} (tr : list event) (e : exn) (f : A -> io B) :
  bind (tr, inl e) f = (tr, inl e).
Proof. reflexivity. Qed.

Lemma bind_eq {A B} (m : io A) (f : A -> io B)
    (tr tr' : list event) (a : A) (r : exn + B) :
  m = (tr, inr a) -> f a = (tr', r) -> bind m f = (tr ++ tr', r).
Proof. intros -> H. unfold bind; simpl. now rewrite H. Qed.

Lemma for_each_map {A B S} (h : A -> B) (g : B -> S -> io S) (l : list A) (s : S) :
  for_each (fun a s => g (h a) s) l s = for_each g (map h l) s.
Proof.
  revert s; induction l as [|a l IH]; intros s; simpl; [reflexivity|].
  unfold bind. destruct (snd (g (h a) s)); [reflexivity|now rewrite IH].
Qed.

Lemma for_each_ext {A S} (f g : A -> S -> io S) (l : list A) (s : S) :
  (forall a s', In a l -> f a s' = g a s') ->
  for_each f l s = for_each g l s.
Proof.
  revert s; induction l as [|a l IH]; intros s H; simpl; [reflexivity|].
  rewrite (H a s (or_introl eq_refl)).
  unfold bind; destruct (snd (g a s)) as [e|s']; [reflexivity|].
  rewrite IH; [reflexivity|]. intros; apply H; now right.
Qed.

Lemma for_each_app {A S} (f : A -> S -> io S) (l1 l2 : list A) (s : S) :
  for_each f (l1 ++ l2) s = bind (for_each f l1 s) (for_each f l2).
Proof.
  revert s; induction l1 as [|a l1 IH]; intros s; simpl.
  - now rewrite bind_ret.
  - unfold bind at 1 3. destruct (f a s) as [tr [e|s']]; simpl; [reflexivity|].
    rewrite IH. unfold bind.
    destruct (for_each f l1 s') as [tr1 [e|s1]]; simpl; [reflexivity|].
    now rewrite app_assoc.
Qed.

(** ** The store *)

Lemma get_set_same (t : table_name) (v : option table) (db : database) :
  get t (set t v db) = v.
Proof. now destruct t. Qed.

Lemma get_set_other (t u : table_name) (v : option table) (db : database) :
  t <> u -> get u (set t v db) = get u db.
Proof. destruct t, u; simpl; congruence. Qed.

Lemma set_set (t : table_name) (v w : option table) (db : database) :
  set t v (set t w db) = set t v db.
Proof. now destruct t. Qed.

Lemma set_get (t : table_name) (db : database) : set t (get t db) db = db.
Proof. now destruct t, db. Qed.

Lemma database_struct_creates :
  database_struct empty_database
  = ([Connect; Print (Text "Database Construction Has Begun"); Commit; Close],
     inr fresh_database).
Proof. reflexivity. Qed.

Lemma executescript_keeps (script : list table_name) (db : database)
    (t : table_name) (rows : table) :
  get t db = Some rows ->
  get t (fst (executescript script db)) = Some rows.
Proof.
  revert db; induction script as [|u script IH]; intros db H; simpl; [exact H|].
  unfold create_table. destruct (get u db) eqn:Hu; simpl; [exact H|].
  apply IH. rewrite get_set_other; [exact H|]. intros ->; congruence.
Qed.

(** Whatever the state of the file, [database_struct] returns, closes its
    connection, and leaves every table that existed with the rows it had. *)
Lemma database_struct_preserves (db : database) (t : table_name) (rows : table) :
  get t db = Some rows ->
  exists tr db',
    database_struct db = (tr, inr db')
    /\ get t db' = Some rows
    /\ last tr Connect = Close.
Proof.
  intros H. pose proof (executescript_keeps schema_script db t rows H) as K.
  unfold database_struct.
  destruct (executescript schema_script db) as [db' [e|]] eqn:E; simpl in K.
  - assert (Hs : is_sqlite3_Error e = true).
    { clear K. revert db H E. generalize schema_script.
      induction l as [|u l IH]; intros db H E; simpl in E; [discriminate|].
      unfold create_table in E. destruct (get u db) eqn:Hu.
      - now inversion E.
      - eapply (IH (set u (Some []) db)); [|exact E].
        rewrite get_set_other; [exact H|]. intros ->; congruence. }
    destruct e; try discriminate Hs; eexists _, db'; (split; [reflexivity|]);
      split; auto.
  - eexists _, db'; split; [reflexivity|]; split; auto.
Qed.

(** C8. Running [database_struct] against a database in which the tables
    already exist catches the table-exists error, logs it, closes the
    connection and returns with the database exactly as it was: the trace is
    connect, the start message, the logged error, close. *)
Theorem database_struct_on_existing_tables (db : database) :
  (forall t, get t db <> None) ->
  database_struct db
  = ([Connect;
      Print (Text "Database Construction Has Begun");
      Print (TextExn "SQLite error: "
               (OperationalError "table Subjects already exists"));
      Close],
     inr db).
Proof.
  intros H. specialize (H Subjects).
  unfold database_struct, schema_script; simpl executescript.
  unfold create_table. destruct (get Subjects db); [reflexivity|congruence].
Qed.

Lemma database_struct_on_existing_tables_witness :
  database_struct fresh_database
  = ([Connect;
      Print (Text "Database Construction Has Begun");
      Print (TextExn "SQLite error: "
               (OperationalError "table Subjects already exists"));
      Close],
     inr fresh_database).
Proof.
  apply (database_struct_on_existing_tables fresh_database).
  intros t; destruct t; discriminate.
Defined.

(** ** The dispatcher *)

(** Any number other than 0 and outside 1..9 is reported and no query
    function is entered. *)
Lemma invalid_query_number_reported (n : Z) (db : database) :
  n <> 0 -> n < 1 \/ 9 < n ->
  main (only_query n) db
  = ([Print (Text "Invalid query number. Please choose between 1 and 9.")],
     inr db).
Proof.
  intros H0 Hn. unfold main, only_query; simpl.
  rewrite !bind_ret. unfold int_given.
  destruct (Z.eqb_spec n 0) as [|_]; [contradiction|]. simpl.
  unfold run_query.
  repeat match goal with
         | |- context [?a =? ?b] => destruct (Z.eqb_spec a b); [lia|]
         end.
  reflexivity.
Qed.

(** C9, at the number the dispatcher mishandles: [--querydb 0] is not between
    1 and 9, yet the run prints nothing at all (no error message) and returns;
    the test [if args.querydb:] takes 0 for an absent option. *)
Theorem querydb_zero_is_silent (db : database) :
  main (only_query 0) db = ([], inr db).
Proof. reflexivity. Qed.

(** ** Query 6 when the statement fails *)

Lemma select_age_statistics_error (db : database) (e : exn) :
  select_age_statistics db = inl e -> is_sqlite3_Error e = true.
Proof.
  unfold select_age_statistics, scan. destruct (get Subjects db); [discriminate|].
  now intros [= <-].
Qed.

(** C10. If the SQL statement of [statistical_data_on_age] raises a database
    error, the function prints the error, closes the connection and then
    raises a NameError (an UnboundLocalError) at the test of [answer], which
    was never bound; it returns no value. *)
Theorem statistical_data_on_age_unbound (db : database) (e : exn) :
  select_age_statistics db = inl e ->
  statistical_data_on_age db
  = ([Connect; Print (TextExn "Database error: " e); Close],
     inl (UnboundLocalError "answer"))
  /\ is_NameError (UnboundLocalError "answer") = true.
Proof.
  intros H. pose proof (select_age_statistics_error db e H) as Hs.
  unfold statistical_data_on_age. rewrite H.
  split; [|reflexivity].
  unfold try_except, try_finally; simpl. rewrite Hs. reflexivity.
Qed.

Lemma statistical_data_on_age_unbound_witness :
  statistical_data_on_age empty_database
  = ([Connect;
      Print (TextExn "Database error: "
               (OperationalError "no such table: Subjects"));
      Close],
     inl (UnboundLocalError "answer"))
  /\ is_NameError (UnboundLocalError "answer") = true.
Proof.
  apply (statistical_data_on_age_unbound empty_database). reflexivity.
Defined.

(** ** Rows of the reader *)

Lemma find_has_key (d : pydict) (k : string) :
  has_key d k = true ->
  exists kv, find (fun kv => String.eqb (fst kv) k) d = Some kv.
Proof.
  unfold has_key. induction d as [|kv d IH]; simpl; [discriminate|].
  destruct (String.eqb (fst kv) k); simpl; eauto.
Qed.

Lemma find_no_key (d : pydict) (k : string) :
  has_key d k = false ->
  find (fun kv => String.eqb (fst kv) k) d = None.
Proof.
  unfold has_key. induction d as [|kv d IH]; simpl; [reflexivity|].
  destruct (String.eqb (fst kv) k); simpl; [discriminate|exact IH].
Qed.

Lemma getitem_field (d : pydict) (k : string) :
  has_key d k = true -> getitem d k = ret (field d k).
Proof.
  intros H. destruct (find_has_key d k H) as [kv E].
  unfold getitem, field. now rewrite E.
Qed.

Lemma getitem_missing (d : pydict) (k : string) :
  has_key d k = false -> getitem d k = raise (KeyError k).
Proof. intros H. unfold getitem. now rewrite (find_no_key d k H). Qed.

(** ** A run of INSERT statements *)

(** Runs a loader whose table exists ([Hdel]) and whose loop is known
    ([Hloop]): connect, DELETE, the loop, commit, close, the final message. *)
Ltac loader_run Hdel Hloop :=
  etransitivity;
  [ eapply bind_eq; [reflexivity|];
    eapply bind_eq; [unfold delete_from; rewrite Hdel; reflexivity|];
    eapply bind_eq; [exact Hloop|];
    reflexivity
  | cbv beta; rewrite set_set; reflexivity ].

Lemma existsb_false {A} (p : A -> bool) (l : list A) :
  (forall x, In x l -> p x = false) -> existsb p l = false.
Proof.
  induction l as [|a l IH]; intros H; simpl; [reflexivity|].
  rewrite (H a (or_introl eq_refl)), IH; [reflexivity|].
  intros; apply H; now right.
Qed.

Lemma insert_all (t : table_name) (params : list (list pyval)) :
  forall (old : table) (db : database),
    get t db = Some old ->
    (forall p r', In p params -> In r' old -> conflicts t (bind_row t p) r' = false) ->
    collision_free t (map (bind_row t) params) ->
    for_each (fun p cur => lift (insert_into t p cur)) params db
    = ([], inr (set t (Some (old ++ map (bind_row t) params)) db)).
Proof.
  induction params as [|p params IH]; intros old db Hget Hold Hfree; simpl.
  - rewrite app_nil_r. pose proof (set_get t db) as E. rewrite Hget in E.
    unfold ret. do 2 f_equal. symmetry; exact E.
  - unfold collision_free in Hfree; simpl in Hfree.
    inversion Hfree as [|a l Hhead Htail]; subst.
    unfold insert_into at 1. rewrite Hget.
    rewrite existsb_false by (intros r' Hr'; apply Hold; [now left|exact Hr']).
    unfold lift at 1. rewrite bind_returns. simpl app.
    rewrite (IH (old ++ [bind_row t p])).
    + simpl. now rewrite set_set, <- app_assoc.
    + apply get_set_same.
    + intros q r' Hq Hr'. apply in_app_or in Hr' as [Hr'|[<-|[]]].
      * apply Hold; [now right|exact Hr'].
      * rewrite Forall_forall in Hhead. apply Hhead. now apply in_map.
    + exact Htail.
Qed.

(** ** The subject loader *)

Lemma subject_row_insert (row : pydict) (cur : database) :
  forallb (has_key row) subject_fields = true ->
  subject_row row cur = lift (insert_into Subjects (subject_params row) cur).
Proof.
  simpl. rewrite !andb_true_iff.
  intros (H1 & H2 & H3 & H4 & H5 & H6 & H7 & _).
  unfold subject_row.
  rewrite (getitem_field _ _ H1), (getitem_field _ _ H2), (getitem_field _ _ H3),
    (getitem_field _ _ H4), (getitem_field _ _ H5), (getitem_field _ _ H6),
    (getitem_field _ _ H7).
  now rewrite !bind_ret.
Qed.

Lemma subject_rows_insert (file : list pydict) (cur : database) :
  get Subjects cur = Some [] ->
  subjects_file_ok file ->
  for_each subject_row file cur
  = ([], inr (set Subjects
                (Some (map (fun row => bind_row Subjects (subject_params row)) file))
                cur)).
Proof.
  intros Hcur [Hkeys Hfree].
  rewrite (for_each_ext subject_row
             (fun row cur => lift (insert_into Subjects (subject_params row) cur))).
  2:{ intros row s Hin. apply subject_row_insert.
      rewrite Forall_forall in Hkeys. now apply Hkeys. }
  rewrite (for_each_map subject_params (fun p cur => lift (insert_into Subjects p cur))).
  rewrite (insert_all Subjects (map subject_params file) []).
  - simpl. now rewrite map_map.
  - exact Hcur.
  - intros _ r' _ [].
  - now rewrite map_map.
Qed.

Lemma subject_table_populator_ok (file : list pydict) (db : database) :
  get Subjects db <> None ->
  subjects_file_ok file ->
  subject_table_populator file db
  = ([Connect; Commit; Close;
      Print (Text "Subjects table populated successfully.")],
     inr (set Subjects
            (Some (map (fun row => bind_row Subjects (subject_params row)) file))
            db)).
Proof.
  intros Hdb Hok. unfold subject_table_populator.
  destruct (get Subjects db) as [old|] eqn:E; [clear Hdb|congruence].
  pose proof (subject_rows_insert file (set Subjects (Some []) db)
                (get_set_same _ _ _) Hok) as L.
  loader_run E L.
Qed.

(** C6. A load of the subjects table replaces its content: for well-formed
    files A and B (every row has the seven fields, no primary-key collision
    inside a file) and a database that has the table, loading A and then B
    succeeds twice and leaves in Subjects exactly the rows derived from B, in
    file order; nothing of A remains. *)
Theorem subject_load_replaces (A B : list pydict) (db : database) :
  get Subjects db <> None ->
  subjects_file_ok A ->
  subjects_file_ok B ->
  exists trA dbA trB dbB,
    subject_table_populator A db = (trA, inr dbA)
    /\ subject_table_populator B dbA = (trB, inr dbB)
    /\ get Subjects dbB
       = Some (map (fun row => bind_row Subjects (subject_params row)) B).
Proof.
  intros Hdb HA HB.
  pose proof (subject_table_populator_ok A db Hdb HA) as EA.
  set (dbA := set Subjects _ db) in EA.
  assert (HdbA : get Subjects dbA <> None)
    by (unfold dbA; rewrite get_set_same; discriminate).
  pose proof (subject_table_populator_ok B dbA HdbA HB) as EB.
  eexists _, dbA, _, _. split; [exact EA|]. split; [exact EB|].
  apply get_set_same.
Qed.

Lemma subject_load_replaces_witness :
  exists trA dbA trB dbB,
    subject_table_populator
      [subject "S1" "F" "61" "22.4" "C" "NA" "IS";
       subject "S2" "M" "NA" "30.1" "A" "91" "IR"] fresh_database
    = (trA, inr dbA)
    /\ subject_table_populator
         [subject "S3" "F" "45" "NA" "B" "40.5" "IS"] dbA
       = (trB, inr dbB)
    /\ get Subjects dbB
       = Some (map (fun row => bind_row Subjects (subject_params row))
                 [subject "S3" "F" "45" "NA" "B" "40.5" "IS"]).
Proof.
  apply (subject_load_replaces
           [subject "S1" "F" "61" "22.4" "C" "NA" "IS";
            subject "S2" "M" "NA" "30.1" "A" "91" "IR"]
           [subject "S3" "F" "45" "NA" "B" "40.5" "IS"]
           fresh_database).
  - discriminate.
  - split; [repeat constructor|].
    unfold collision_free; simpl. repeat constructor.
  - split; [repeat constructor|].
    unfold collision_free; simpl. repeat constructor.
Defined.

Lemma column_age_of_subject (row : pydict) :
  column Subjects "Age" (bind_row Subjects (subject_params row))
  = store AffInteger (field row "Age").
Proof. reflexivity. Qed.

(** C1, as the code has it: the loader computes the null-coerced [age] and
    then binds [row['Age']] all the same.  After a successful load every
    input row whose Age is the string NA or the empty string sits in Subjects
    with that very text as its Age, which is not null. *)
Theorem subject_age_sentinel_stored_as_text (file : list pydict) (db : database) :
  get Subjects db <> None ->
  subjects_file_ok file ->
  exists tr db' rows,
    subject_table_populator file db = (tr, inr db')
    /\ get Subjects db' = Some rows
    /\ forall i row a,
         nth_error file i = Some row ->
         field row "Age" = PStr a ->
         a = "NA" \/ a = EmptyString ->
         exists r,
           nth_error rows i = Some r
           /\ column Subjects "Age" r = VText a
           /\ column Subjects "Age" r <> VNull.
Proof.
  intros Hdb Hok.
  eexists _, _, _. split; [apply subject_table_populator_ok; assumption|].
  split; [apply get_set_same|].
  intros i row a Hi Ha Hs.
  exists (bind_row Subjects (subject_params row)).
  split.
  { exact (map_nth_error (fun row => bind_row Subjects (subject_params row))
             i file Hi). }
  rewrite column_age_of_subject, Ha.
  destruct Hs as [-> | ->]; split; (reflexivity || discriminate).
Qed.

Lemma subject_age_sentinel_stored_as_text_witness :
  exists tr db' rows,
    subject_table_populator
      [subject "S1" "F" "NA" "22.4" "C" "NA" "IS";
       subject "S2" "M" EmptyString "30.1" "A" "91" "IR"] fresh_database
    = (tr, inr db')
    /\ get Subjects db' = Some rows
    /\ forall i row a,
         nth_error
           [subject "S1" "F" "NA" "22.4" "C" "NA" "IS";
            subject "S2" "M" EmptyString "30.1" "A" "91" "IR"] i = Some row ->
         field row "Age" = PStr a ->
         a = "NA" \/ a = EmptyString ->
         exists r,
           nth_error rows i = Some r
           /\ column Subjects "Age" r = VText a
           /\ column Subjects "Age" r <> VNull.
Proof.
  apply (subject_age_sentinel_stored_as_text
           [subject "S1" "F" "NA" "22.4" "C" "NA" "IS";
            subject "S2" "M" EmptyString "30.1" "A" "91" "IR"]
           fresh_database).
  - discriminate.
  - split; [repeat constructor|].
    unfold collision_free; simpl. repeat constructor.
Defined.

(** The same run, evaluated: both sentinels arrive in the table as text. *)
Example subject_age_sentinel_run :
  subject_table_populator
    [subject "S1" "F" "NA" "22.4" "C" "NA" "IS";
     subject "S2" "M" EmptyString "30.1" "A" "91" "IR"] fresh_database
  = ([Connect; Commit; Close;
      Print (Text "Subjects table populated successfully.")],
     inr (set Subjects
            (Some [[VText "S1"; VText "F"; VText "NA"; VReal (112 # 5);
                    VText "C"; VText "NA"; VText "IS"];
                   [VText "S2"; VText "M"; VText EmptyString; VReal (301 # 10);
                    VText "A"; VReal (91 # 1); VText "IR"]])
            fresh_database)).
Proof. vm_compute. reflexivity. Qed.

(** ** Queries on an empty result *)

(** The query functions that test their answer print a message and return
    the empty list when the statement yields no row; the two aggregate
    queries do so when their single row holds only NULL. *)
Lemma queries_report_empty_result (db : database) :
  (select_subjects_over_70 db = inr [] ->
   subjects_over_70 db
   = ([Connect; Close; Print (Text "No subjects over age 70.")], inr []))
  /\ (select_females_with_healthy_BMI db = inr [] ->
      females_with_healthy_BMI db
      = ([Connect; Close; Print (Text "No Females with Healthy BMI.")], inr []))
  /\ (select_insulin_resistant db = inr [] ->
      subjects_metabolomic_insulin_resistant db
      = ([Connect; Close;
          Print (Text "No Insulin-Resistant Subjects with metabolomics samples found")],
         inr []))
  /\ (select_KEGG_ids db = inr [] ->
      KEGG_id_retriever db
      = ([Connect; Close; Print (Text "No KEGG IDs found for specified peaks")],
         inr []))
  /\ (select_age_statistics db = inr [VNull; VNull; VNull] ->
      statistical_data_on_age db
      = ([Connect; Close; Print (Text "No valid data found.")],
         inr [[VNull; VNull; VNull]]))
  /\ (select_pathway_counts db = inr [] ->
      pathway_annotation_counter db
      = ([Connect; Close;
          Print (Text "No pathways with at least 10 annotations found.")],
         inr []))
  /\ (select_max_A1BG db = inr [VNull] ->
      max_A1BG_abundance db
      = ([Connect; Close;
          Print (Text "No data found for A1BG abundance for Subject 'ZOZOW1T'.")],
         inr VNull))
  /\ (select_age_bmi db = inr [] ->
      age_bmi_plot db
      = ([Connect; Close; Print (TextRows "Retrieved data: " []);
          Print (Text "No valid Age and BMI data to plot.")],
         inr [])).
Proof.
  repeat split; intros H;
    [ unfold subjects_over_70 | unfold females_with_healthy_BMI
    | unfold subjects_metabolomic_insulin_resistant | unfold KEGG_id_retriever
    | unfold statistical_data_on_age | unfold pathway_annotation_counter
    | unfold max_A1BG_abundance | unfold age_bmi_plot ];
    rewrite H; reflexivity.
Qed.

(** C3, at the query that breaks it: when the statement of
    [visits_by_ZNQOVZV] yields no row the function returns the empty list
    without raising, but it prints nothing: its trace is connect and close
    only, with no diagnostic. *)
Theorem visits_by_ZNQOVZV_silent_on_empty (db : database) :
  select_visits_by_ZNQOVZV db = inr [] ->
  visits_by_ZNQOVZV db = ([Connect; Close], inr []).
Proof. intros H. unfold visits_by_ZNQOVZV. now rewrite H. Qed.

Lemma visits_by_ZNQOVZV_silent_on_empty_witness :
  visits_by_ZNQOVZV fresh_database = ([Connect; Close], inr []).
Proof.
  apply (visits_by_ZNQOVZV_silent_on_empty fresh_database). reflexivity.
Defined.

(** ** The wide-format loaders *)

Lemma bind_ext {A B} (m : io A) (f g : A -> io B) :
  (forall a, f a = g a) -> bind m f = bind m g.
Proof. intros H. unfold bind. destruct (snd m); [reflexivity|now rewrite H]. Qed.

Lemma for_each_flat_map {A B S} (F : A -> list B) (g : B -> S -> io S)
    (l : list A) (s : S) :
  for_each (fun a s => for_each g (F a) s) l s = for_each g (flat_map F l) s.
Proof.
  revert s; induction l as [|a l IH]; intros s; simpl; [reflexivity|].
  rewrite for_each_app. apply bind_ext. exact IH.
Qed.

Lemma pop_field (d : pydict) (k : string) :
  has_key d k = true ->
  pop d k
  = ret (field d k, filter (fun kv => negb (String.eqb (fst kv) k)) d).
Proof.
  intros H. destruct (find_has_key d k H) as [kv E].
  unfold pop, field. now rewrite E.
Qed.

Lemma wide_row_insert (t : table_name) (row : pydict) (cur : database) :
  has_key row "SampleID" = true ->
  wide_row t row cur
  = for_each (fun p cur => lift (insert_into t p cur))
      (map (fun item => [field row "SampleID"; PStr (fst item); snd item])
         (data_items row))
      cur.
Proof.
  intros H. unfold wide_row. rewrite (pop_field _ _ H), bind_ret. simpl.
  apply (for_each_map
           (fun item : string * pyval =>
              [field row "SampleID"; PStr (fst item); snd item])
           (fun p cur => lift (insert_into t p cur))).
Qed.

Lemma pivot_length (file : list pydict) (N : nat) :
  Forall (fun row => List.length (data_items row) = N) file ->
  List.length (pivot file) = (N * List.length file)%nat.
Proof.
  induction 1 as [|row file Hrow _ IH]; simpl; [lia|].
  unfold pivot in *. simpl. rewrite length_app, length_map, IH, Hrow. lia.
Qed.

Lemma wide_populator_pivots (t : table_name) (done : string)
    (file : list pydict) (db : database) :
  get t db <> None ->
  Forall (fun row => has_key row "SampleID" = true) file ->
  collision_free t (map (bind_row t) (pivot file)) ->
  wide_populator t done file db
  = ([Connect; Commit; Close; Print (Text done)],
     inr (set t (Some (map (bind_row t) (pivot file))) db)).
Proof.
  intros Hdb Hkeys Hfree. unfold wide_populator.
  destruct (get t db) as [old|] eqn:E; [clear Hdb|congruence].
  assert (L : for_each (wide_row t) file (set t (Some []) db)
              = ([], inr (set t (Some (map (bind_row t) (pivot file)))
                            (set t (Some []) db)))).
  { rewrite (for_each_ext (wide_row t)
               (fun row cur =>
                  for_each (fun p cur => lift (insert_into t p cur))
                    (map (fun item => [field row "SampleID"; PStr (fst item); snd item])
                       (data_items row))
                    cur)).
    2:{ intros row s Hin. apply wide_row_insert.
        rewrite Forall_forall in Hkeys. now apply Hkeys. }
    rewrite (for_each_flat_map
               (fun row =>
                  map (fun item => [field row "SampleID"; PStr (fst item); snd item])
                    (data_items row))
               (fun p cur => lift (insert_into t p cur))).
    fold (pivot file).
    rewrite (insert_all t (pivot file) []); [reflexivity|apply get_set_same| |exact Hfree].
    intros _ r' _ []. }
  loader_run E L.
Qed.

Lemma wide_populator_loads_pivot (t : table_name) (done : string)
    (file : list pydict) (db : database) (N : nat) :
  get t db <> None ->
  Forall (fun row =>
      has_key row "SampleID" = true /\ List.length (data_items row) = N) file ->
  collision_free t (map (bind_row t) (pivot file)) ->
  loads_pivot (wide_populator t done) t file db N.
Proof.
  intros Hdb Hrows Hfree.
  eexists _, _, _. split.
  { apply wide_populator_pivots; [exact Hdb| |exact Hfree].
    eapply Forall_impl; [|exact Hrows]. now intros row [H _]. }
  split; [apply get_set_same|]. split; [reflexivity|].
  rewrite length_map. apply pivot_length.
  eapply Forall_impl; [|exact Hrows]. now intros row [_ H].
Qed.

(** C5. For an abundance file of M lines, each with the sample identifier
    and N further columns, a database that has the three abundance tables,
    and no primary-key collision among the (sample, analyte) pairs of the
    file, each of the three wide-format loaders succeeds and leaves in its
    table exactly the pivot of the file, one row per line and data column:
    N * M rows. *)
Theorem wide_load_row_count (file : list pydict) (db : database) (N : nat) :
  Forall (fun row =>
      has_key row "SampleID" = true /\ List.length (data_items row) = N) file ->
  (forall t,
      In t [TranscriptAbundance; ProteinAbundance; MetaboliteAbundance] ->
      get t db <> None /\ collision_free t (map (bind_row t) (pivot file))) ->
  loads_pivot transcriptome_populator TranscriptAbundance file db N
  /\ loads_pivot protein_populator ProteinAbundance file db N
  /\ loads_pivot Metabolite_populator MetaboliteAbundance file db N.
Proof.
  intros Hrows Ht.
  repeat split; apply wide_populator_loads_pivot; try exact Hrows;
    apply Ht; simpl; auto.
Qed.

(** Without the proviso on collisions the load does not go through: a
    sample line given twice stops with an IntegrityError. *)
Example wide_load_collision :
  snd (transcriptome_populator
         [[("SampleID", PStr "S1-01"); ("A1BG", PStr "1.5")];
          [("SampleID", PStr "S1-01"); ("A1BG", PStr "2.5")]]
         fresh_database)
  = inl (IntegrityError "UNIQUE constraint failed: TranscriptAbundance").
Proof. reflexivity. Qed.

Lemma wide_load_row_count_witness :
  loads_pivot transcriptome_populator TranscriptAbundance
    [abundance_line "S1-01" "1.5" "20"; abundance_line "S1-02" "0.25" "NA"]
    fresh_database 2
  /\ loads_pivot protein_populator ProteinAbundance
       [abundance_line "S1-01" "1.5" "20"; abundance_line "S1-02" "0.25" "NA"]
       fresh_database 2
  /\ loads_pivot Metabolite_populator MetaboliteAbundance
       [abundance_line "S1-01" "1.5" "20"; abundance_line "S1-02" "0.25" "NA"]
       fresh_database 2.
Proof.
  apply (wide_load_row_count
           [abundance_line "S1-01" "1.5" "20"; abundance_line "S1-02" "0.25" "NA"]
           fresh_database 2).
  - repeat constructor.
  - intros t [<-|[<-|[<-|[]]]]; (split; [discriminate|]);
      unfold collision_free; simpl; repeat constructor.
Defined.

(** ** Query 6 *)

(** The WHERE clause of query 6 keeps the ages that are neither NULL nor
    the text NA. *)
Lemma age_is_valid_spec (v : value) :
  age_is_valid v = negb (is_null v) && negb (is_text_NA v).
Proof.
  destruct v as [|z|q|s]; try reflexivity.
  unfold age_is_valid, sql_ne, sql_cmp, is_text_NA; simpl.
  destruct (String.eqb_spec s "NA") as [->|Hne]; [reflexivity|].
  destruct (String.compare s "NA") eqn:C; try reflexivity.
  apply String.compare_eq_iff in C. contradiction.
Qed.

Lemma agg_min_from (vs : list value) (acc : value) :
  acc <> VNull ->
  fold_left (fun acc v =>
      if is_null v then acc
      else if is_null acc then v
      else match compare_values v acc with Lt => v | _ => acc end)
    vs acc <> VNull.
Proof.
  revert acc; induction vs as [|v vs IH]; intros acc Hacc; simpl; [exact Hacc|].
  apply IH. destruct v; simpl; try exact Hacc;
    destruct acc; simpl; try congruence;
    match goal with |- context [match ?c with _ => _ end] => destruct c end;
    congruence.
Qed.

Lemma agg_min_not_null (v : value) (vs : list value) :
  v <> VNull -> agg_min (v :: vs) <> VNull.
Proof.
  intros H. unfold agg_min; simpl. apply agg_min_from.
  now destruct v.
Qed.

Lemma compare_ints (a b : Z) : compare_values (VInt a) (VInt b) = (a ?= b).
Proof. simpl. unfold Qcompare; simpl. now rewrite !Z.mul_1_r. Qed.

Lemma agg_min_ints (z : Z) (zs : list Z) :
  agg_min (map VInt (z :: zs)) = VInt (fold_left Z.min zs z).
Proof.
  unfold agg_min; simpl. revert z; induction zs as [|y zs IH]; intros z; simpl;
    [reflexivity|].
  unfold Qcompare; simpl. rewrite !Z.mul_1_r.
  replace (match y ?= z with Lt => VInt y | _ => VInt z end)
    with (VInt (Z.min z y)); [apply IH|].
  destruct (Z.compare_spec y z); f_equal; lia.
Qed.

Lemma agg_max_ints (z : Z) (zs : list Z) :
  agg_max (map VInt (z :: zs)) = VInt (fold_left Z.max zs z).
Proof.
  unfold agg_max; simpl. revert z; induction zs as [|y zs IH]; intros z; simpl;
    [reflexivity|].
  unfold Qcompare; simpl. rewrite !Z.mul_1_r.
  replace (match y ?= z with Gt => VInt y | _ => VInt z end)
    with (VInt (Z.max z y)); [apply IH|].
  destruct (Z.compare_spec y z); f_equal; lia.
Qed.

Lemma sum_ints (zs : list Z) (q : Q) (z : Z) :
  (q == inject_Z z)%Q ->
  (fold_left (fun acc v => acc + to_Q v) (map VInt zs) q
   == inject_Z (fold_left Z.add zs z))%Q.
Proof.
  revert q z; induction zs as [|y zs IH]; intros q z H; simpl; [exact H|].
  apply IH. rewrite H, inject_Z_plus. reflexivity.
Qed.

Lemma filter_all {A} (p : A -> bool) (l : list A) :
  Forall (fun x => p x = true) l -> filter p l = l.
Proof.
  induction 1 as [|x l Hx _ IH]; simpl; [reflexivity|]. now rewrite Hx, IH.
Qed.

Lemma agg_avg_ints (z : Z) (zs : list Z) :
  agg_avg (map VInt (z :: zs))
  = VReal (Qred (inject_Z (fold_left Z.add zs z)
                 / inject_Z (Z.of_nat (S (List.length zs))))).
Proof.
  unfold agg_avg.
  rewrite (filter_all (fun v => negb (is_null v)) (map VInt (z :: zs))).
  2:{ apply Forall_forall. intros v Hv. apply in_map_iff in Hv as [x [<- _]].
      reflexivity. }
  cbn [map fold_left List.length]. rewrite length_map.
  f_equal. apply Qred_complete.
  rewrite (sum_ints zs (0 + to_Q (VInt z)) z) by (simpl; ring).
  reflexivity.
Qed.

Lemma select_age_statistics_spec (db : database) (rows : table) :
  get Subjects db = Some rows ->
  select_age_statistics db
  = inr [agg_min (valid_ages rows); agg_max (valid_ages rows);
         agg_avg (valid_ages rows)].
Proof.
  intros H. unfold select_age_statistics, scan. rewrite H.
  unfold valid_ages.
  now rewrite (filter_ext age_is_valid _ age_is_valid_spec).
Qed.

Lemma statistical_data_on_age_returns (db : database) (a b c : value) :
  select_age_statistics db = inr [a; b; c] ->
  statistical_data_on_age db
  = ([Connect; Close]
       ++ (if is_null a && is_null b && is_null c
           then [Print (Text "No valid data found.")] else []),
     inr [[a; b; c]]).
Proof.
  intros H. unfold statistical_data_on_age. rewrite H.
  unfold try_except, try_finally, bind; simpl.
  now destruct (is_null a), (is_null b), (is_null c).
Qed.

Lemma valid_ages_ints (rows : table) (zs : list Z) :
  map (column Subjects "Age") rows = map VInt zs ->
  valid_ages rows = map VInt zs.
Proof.
  intros H. unfold valid_ages. rewrite H. apply filter_all.
  apply Forall_forall. intros v Hv. apply in_map_iff in Hv as [x [<- _]].
  reflexivity.
Qed.

Lemma valid_ages_all_null (rows : table) :
  Forall (fun r => column Subjects "Age" r = VNull) rows ->
  valid_ages rows = [].
Proof.
  unfold valid_ages. induction 1 as [|r rows Hr _ IH]; simpl; [reflexivity|].
  now rewrite Hr.
Qed.

(** C7 does not hold as stated: with a subject aged 10 and a subject whose
    age is the text NA (which the loader stores as given), both ages are
    non-null, yet the query leaves NA out: it returns (10, 10, 10), whereas
    the statistics over the two non-null ages are (10, NA, 5) in the order
    and arithmetic of the store. *)
Lemma statistical_data_on_age_excludes_NA :
  snd (subject_table_populator
         [subject "S1" "F" "10" "22.4" "C" "NA" "IS";
          subject "S2" "M" "NA" "30.1" "A" "91" "IR"] fresh_database)
  = inr subjects_with_NA_age
  /\ get Subjects subjects_with_NA_age = Some rows_with_NA_age
  /\ statistical_data_on_age subjects_with_NA_age
     = ([Connect; Close], inr [[VInt 10; VInt 10; VReal (10 # 1)]])
  /\ age_statistics_over_non_null rows_with_NA_age
     = [VInt 10; VText "NA"; VReal (5 # 1)]
  /\ snd (statistical_data_on_age subjects_with_NA_age)
     <> inr [age_statistics_over_non_null rows_with_NA_age].
Proof.
  split; [vm_compute; reflexivity|].
  split; [reflexivity|].
  split; [vm_compute; reflexivity|].
  split; [vm_compute; reflexivity|].
  vm_compute. discriminate.
Qed.

(** C7, amended. On a database that has the Subjects table,
    [statistical_data_on_age] returns one row (minimum, maximum, average)
    computed over exactly the Age values that are neither null nor the text
    NA, and prints its diagnostic exactly when there is no such value.  When
    all ages are integers the row holds their least, their greatest and their
    mean; on ages 10, 20, 30 it is (10, 30, 20); when every Age is null it is
    the row of nulls, with the diagnostic. *)
Theorem statistical_data_on_age_spec (db : database) (rows : table) :
  get Subjects db = Some rows ->
  statistical_data_on_age db
  = ([Connect; Close]
       ++ (if nonempty (valid_ages rows) then []
           else [Print (Text "No valid data found.")]),
     inr [[agg_min (valid_ages rows); agg_max (valid_ages rows);
           agg_avg (valid_ages rows)]])
  /\ (forall z zs,
        map (column Subjects "Age") rows = map VInt (z :: zs) ->
        statistical_data_on_age db
        = ([Connect; Close],
           inr [[VInt (fold_left Z.min zs z);
                 VInt (fold_left Z.max zs z);
                 VReal (Qred (inject_Z (fold_left Z.add zs z)
                              / inject_Z (Z.of_nat (S (List.length zs)))))]]))
  /\ (map (column Subjects "Age") rows = [VInt 10; VInt 20; VInt 30] ->
      statistical_data_on_age db
      = ([Connect; Close], inr [[VInt 10; VInt 30; VReal (20 # 1)]]))
  /\ (Forall (fun r => column Subjects "Age" r = VNull) rows ->
      statistical_data_on_age db
      = ([Connect; Close; Print (Text "No valid data found.")],
         inr [[VNull; VNull; VNull]])).
Proof.
  intros H.
  pose proof (statistical_data_on_age_returns db _ _ _
                (select_age_statistics_spec db rows H)) as R.
  assert (Hints : forall z zs,
             map (column Subjects "Age") rows = map VInt (z :: zs) ->
             statistical_data_on_age db
             = ([Connect; Close],
                inr [[VInt (fold_left Z.min zs z);
                      VInt (fold_left Z.max zs z);
                      VReal (Qred (inject_Z (fold_left Z.add zs z)
                                   / inject_Z (Z.of_nat (S (List.length zs)))))]])).
  { intros z zs Hz. rewrite R, (valid_ages_ints rows (z :: zs) Hz).
    now rewrite agg_min_ints, agg_max_ints, agg_avg_ints. }
  split; [|split; [exact Hints|split]].
  - rewrite R. f_equal. f_equal.
    destruct (valid_ages rows) as [|v vs] eqn:E; [reflexivity|].
    assert (Hv : v <> VNull).
    { assert (Hin : In v (valid_ages rows)) by (rewrite E; now left).
      unfold valid_ages in Hin. apply filter_In in Hin as [_ Hp].
      intros ->. discriminate Hp. }
    pose proof (agg_min_not_null v vs Hv) as Hmin.
    destruct (agg_min (v :: vs)); [congruence|reflexivity..].
  - intros Hz. exact (Hints 10 [20; 30] Hz).
  - intros Hnull. rewrite R, (valid_ages_all_null rows Hnull). reflexivity.
Qed.

Lemma statistical_data_on_age_spec_witness :
  statistical_data_on_age subjects_with_NA_age
  = ([Connect; Close],
     inr [[VInt 10; VInt 10; VReal (10 # 1)]]).
Proof.
  exact (proj1 (statistical_data_on_age_spec subjects_with_NA_age
                  rows_with_NA_age eq_refl)).
Defined.

(** ** The sample loader *)

Lemma bind_inr_inv {A B} (m : io A) (f : A -> io B)
    (tr : list event) (b : B) :
  bind m f = (tr, inr b) ->
  exists tr1 a tr2, m = (tr1, inr a) /\ f a = (tr2, inr b) /\ tr = tr1 ++ tr2.
Proof.
  unfold bind. destruct m as [tr1 [e|a]]; simpl; intros H; [discriminate|].
  exists tr1, a, (fst (f a)). destruct (f a) as [tr2 r]; simpl in *.
  inversion H; subst. auto.
Qed.

Lemma field_no_key (d : pydict) (k : string) :
  has_key d k = false -> field d k = PNone.
Proof. intros H. unfold field. now rewrite (find_no_key d k H). Qed.

Lemma split_nonempty (sep : ascii) (s : string) : split sep s <> [].
Proof.
  destruct s as [|c s]; simpl; [discriminate|].
  destruct (Ascii.eqb c sep); [discriminate|].
  destruct (split sep s); discriminate.
Qed.

(** Joining the parts of a split with the separator gives the text back. *)
Lemma split_concat (sep : ascii) (s : string) :
  String.concat (String sep EmptyString) (split sep s) = s.
Proof.
  induction s as [|c s IH]; simpl; [reflexivity|].
  destruct (Ascii.eqb_spec c sep) as [->|Hne].
  - pose proof (split_nonempty sep s) as Hs.
    destruct (split sep s) as [|p ps]; [congruence|].
    simpl in *. now rewrite IH.
  - pose proof (split_nonempty sep s) as Hs.
    destruct (split sep s) as [|p ps]; [congruence|].
    destruct ps as [|p' ps]; simpl in *; now rewrite <- IH.
Qed.

Lemma split_two (sep : ascii) (s a b : string) :
  split sep s = [a; b] -> s = (a ++ String sep b)%string.
Proof.
  intros H. rewrite <- (split_concat sep s), H. reflexivity.
Qed.

Lemma try_insert_or_ignore (params : list pyval) (cur : database)
    (handler : exn -> io database) :
  try_except (lift (insert_or_ignore Samples params cur)) is_KeyError handler
  = lift (insert_or_ignore Samples params cur).
Proof.
  unfold try_except, insert_or_ignore, lift.
  destruct (get Samples cur); [|reflexivity].
  now destruct (existsb _ _).
Qed.

(** What the body of the loop does, by the shape of the row. *)
Lemma sample_row_cases (row : pydict) (cur : database) :
  (has_key row "SampleID" = false
   /\ sample_row row cur
      = ([Print (TextDict "SampleID not found: " row)], inr cur))
  \/ (has_key row "SampleID" = true /\ field row "SampleID" = PNone
      /\ exists msg, sample_row row cur = ([], inl (AttributeError msg)))
  \/ (exists s,
        has_key row "SampleID" = true /\ field row "SampleID" = PStr s
        /\ ((exists a b,
                split "-" s = [a; b]
                /\ sample_row row cur
                   = lift (insert_or_ignore Samples [PStr s; PStr a; PStr b] cur))
            \/ (splits_in_two s = false
                /\ exists msg, sample_row row cur = ([], inl (ValueError msg))))).
Proof.
  destruct (has_key row "SampleID") eqn:K.
  - right. destruct (field row "SampleID") as [|s] eqn:F.
    + left. repeat split. eexists. unfold sample_row.
      rewrite (getitem_field _ _ K), F, bind_ret. reflexivity.
    + right. exists s. repeat split.
      unfold sample_row, splits_in_two.
      rewrite (getitem_field _ _ K), F, !bind_ret.
      destruct (split "-" s) as [|a [|b [|c l]]] eqn:S.
      * right. split; [reflexivity|]. eexists; reflexivity.
      * right. split; [reflexivity|]. eexists; reflexivity.
      * left. exists a, b. split; [reflexivity|].
        change (unpack2 [a; b]) with (@ret (string * string) (a, b)).
        rewrite bind_ret. apply try_insert_or_ignore.
      * right. split; [reflexivity|]. eexists; reflexivity.
  - left. split; [reflexivity|]. unfold sample_row.
    rewrite (getitem_missing _ _ K). reflexivity.
Qed.

Lemma insert_or_ignore_returns (params : list pyval) (cur : database) :
  get Samples cur <> None ->
  exists cur',
    insert_or_ignore Samples params cur = inr cur' /\ get Samples cur' <> None.
Proof.
  intros H. unfold insert_or_ignore.
  destruct (get Samples cur) as [old|] eqn:E; [|congruence].
  destruct (existsb _ old).
  - exists cur. split; [reflexivity|]. now rewrite E.
  - eexists. split; [reflexivity|]. rewrite get_set_same. discriminate.
Qed.

Lemma sample_row_returns (row : pydict) (cur : database) :
  sample_row_loads row ->
  get Samples cur <> None ->
  exists tr cur',
    sample_row row cur = (tr, inr cur')
    /\ get Samples cur' <> None /\ ~ In Commit tr.
Proof.
  intros Hrow Hcur.
  destruct (sample_row_cases row cur)
    as [[K E]|[(K & F & _)|(s & K & F & [(a & b & S & E)|(S & _)])]].
  - exists [Print (TextDict "SampleID not found: " row)], cur.
    repeat split; auto. intros [H|[]]; discriminate.
  - destruct Hrow as [K'|(s & F' & _)]; congruence.
  - destruct (insert_or_ignore_returns [PStr s; PStr a; PStr b] cur Hcur)
      as (cur' & I & Hcur').
    exists [], cur'. rewrite E, I. repeat split; auto.
  - destruct Hrow as [K'|(s' & F' & S')]; [congruence|].
    rewrite F in F'. injection F' as <-. congruence.
Qed.

Lemma sample_rows_return (file : list pydict) :
  Forall sample_row_loads file ->
  forall cur,
    get Samples cur <> None ->
    exists tr cur',
      for_each sample_row file cur = (tr, inr cur')
      /\ get Samples cur' <> None /\ ~ In Commit tr.
Proof.
  induction 1 as [|row file Hrow _ IH]; intros cur Hcur.
  - exists [], cur. repeat split; auto.
  - destruct (sample_row_returns row cur Hrow Hcur) as (tr1 & cur1 & E1 & H1 & N1).
    destruct (IH cur1 H1) as (tr2 & cur2 & E2 & H2 & N2).
    exists (tr1 ++ tr2), cur2. cbn [for_each].
    rewrite (bind_eq (sample_row row cur) (fun s => for_each sample_row file s)
               _ _ _ _ E1 E2). repeat split; auto.
    intros Hin. apply in_app_or in Hin. tauto.
Qed.

(** The loader around its loop. *)
Lemma sample_table_populator_loop (file : list pydict) (db : database)
    (tr : list event) (r : exn + database) :
  get Samples db <> None ->
  for_each sample_row file (set Samples (Some []) db) = (tr, r) ->
  sample_table_populator file db
  = match r with
    | inr cur =>
        (Connect :: tr
           ++ [Commit; Close; Print (Text "Samples table populated successfully.")],
         inr cur)
    | inl e => (Connect :: tr, inl e)
    end.
Proof.
  intros Hdb L. unfold sample_table_populator, delete_from.
  destruct (get Samples db); [|congruence].
  cbv beta iota delta [bind emit lift fst snd]. rewrite L. now destruct r.
Qed.

(** C2 does not hold as stated: a SampleID with two dashes does not split
    into two parts, and the row is not skipped: the ValueError of the
    unpacking is not a KeyError, so it leaves the loop and the loader.  The
    run stops after connecting, prints no diagnostic, commits nothing and
    never reaches the well-formed row that follows. *)
Lemma sample_load_aborts_on_malformed_id :
  splits_in_two "S1-01-x" = false
  /\ sample_table_populator
       [[("SampleID", PStr "S1-01-x")]; [("SampleID", PStr "S2-01")]]
       fresh_database
     = ([Connect], inl (ValueError "too many values to unpack (expected 2)")).
Proof. split; reflexivity. Qed.

(** C2, amended.  A row without a SampleID field is caught, reported and
    skipped, and the load goes on: the run returns, its trace holds the
    diagnostic for the row, and the database is the one the file without that
    row gives.  A row whose SampleID does not split into exactly two
    dash-separated parts raises a ValueError that nothing catches: the load
    aborts and nothing is committed.  ([pre] and [post] are the rows before
    and after the row in question.) *)
Theorem sample_load_skips_rows_without_id (pre post : list pydict)
    (row : pydict) (db : database) :
  get Samples db <> None ->
  Forall sample_row_loads pre ->
  (has_key row "SampleID" = false ->
   Forall sample_row_loads post ->
   exists tr db',
     sample_table_populator (pre ++ row :: post) db = (tr, inr db')
     /\ In (Print (TextDict "SampleID not found: " row)) tr
     /\ snd (sample_table_populator (pre ++ post) db) = inr db')
  /\ (forall s,
        field row "SampleID" = PStr s ->
        splits_in_two s = false ->
        exists tr msg,
          sample_table_populator (pre ++ row :: post) db
          = (tr, inl (ValueError msg))
          /\ ~ In Commit tr).
Proof.
  intros Hdb Hpre.
  assert (H0 : get Samples (set Samples (Some []) db) <> None)
    by (rewrite get_set_same; discriminate).
  destruct (sample_rows_return pre Hpre _ H0) as (tr1 & cur1 & E1 & H1 & N1).
  split.
  - intros K Hpost.
    destruct (sample_rows_return post Hpost _ H1) as (tr2 & cur2 & E2 & H2 & N2).
    assert (Erow : sample_row row cur1
                   = ([Print (TextDict "SampleID not found: " row)], inr cur1)).
    { destruct (sample_row_cases row cur1)
        as [[_ E]|[(K' & _)|(s & K' & _)]]; [exact E|congruence..]. }
    assert (Ewith : for_each sample_row (pre ++ row :: post)
                      (set Samples (Some []) db)
                    = (tr1 ++ [Print (TextDict "SampleID not found: " row)] ++ tr2,
                       inr cur2)).
    { rewrite for_each_app. apply (bind_eq _ _ _ _ _ _ E1).
      cbn [for_each].
      exact (bind_eq (sample_row row cur1) (fun s => for_each sample_row post s)
               _ _ _ _ Erow E2). }
    assert (Ewithout : for_each sample_row (pre ++ post)
                         (set Samples (Some []) db)
                       = (tr1 ++ tr2, inr cur2)).
    { rewrite for_each_app. exact (bind_eq _ _ _ _ _ _ E1 E2). }
    eexists _, cur2.
    rewrite (sample_table_populator_loop _ _ _ _ Hdb Ewith).
    rewrite (sample_table_populator_loop _ _ _ _ Hdb Ewithout).
    split; [reflexivity|]. split; [|reflexivity].
    apply in_cons. apply in_or_app. left.
    exact (in_elt (Print (TextDict "SampleID not found: " row)) tr1 tr2).
  - intros s F S.
    assert (Erow : exists msg, sample_row row cur1 = ([], inl (ValueError msg))).
    { destruct (sample_row_cases row cur1)
        as [[K _]|[(_ & F' & _)|(s' & _ & F' & [(a & b & S' & _)|(_ & E)])]].
      - rewrite (field_no_key _ _ K) in F. discriminate.
      - congruence.
      - rewrite F in F'. injection F' as <-.
        unfold splits_in_two in S. rewrite S' in S. discriminate.
      - exact E. }
    destruct Erow as [msg Erow].
    assert (Eloop : for_each sample_row (pre ++ row :: post)
                      (set Samples (Some []) db)
                    = (tr1 ++ [], inl (ValueError msg))).
    { rewrite for_each_app. apply (bind_eq _ _ _ _ _ _ E1).
      cbn [for_each]. now rewrite Erow. }
    eexists _, msg.
    rewrite (sample_table_populator_loop _ _ _ _ Hdb Eloop).
    split; [reflexivity|].
    rewrite app_nil_r. intros [H|H]; [discriminate|contradiction].
Qed.

Lemma sample_load_skips_rows_without_id_witness :
  (exists tr db',
      sample_table_populator
        ([[("SampleID", PStr "S1-01")]]
           ++ [("Sample", PStr "S1-02")] :: [[("SampleID", PStr "S2-E1")]])
        fresh_database
      = (tr, inr db')
      /\ In (Print (TextDict "SampleID not found: " [("Sample", PStr "S1-02")])) tr
      /\ snd (sample_table_populator
                ([[("SampleID", PStr "S1-01")]] ++ [[("SampleID", PStr "S2-E1")]])
                fresh_database)
         = inr db')
  /\ (exists tr msg,
        sample_table_populator
          ([[("SampleID", PStr "S1-01")]]
             ++ [("SampleID", PStr "S1_02")] :: [[("SampleID", PStr "S2-E1")]])
          fresh_database
        = (tr, inl (ValueError msg))
        /\ ~ In Commit tr).
Proof.
  assert (Hdb : get Samples fresh_database <> None) by discriminate.
  assert (Hpre : Forall sample_row_loads [[("SampleID", PStr "S1-01")]]).
  { constructor; [|constructor]. right. exists "S1-01". split; reflexivity. }
  assert (Hpost : Forall sample_row_loads [[("SampleID", PStr "S2-E1")]]).
  { constructor; [|constructor]. right. exists "S2-E1". split; reflexivity. }
  split.
  - exact (proj1 (sample_load_skips_rows_without_id
                    [[("SampleID", PStr "S1-01")]] [[("SampleID", PStr "S2-E1")]]
                    [("Sample", PStr "S1-02")] fresh_database Hdb Hpre)
             eq_refl Hpost).
  - exact (proj2 (sample_load_skips_rows_without_id
                    [[("SampleID", PStr "S1-01")]] [[("SampleID", PStr "S2-E1")]]
                    [("SampleID", PStr "S1_02")] fresh_database Hdb Hpre)
             "S1_02" eq_refl eq_refl).
Defined.

(** ** The split of the sample identifier *)

Lemma store_text (a : affinity) (s t : string) :
  store a (PStr s) = VText t -> t = s.
Proof.
  destruct a; simpl.
  - now intros [= ->].
  - destruct (Numeric.atof s) as [q [|]]; [|now intros [= ->]].
    unfold Numeric.integer_if_exact.
    destruct (Qden (Qred q)); try discriminate.
    destruct (Numeric.in_int64 _); discriminate.
  - destruct (Numeric.atof s) as [q [|]]; [discriminate|now intros [= ->]].
Qed.

Lemma sample_row_keeps_shape (row : pydict) (cur cur' : database)
    (tr : list event) (old : table) :
  sample_row row cur = (tr, inr cur') ->
  get Samples cur = Some old ->
  Forall split_shape old ->
  exists new, get Samples cur' = Some new /\ Forall split_shape new.
Proof.
  intros E Hget Hold.
  destruct (sample_row_cases row cur)
    as [[_ E']|[(_ & _ & msg & E')|(s & _ & _ & [(a & b & S & E')|(_ & msg & E')])]];
    rewrite E' in E; try discriminate.
  - injection E as _ <-. eauto.
  - unfold lift, insert_or_ignore in E. rewrite Hget in E.
    destruct (existsb _ old); injection E as _ <-; [eauto|].
    eexists. split; [reflexivity|].
    apply Forall_app. split; [exact Hold|].
    constructor; [|constructor].
    exists a, b. rewrite (split_two _ _ _ _ S). reflexivity.
Qed.

Lemma sample_rows_keep_shape (file : list pydict) :
  forall (cur cur' : database) (tr : list event) (old : table),
    for_each sample_row file cur = (tr, inr cur') ->
    get Samples cur = Some old ->
    Forall split_shape old ->
    exists new, get Samples cur' = Some new /\ Forall split_shape new.
Proof.
  induction file as [|row file IH]; intros cur cur' tr old E Hget Hold.
  - injection E as _ <-. eauto.
  - cbn [for_each] in E.
    apply bind_inr_inv in E as (tr1 & cur1 & tr2 & E1 & E2 & _).
    destruct (sample_row_keeps_shape _ _ _ _ _ E1 Hget Hold) as (mid & Hmid & Smid).
    exact (IH _ _ _ _ E2 Hmid Smid).
Qed.

(** C4 does not hold as stated: the sample S1-01 is stored with SubjectID
    S1 and, VisitID being an INTEGER column, with the integer 1 for the visit
    01; S1, a dash and 1 give S1-1, not S1-01. *)
Lemma sample_visit_stored_as_integer :
  sample_table_populator [[("SampleID", PStr "S1-01")]] fresh_database
  = ([Connect; Commit; Close;
      Print (Text "Samples table populated successfully.")],
     inr (set Samples (Some [[VText "S1-01"; VText "S1"; VInt 1]])
            fresh_database))
  /\ ("S1" ++ "-" ++ text_of_int 1)%string = "S1-1"
  /\ ("S1" ++ "-" ++ text_of_int 1)%string <> "S1-01".
Proof.
  split; [vm_compute; reflexivity|].
  split; [reflexivity|]. vm_compute. discriminate.
Qed.

(** C4, amended.  After a successful run of [sample_table_populator] every
    row of Samples holds a SampleID that is its SubjectID, a dash and the
    visit text of the file, and a VisitID that is this visit text as the
    INTEGER column stores it; whenever the VisitID is stored as text,
    SubjectID, a dash and VisitID reproduce the SampleID exactly. *)
Theorem sample_rows_split (file : list pydict) (db db' : database)
    (tr : list event) (rows : table) (r : row) :
  sample_table_populator file db = (tr, inr db') ->
  get Samples db' = Some rows ->
  In r rows ->
  exists subj visit,
    column Samples "SampleID" r = VText (subj ++ "-" ++ visit)
    /\ column Samples "SubjectID" r = VText subj
    /\ column Samples "VisitID" r = store AffInteger (PStr visit)
    /\ forall t,
         column Samples "VisitID" r = VText t ->
         column Samples "SampleID" r = VText (subj ++ "-" ++ t).
Proof.
  intros E Hrows Hin.
  assert (Hdb : get Samples db <> None).
  { intros Hnone. unfold sample_table_populator, delete_from in E.
    rewrite Hnone in E. discriminate. }
  destruct (for_each sample_row file (set Samples (Some []) db))
    as [tr0 [e|cur]] eqn:L;
    rewrite (sample_table_populator_loop _ _ _ _ Hdb L) in E; [discriminate|].
  injection E as _ <-.
  destruct (sample_rows_keep_shape file _ _ _ [] L (get_set_same _ _ _)
              (Forall_nil _)) as (new & Hnew & Shape).
  rewrite Hrows in Hnew. injection Hnew as <-.
  rewrite Forall_forall in Shape.
  destruct (Shape r Hin) as (subj & visit & ->).
  exists subj, visit. repeat split.
  intros t Ht. change (store AffInteger (PStr visit) = VText t) in Ht.
  now rewrite (store_text _ _ _ Ht).
Qed.

Lemma sample_rows_split_witness :
  exists subj visit,
    column Samples "SampleID" [VText "S2-E1"; VText "S2"; VText "E1"]
    = VText (subj ++ "-" ++ visit)
    /\ column Samples "SubjectID" [VText "S2-E1"; VText "S2"; VText "E1"]
       = VText subj
    /\ column Samples "VisitID" [VText "S2-E1"; VText "S2"; VText "E1"]
       = store AffInteger (PStr visit)
    /\ forall t,
         column Samples "VisitID" [VText "S2-E1"; VText "S2"; VText "E1"]
         = VText t ->
         column Samples "SampleID" [VText "S2-E1"; VText "S2"; VText "E1"]
         = VText (subj ++ "-" ++ t).
Proof.
  apply (sample_rows_split
           [[("SampleID", PStr "S1-01")]; [("SampleID", PStr "S2-E1")]]
           fresh_database
           (set Samples
              (Some [[VText "S1-01"; VText "S1"; VInt 1];
                     [VText "S2-E1"; VText "S2"; VText "E1"]])
              fresh_database)
           [Connect; Commit; Close;
            Print (Text "Samples table populated successfully.")]
           [[VText "S1-01"; VText "S1"; VInt 1];
            [VText "S2-E1"; VText "S2"; VText "E1"]]).
  - reflexivity.
  - reflexivity.
  - right; left; reflexivity.
Defined.

(** * Further properties of the loaders *)

(** ** The common frame *)

Lemma loaders_frame (t : table_name)
    (body : pydict -> database -> io database)
    (loader : list pydict -> database -> io database) :
  In (t, body, loader) loaders ->
  exists done, forall file db, loader file db = run_loader t body done file db.
Proof.
  intros H. simpl in H.
  repeat (destruct H as [H|H]; [injection H as <- <- <-; eexists; reflexivity|]).
  contradiction.
Qed.

Lemma run_loader_result (t : table_name)
    (body : pydict -> database -> io database) (done : string)
    (file : list pydict) (db : database) (old : table)
    (tr : list event) (r : exn + database) :
  get t db = Some old ->
  for_each body file (set t (Some []) db) = (tr, r) ->
  run_loader t body done file db
  = match r with
    | inr cur => (Connect :: tr ++ [Commit; Close; Print (Text done)], inr cur)
    | inl e => (Connect :: tr, inl e)
    end.
Proof.
  intros Hdb L. unfold run_loader, delete_from. rewrite Hdb.
  cbv beta iota delta [bind emit lift fst snd]. rewrite L. now destruct r.
Qed.

Lemma run_loader_no_table (t : table_name)
    (body : pydict -> database -> io database) (done : string)
    (file : list pydict) (db : database) :
  get t db = None ->
  run_loader t body done file db = ([Connect], inl (no_such_table t)).
Proof. intros H. unfold run_loader, delete_from. now rewrite H. Qed.

Lemma for_each_invariant {A S} (P : S -> Prop) (body : A -> S -> io S)
    (l : list A) :
  (forall x s tr s', In x l -> body x s = (tr, inr s') -> P s -> P s') ->
  forall s tr s', for_each body l s = (tr, inr s') -> P s -> P s'.
Proof.
  induction l as [|x l IH]; intros Hbody s tr s' E Hs.
  - injection E as _ <-. exact Hs.
  - cbn [for_each] in E.
    apply bind_inr_inv in E as (tr1 & s1 & tr2 & E1 & E2 & _).
    eapply IH; [|exact E2|].
    + intros y u tr0 u' Hy. apply Hbody. now right.
    + eapply Hbody; [now left|exact E1|exact Hs].
Qed.

(** ** The bodies of the loops, case by case *)

Ltac next_field row k :=
  destruct (has_key row k) eqn:?;
  [ rewrite (getitem_field row k) by assumption; rewrite bind_ret; cbv beta zeta
  | right; exists k; split; [simpl; tauto|]; split; [assumption|];
    rewrite (getitem_missing row k) by assumption; reflexivity ].

Ltac all_fields :=
  simpl;
  repeat match goal with
         | H : has_key _ _ = true |- _ => rewrite H; clear H
         end;
  reflexivity.

(** A row with all seven fields goes to the INSERT; otherwise the first
    field missing, in the order the body reads them, raises KeyError. *)
Lemma subject_row_cases (row : pydict) (cur : database) :
  (forallb (has_key row) subject_fields = true
   /\ subject_row row cur = lift (insert_into Subjects (subject_params row) cur))
  \/ (exists k,
        In k subject_fields /\ has_key row k = false
        /\ subject_row row cur = raise (KeyError k)).
Proof.
  unfold subject_row.
  next_field row "Age". next_field row "SubjectID". next_field row "Sex".
  rewrite bind_ret; cbv beta.
  next_field row "BMI". next_field row "Race". next_field row "SSPG".
  next_field row "IR_IS_classification".
  left. split; [all_fields|reflexivity].
Qed.

Lemma annotation_row_cases (row : pydict) (cur : database) :
  (forallb (has_key row) annotation_fields = true
   /\ annotation_row row cur
      = lift (insert_into Annotation (map (field row) annotation_fields) cur))
  \/ (exists k,
        In k annotation_fields /\ has_key row k = false
        /\ annotation_row row cur = raise (KeyError k)).
Proof.
  unfold annotation_row.
  next_field row "PeakID". next_field row "Metabolite". next_field row "KEGG".
  next_field row "HMDB". next_field row "Pathway".
  left. split; [all_fields|reflexivity].
Qed.

Lemma pop_missing (d : pydict) (k : string) :
  has_key d k = false -> pop d k = raise (KeyError k).
Proof. intros H. unfold pop. now rewrite (find_no_key d k H). Qed.

Lemma wide_row_cases (t : table_name) (row : pydict) (cur : database) :
  (has_key row "SampleID" = true
   /\ wide_row t row cur
      = for_each (fun p cur => lift (insert_into t p cur))
          (map (fun item => [field row "SampleID"; PStr (fst item); snd item])
             (data_items row))
          cur)
  \/ (has_key row "SampleID" = false
      /\ wide_row t row cur = raise (KeyError "SampleID")).
Proof.
  destruct (has_key row "SampleID") eqn:K.
  - left. split; [reflexivity|]. now apply wide_row_insert.
  - right. split; [reflexivity|]. unfold wide_row. now rewrite (pop_missing _ _ K).
Qed.

(** ** Runs of INSERT statements *)

Lemma inserts_trans (t : table_name) (a b c : database) :
  inserts t a b -> inserts t b c -> inserts t a c.
Proof.
  induction 1 as [|x x1 y p Hp _ IH]; intros Hbc; [exact Hbc|].
  eapply inserts_step; [exact Hp|]. now apply IH.
Qed.

Lemma insert_run_inserts (t : table_name) (ps : list (list pyval)) :
  forall c tr c',
    for_each (fun p cur => lift (insert_into t p cur)) ps c = (tr, inr c') ->
    inserts t c c' /\ tr = [].
Proof.
  induction ps as [|p ps IH]; intros c tr c' E.
  - injection E as <- <-. split; [constructor|reflexivity].
  - cbn [for_each] in E.
    apply bind_inr_inv in E as (tr1 & c1 & tr2 & E1 & E2 & ->).
    injection E1 as <- E1.
    destruct (IH _ _ _ E2) as [I ->].
    split; [|reflexivity]. eapply inserts_step; [left; exact E1|exact I].
Qed.

Lemma insert_run_trace (t : table_name) (ps : list (list pyval)) (c : database) :
  fst (for_each (fun p cur => lift (insert_into t p cur)) ps c) = [].
Proof.
  revert c; induction ps as [|p ps IH]; intros c; [reflexivity|].
  cbn [for_each]. unfold bind, lift at 1 2; simpl.
  destruct (insert_into t p c) as [e|c1]; [reflexivity|]. apply IH.
Qed.

(** What a body does when it returns: a run of inserts on its table. *)
Lemma body_inserts (t : table_name)
    (body : pydict -> database -> io database)
    (loader : list pydict -> database -> io database)
    (row : pydict) (c c' : database) (tr : list event) :
  In (t, body, loader) loaders ->
  body row c = (tr, inr c') ->
  inserts t c c'.
Proof.
  intros H E. simpl in H.
  destruct H as [H|[H|[H|[H|[H|[H|[]]]]]]]; injection H as <- <- <-.
  - destruct (subject_row_cases row c) as [[_ R]|(k & _ & _ & R)];
      rewrite R in E; [|discriminate].
    injection E as _ E. eapply inserts_step; [left; exact E|constructor].
  - destruct (sample_row_cases row c)
      as [[_ R]|[(_ & _ & msg & R)|(s & _ & _ & [(a & b & _ & R)|(_ & msg & R)])]];
      rewrite R in E; try discriminate.
    + injection E as _ <-. constructor.
    + injection E as _ E. eapply inserts_step; [right; exact E|constructor].
  - destruct (wide_row_cases TranscriptAbundance row c) as [[_ R]|[_ R]];
      rewrite R in E; [|discriminate]. now apply insert_run_inserts in E.
  - destruct (wide_row_cases ProteinAbundance row c) as [[_ R]|[_ R]];
      rewrite R in E; [|discriminate]. now apply insert_run_inserts in E.
  - destruct (wide_row_cases MetaboliteAbundance row c) as [[_ R]|[_ R]];
      rewrite R in E; [|discriminate]. now apply insert_run_inserts in E.
  - destruct (annotation_row_cases row c) as [[_ R]|(k & _ & _ & R)];
      rewrite R in E; [|discriminate].
    injection E as _ E. eapply inserts_step; [left; exact E|constructor].
Qed.

(** The trace of a body holds nothing but diagnostics. *)
Lemma body_trace (t : table_name)
    (body : pydict -> database -> io database)
    (loader : list pydict -> database -> io database)
    (row : pydict) (c : database) :
  In (t, body, loader) loaders ->
  only_prints (fst (body row c)).
Proof.
  intros H. simpl in H.
  destruct H as [H|[H|[H|[H|[H|[H|[]]]]]]]; injection H as <- <- <-.
  - destruct (subject_row_cases row c) as [[_ R]|(k & _ & _ & R)];
      rewrite R; constructor.
  - destruct (sample_row_cases row c)
      as [[_ R]|[(_ & _ & msg & R)|(s & _ & _ & [(a & b & _ & R)|(_ & msg & R)])]];
      rewrite R; simpl; [repeat econstructor|constructor..].
  - destruct (wide_row_cases TranscriptAbundance row c) as [[_ R]|[_ R]];
      rewrite R; [rewrite insert_run_trace|]; constructor.
  - destruct (wide_row_cases ProteinAbundance row c) as [[_ R]|[_ R]];
      rewrite R; [rewrite insert_run_trace|]; constructor.
  - destruct (wide_row_cases MetaboliteAbundance row c) as [[_ R]|[_ R]];
      rewrite R; [rewrite insert_run_trace|]; constructor.
  - destruct (annotation_row_cases row c) as [[_ R]|(k & _ & _ & R)];
      rewrite R; constructor.
Qed.

Lemma for_each_trace {A S} (body : A -> S -> io S) (l : list A) :
  (forall x s, only_prints (fst (body x s))) ->
  forall s, only_prints (fst (for_each body l s)).
Proof.
  intros Hbody. induction l as [|x l IH]; intros s; [constructor|].
  cbn [for_each]. unfold bind. pose proof (Hbody x s) as Hx.
  destruct (body x s) as [tr [e|s1]]; simpl in *; [exact Hx|].
  apply Forall_app. split; [exact Hx|apply IH].
Qed.

(** One successful insert: the table existed and the new state is the old
    one, or the old one with the row appended after a check of its key. *)
Lemma insert_step (t : table_name) (p : list pyval) (c c1 : database) :
  insert_into t p c = inr c1 \/ insert_or_ignore t p c = inr c1 ->
  exists old,
    get t c = Some old
    /\ (c1 = c
        \/ (existsb (conflicts t (bind_row t p)) old = false
            /\ c1 = set t (Some (old ++ [bind_row t p])) c)).
Proof.
  unfold insert_into, insert_or_ignore.
  destruct (get t c) as [old|]; [|intros [H|H]; discriminate].
  intros H. exists old. split; [reflexivity|].
  destruct (existsb _ old).
  - destruct H as [H|H]; [discriminate|]. left. now injection H.
  - right. split; [reflexivity|]. destruct H as [H|H]; now injection H.
Qed.

Lemma inserts_other_table (t u : table_name) (c c' : database) :
  inserts t c c' -> t <> u -> get u c' = get u c.
Proof.
  induction 1 as [|c c1 c' p Hp _ IH]; intros Hne; [reflexivity|].
  rewrite (IH Hne).
  destruct (insert_step t p c c1 Hp) as (old & _ & [->|[_ ->]]); [reflexivity|].
  now apply get_set_other.
Qed.

Lemma collision_free_snoc (t : table_name) (old : table) (r : row) :
  collision_free t old ->
  existsb (conflicts t r) old = false ->
  collision_free t (old ++ [r]).
Proof.
  unfold collision_free. intros Hold Hr.
  induction Hold as [|a l Ha Hl IH]; simpl.
  - repeat constructor.
  - simpl in Hr. apply orb_false_iff in Hr as [Hra Hrl].
    constructor; [|now apply IH].
    apply Forall_app. split; [exact Ha|]. now constructor.
Qed.

Lemma inserts_collision_free (t : table_name) (c c' : database) :
  inserts t c c' ->
  forall old,
    get t c = Some old -> collision_free t old ->
    exists new, get t c' = Some new /\ collision_free t new.
Proof.
  induction 1 as [c|c c1 c' p Hp _ IH]; intros old Hget Hfree; [eauto|].
  destruct (insert_step t p c c1 Hp) as (old' & Hget' & [->|[Hnew ->]]).
  - exact (IH old Hget Hfree).
  - rewrite Hget in Hget'. injection Hget' as <-.
    eapply IH; [apply get_set_same|]. now apply collision_free_snoc.
Qed.

(** ** All six loaders *)

(** A loader that returns ran its loop to the end on the emptied table. *)
Lemma loader_returns_inv (t : table_name)
    (body : pydict -> database -> io database)
    (loader : list pydict -> database -> io database)
    (file : list pydict) (db db' : database) (tr : list event) :
  In (t, body, loader) loaders ->
  loader file db = (tr, inr db') ->
  get t db <> None /\ inserts t (set t (Some []) db) db'.
Proof.
  intros H E. destruct (loaders_frame t body loader H) as [done F].
  rewrite F in E.
  destruct (get t db) as [old|] eqn:G.
  2:{ rewrite (run_loader_no_table _ _ _ _ _ G) in E. discriminate. }
  split; [discriminate|].
  destruct (for_each body file (set t (Some []) db)) as [tr0 [e|cur]] eqn:L;
    rewrite (run_loader_result _ _ _ _ _ _ _ _ G L) in E; [discriminate|].
  injection E as _ <-.
  apply (for_each_invariant (inserts t (set t (Some []) db)) body file)
    with (s := set t (Some []) db) (tr := tr0); [|exact L|constructor].
  intros row s tr1 s' _ Es Is.
  eapply inserts_trans; [exact Is|]. eapply body_inserts; eassumption.
Qed.

(** Run before the schema exists, every loader stops at its DELETE with
    "no such table", having only connected: nothing is printed, committed or
    closed. *)
Theorem loaders_need_table (t : table_name)
    (body : pydict -> database -> io database)
    (loader : list pydict -> database -> io database)
    (file : list pydict) (db : database) :
  In (t, body, loader) loaders ->
  get t db = None ->
  loader file db = ([Connect], inl (no_such_table t)).
Proof.
  intros H G. destruct (loaders_frame t body loader H) as [done F].
  rewrite F. now apply run_loader_no_table.
Qed.

Lemma loaders_need_table_witness :
  Annotations_populator
    [[("PeakID", PStr "nHILIC_121.0505_3.5"); ("Metabolite", PStr "Taurine")]]
    empty_database
  = ([Connect], inl (OperationalError "no such table: Annotation")).
Proof.
  apply (loaders_need_table Annotation annotation_row Annotations_populator).
  - simpl; tauto.
  - reflexivity.
Defined.

(** The rows that the target table held before a load have no influence on
    the run: trace, exception and resulting database are those of a load
    into the same database with the table in any other state. *)
Theorem loaders_ignore_prior_rows (t : table_name)
    (body : pydict -> database -> io database)
    (loader : list pydict -> database -> io database)
    (file : list pydict) (db : database) (rows : table) :
  In (t, body, loader) loaders ->
  get t db <> None ->
  loader file (set t (Some rows) db) = loader file db.
Proof.
  intros H G. destruct (loaders_frame t body loader H) as [done F].
  rewrite !F. unfold run_loader, delete_from. rewrite get_set_same, set_set.
  destruct (get t db); [reflexivity|congruence].
Qed.

Lemma loaders_ignore_prior_rows_witness :
  sample_table_populator [[("SampleID", PStr "S2-E1")]]
    (set Samples (Some [[VText "S1-01"; VText "S1"; VInt 1]]) fresh_database)
  = sample_table_populator [[("SampleID", PStr "S2-E1")]] fresh_database.
Proof.
  apply (loaders_ignore_prior_rows Samples sample_row sample_table_populator).
  - simpl; tauto.
  - discriminate.
Defined.

(** A successful load changes no table but its own. *)
Theorem loaders_touch_own_table (t : table_name)
    (body : pydict -> database -> io database)
    (loader : list pydict -> database -> io database)
    (file : list pydict) (db db' : database) (tr : list event)
    (u : table_name) :
  In (t, body, loader) loaders ->
  loader file db = (tr, inr db') ->
  t <> u ->
  get u db' = get u db.
Proof.
  intros H E Hne.
  destruct (loader_returns_inv t body loader file db db' tr H E) as [_ I].
  rewrite (inserts_other_table t u _ _ I Hne). now apply get_set_other.
Qed.

Lemma loaders_touch_own_table_witness :
  get Samples
    (set TranscriptAbundance
       (Some [[VText "S1-01"; VText "A1BG"; VReal (3 # 2)]])
       (set Samples (Some [[VText "S1-01"; VText "S1"; VInt 1]]) fresh_database))
  = get Samples
      (set Samples (Some [[VText "S1-01"; VText "S1"; VInt 1]]) fresh_database).
Proof.
  apply (loaders_touch_own_table TranscriptAbundance
           (wide_row TranscriptAbundance) transcriptome_populator
           [[("SampleID", PStr "S1-01"); ("A1BG", PStr "1.5")]]
           (set Samples (Some [[VText "S1-01"; VText "S1"; VInt 1]]) fresh_database)
           _
           [Connect; Commit; Close;
            Print (Text "Transcript Abundance Table Populated Successfully.")]).
  - simpl; tauto.
  - reflexivity.
  - discriminate.
Defined.

(** After a successful load no two rows of the loaded table have the same
    primary key. *)
Theorem loaders_keep_keys_unique (t : table_name)
    (body : pydict -> database -> io database)
    (loader : list pydict -> database -> io database)
    (file : list pydict) (db db' : database) (tr : list event) :
  In (t, body, loader) loaders ->
  loader file db = (tr, inr db') ->
  exists rows, get t db' = Some rows /\ collision_free t rows.
Proof.
  intros H E.
  destruct (loader_returns_inv t body loader file db db' tr H E) as [_ I].
  apply (inserts_collision_free t _ _ I []); [apply get_set_same|constructor].
Qed.

Lemma loaders_keep_keys_unique_witness :
  exists rows,
    get Samples
      (set Samples
         (Some [[VText "S1-01"; VText "S1"; VInt 1];
                [VText "S2-E1"; VText "S2"; VText "E1"]])
         fresh_database)
    = Some rows
    /\ collision_free Samples rows.
Proof.
  apply (loaders_keep_keys_unique Samples sample_row sample_table_populator
           [[("SampleID", PStr "S1-01")]; [("SampleID", PStr "S2-E1")];
            [("SampleID", PStr "S1-01")]]
           fresh_database _
           [Connect; Commit; Close;
            Print (Text "Samples table populated successfully.")]).
  - simpl; tauto.
  - reflexivity.
Defined.

(** A load that raises has committed nothing and has not closed its
    connection: its trace is the connect followed by diagnostics only. *)
Theorem loaders_abort_uncommitted (t : table_name)
    (body : pydict -> database -> io database)
    (loader : list pydict -> database -> io database)
    (file : list pydict) (db : database) (tr : list event) (e : exn) :
  In (t, body, loader) loaders ->
  loader file db = (tr, inl e) ->
  exists diagnostics,
    tr = Connect :: diagnostics
    /\ only_prints diagnostics
    /\ ~ In Commit tr /\ ~ In Close tr.
Proof.
  intros H E. destruct (loaders_frame t body loader H) as [done F].
  rewrite F in E.
  assert (K : exists diagnostics, tr = Connect :: diagnostics
                                  /\ only_prints diagnostics).
  { destruct (get t db) as [old|] eqn:G.
    - pose proof (for_each_trace body file
                    (fun row c => body_trace t body loader row c H)
                    (set t (Some []) db)) as T.
      destruct (for_each body file (set t (Some []) db)) as [tr0 [e0|cur]] eqn:L;
        rewrite (run_loader_result _ _ _ _ _ _ _ _ G L) in E; [|discriminate].
      injection E as <- _. eauto.
    - rewrite (run_loader_no_table _ _ _ _ _ G) in E. injection E as <- _.
      exists []. split; [reflexivity|constructor]. }
  destruct K as (diagnostics & -> & P). exists diagnostics.
  split; [reflexivity|]. split; [exact P|].
  unfold only_prints in P. rewrite Forall_forall in P.
  split; intros [D|D]; try discriminate; destruct (P _ D) as [l Hl]; discriminate.
Qed.

Lemma loaders_abort_uncommitted_witness :
  exists diagnostics,
    [Connect; Print (TextDict "SampleID not found: " [("Sample", PStr "S1-01")])]
    = Connect :: diagnostics
    /\ only_prints diagnostics
    /\ ~ In Commit
           [Connect;
            Print (TextDict "SampleID not found: " [("Sample", PStr "S1-01")])]
    /\ ~ In Close
           [Connect;
            Print (TextDict "SampleID not found: " [("Sample", PStr "S1-01")])].
Proof.
  apply (loaders_abort_uncommitted Samples sample_row sample_table_populator
           [[("Sample", PStr "S1-01")]; [("SampleID", PStr "S1")]]
           fresh_database _
           (ValueError "not enough values to unpack (expected 2, got 1)")).
  - simpl; tauto.
  - reflexivity.
Defined.

(** ** Loads of subjects that stop *)

Lemma subject_table_populator_frame (file : list pydict) (db : database) :
  subject_table_populator file db
  = run_loader Subjects subject_row "Subjects table populated successfully."
      file db.
Proof. reflexivity. Qed.

(** A subjects row that lacks one of the seven columns stops the load with a
    KeyError for a column it lacks (Age is looked up first); the rows before
    it are not committed and the rows after it are never read. *)
Theorem subject_load_missing_field (pre post : list pydict) (row : pydict)
    (db : database) :
  get Subjects db <> None ->
  subjects_file_ok pre ->
  forallb (has_key row) subject_fields = false ->
  exists k,
    In k subject_fields /\ has_key row k = false
    /\ subject_table_populator (pre ++ row :: post) db
       = ([Connect], inl (KeyError k)).
Proof.
  intros Hdb Hpre Hrow.
  destruct (get Subjects db) as [old|] eqn:G; [clear Hdb|congruence].
  pose proof (subject_rows_insert pre (set Subjects (Some []) db)
                (get_set_same _ _ _) Hpre) as L.
  set (cur1 := set Subjects _ (set Subjects (Some []) db)) in L.
  destruct (subject_row_cases row cur1) as [[K _]|(k & Hk & Hmiss & R)];
    [congruence|].
  exists k. split; [exact Hk|]. split; [exact Hmiss|].
  assert (Eloop : for_each subject_row (pre ++ row :: post)
                    (set Subjects (Some []) db)
                  = ([] ++ [], inl (KeyError k))).
  { rewrite for_each_app. apply (bind_eq _ _ _ _ _ _ L).
    cbn [for_each]. now rewrite R. }
  rewrite subject_table_populator_frame.
  now rewrite (run_loader_result _ _ _ _ _ _ _ _ G Eloop).
Qed.

Lemma subject_load_missing_field_witness :
  exists k,
    In k subject_fields
    /\ has_key [("SubjectID", PStr "S2"); ("Sex", PStr "M")] k = false
    /\ subject_table_populator
         ([subject "S1" "F" "61" "22.4" "C" "NA" "IS"]
            ++ [("SubjectID", PStr "S2"); ("Sex", PStr "M")]
            :: [subject "S3" "F" "45" "NA" "B" "40.5" "IS"])
         fresh_database
       = ([Connect], inl (KeyError k)).
Proof.
  apply (subject_load_missing_field
           [subject "S1" "F" "61" "22.4" "C" "NA" "IS"]
           [subject "S3" "F" "45" "NA" "B" "40.5" "IS"]
           [("SubjectID", PStr "S2"); ("Sex", PStr "M")]
           fresh_database).
  - discriminate.
  - split; [repeat constructor|].
    unfold collision_free; simpl. repeat constructor.
  - reflexivity.
Defined.

(** A subjects row whose SubjectID is that of an earlier row stops the load
    with an IntegrityError; nothing is committed. *)
Theorem subject_load_duplicate_id (pre post : list pydict) (row : pydict)
    (db : database) :
  get Subjects db <> None ->
  subjects_file_ok pre ->
  forallb (has_key row) subject_fields = true ->
  existsb (conflicts Subjects (bind_row Subjects (subject_params row)))
    (subject_rows pre) = true ->
  subject_table_populator (pre ++ row :: post) db
  = ([Connect], inl (unique_failed Subjects)).
Proof.
  intros Hdb Hpre Hrow Hdup.
  destruct (get Subjects db) as [old|] eqn:G; [clear Hdb|congruence].
  pose proof (subject_rows_insert pre (set Subjects (Some []) db)
                (get_set_same _ _ _) Hpre) as L.
  set (cur1 := set Subjects _ (set Subjects (Some []) db)) in L.
  assert (R : subject_row row cur1 = ([], inl (unique_failed Subjects))).
  { rewrite (subject_row_insert _ _ Hrow). unfold lift, insert_into, cur1.
    unfold subject_rows in Hdup. rewrite get_set_same, Hdup. reflexivity. }
  assert (Eloop : for_each subject_row (pre ++ row :: post)
                    (set Subjects (Some []) db)
                  = ([] ++ [], inl (unique_failed Subjects))).
  { rewrite for_each_app. apply (bind_eq _ _ _ _ _ _ L).
    cbn [for_each]. now rewrite R. }
  rewrite subject_table_populator_frame.
  now rewrite (run_loader_result _ _ _ _ _ _ _ _ G Eloop).
Qed.

Lemma subject_load_duplicate_id_witness :
  subject_table_populator
    ([subject "S1" "F" "61" "22.4" "C" "NA" "IS"]
       ++ subject "S1" "M" "30" "30.1" "A" "91" "IR" :: [])
    fresh_database
  = ([Connect], inl (IntegrityError "UNIQUE constraint failed: Subjects")).
Proof.
  apply (subject_load_duplicate_id
           [subject "S1" "F" "61" "22.4" "C" "NA" "IS"] []
           (subject "S1" "M" "30" "30.1" "A" "91" "IR") fresh_database).
  - discriminate.
  - split; [repeat constructor|].
    unfold collision_free; simpl. repeat constructor.
  - reflexivity.
  - reflexivity.
Defined.

(** ** The annotation loader *)

Lemma annotation_row_stored (row : pydict) :
  bind_row Annotation (map (field row) annotation_fields)
  = map (fun k => as_given (field row k)) annotation_fields.
Proof.
  simpl. unfold bind_row; simpl.
  now destruct (field row "PeakID"), (field row "Metabolite"),
    (field row "KEGG"), (field row "HMDB"), (field row "Pathway").
Qed.

Lemma annotation_rows_insert (file : list pydict) (cur : database) :
  get Annotation cur = Some [] ->
  annotations_file_ok file ->
  for_each annotation_row file cur
  = ([], inr (set Annotation (Some (annotation_rows file)) cur)).
Proof.
  intros Hcur [Hkeys Hfree].
  rewrite (for_each_ext annotation_row
             (fun row cur =>
                lift (insert_into Annotation (map (field row) annotation_fields) cur))).
  2:{ intros row s Hin. rewrite Forall_forall in Hkeys.
      destruct (annotation_row_cases row s) as [[_ R]|(k & Hk & Hmiss & _)];
        [exact R|].
      specialize (Hkeys row Hin). rewrite forallb_forall in Hkeys.
      rewrite (Hkeys k Hk) in Hmiss. discriminate. }
  rewrite (for_each_map (fun row => map (field row) annotation_fields)
             (fun p cur => lift (insert_into Annotation p cur))).
  assert (Hrows : map (bind_row Annotation)
                    (map (fun row => map (field row) annotation_fields) file)
                  = annotation_rows file).
  { rewrite map_map. apply map_ext. intros row. apply annotation_row_stored. }
  rewrite (insert_all Annotation _ [] cur Hcur).
  - now rewrite Hrows.
  - intros _ r' _ [].
  - now rewrite Hrows.
Qed.

(** On a database that has the Annotation table, a file whose rows have the
    five columns and pairwise different (PeakID, Metabolite) keys loads to
    the end: the table afterwards holds exactly one row per line, in file
    order, every field stored as the text it was given (no conversion), and
    the run commits and closes.  Several metabolites for one peak are fine. *)
Theorem annotation_load_stores_as_given (file : list pydict) (db : database) :
  get Annotation db <> None ->
  annotations_file_ok file ->
  Annotations_populator file db
  = ([Connect; Commit; Close;
      Print (Text "Metabolite Annotation Table Populated successfully.")],
     inr (set Annotation (Some (annotation_rows file)) db)).
Proof.
  intros Hdb Hok. unfold Annotations_populator.
  destruct (get Annotation db) as [old|] eqn:E; [clear Hdb|congruence].
  pose proof (annotation_rows_insert file (set Annotation (Some []) db)
                (get_set_same _ _ _) Hok) as L.
  loader_run E L.
Qed.

Lemma annotation_load_stores_as_given_witness :
  Annotations_populator
    [[("PeakID", PStr "nHILIC_121.0505_3.5"); ("Metabolite", PStr "Taurine");
      ("KEGG", PStr "C00245"); ("HMDB", PStr "HMDB00251");
      ("Pathway", PStr "Taurine metabolism")];
     [("PeakID", PStr "nHILIC_121.0505_3.5"); ("Metabolite", PStr "Hypotaurine");
      ("KEGG", PStr EmptyString); ("HMDB", PStr "007"); ("Pathway", PNone)]]
    fresh_database
  = ([Connect; Commit; Close;
      Print (Text "Metabolite Annotation Table Populated successfully.")],
     inr (set Annotation
            (Some (annotation_rows
                     [[("PeakID", PStr "nHILIC_121.0505_3.5");
                       ("Metabolite", PStr "Taurine");
                       ("KEGG", PStr "C00245"); ("HMDB", PStr "HMDB00251");
                       ("Pathway", PStr "Taurine metabolism")];
                      [("PeakID", PStr "nHILIC_121.0505_3.5");
                       ("Metabolite", PStr "Hypotaurine");
                       ("KEGG", PStr EmptyString); ("HMDB", PStr "007");
                       ("Pathway", PNone)]]))
            fresh_database)).
Proof.
  apply (annotation_load_stores_as_given _ fresh_database).
  - discriminate.
  - split; [repeat constructor|].
    unfold collision_free; simpl. repeat constructor.
Defined.

(** ** Samples: duplicate lines, and the way back through query 3 *)

Lemma bind_ext_at {A B} (m : io A) (f g : A -> io B)
    (tr : list event) (a : A) :
  m = (tr, inr a) -> f a = g a -> bind m f = bind m g.
Proof. intros -> H. unfold bind; simpl. now rewrite H. Qed.

Lemma inserts_prefix (t : table_name) (c c' : database) :
  inserts t c c' ->
  forall old, get t c = Some old ->
  exists more, get t c' = Some (old ++ more).
Proof.
  induction 1 as [c|c c1 c' p Hp _ IH]; intros old Hget.
  - exists []. now rewrite app_nil_r.
  - destruct (insert_step t p c c1 Hp) as (old' & Hget' & [->|[_ ->]]).
    + exact (IH old Hget).
    + rewrite Hget in Hget'. injection Hget' as <-.
      destruct (IH _ (get_set_same _ _ _)) as [more Hmore].
      exists (bind_row t p :: more). now rewrite Hmore, <- app_assoc.
Qed.

Lemma sample_rows_inserts (file : list pydict) (c c' : database)
    (tr : list event) :
  for_each sample_row file c = (tr, inr c') -> inserts Samples c c'.
Proof.
  intros E.
  apply (for_each_invariant (inserts Samples c) sample_row file)
    with (s := c) (tr := tr); [|exact E|constructor].
  intros row s tr1 s' _ Es Is.
  eapply inserts_trans; [exact Is|].
  eapply (body_inserts Samples sample_row sample_table_populator);
    [simpl; tauto|exact Es].
Qed.

Lemma same_key_text (s : string) (v : value) :
  same_key (VText s) v = true -> v = VText s.
Proof.
  destruct v as [| | |s']; try discriminate. simpl.
  intros H. apply String.eqb_eq in H. now subst.
Qed.

(** Once a row with identifier [s] has gone through the loop, the table
    holds a row with that identifier. *)
Lemma sample_row_leaves_id (row : pydict) (c c' : database)
    (tr : list event) (s : string) :
  sample_row row c = (tr, inr c') ->
  field row "SampleID" = PStr s ->
  exists rows r,
    get Samples c' = Some rows /\ In r rows /\ nth 0 r VNull = VText s.
Proof.
  intros E F.
  destruct (sample_row_cases row c)
    as [[K _]|[(_ & F' & _)|(s' & _ & F' & [(a & b & _ & R)|(_ & msg & R)])]].
  - rewrite (field_no_key _ _ K) in F. discriminate.
  - congruence.
  - rewrite F in F'. injection F' as <-.
    rewrite R in E. injection E as _ E.
    unfold insert_or_ignore in E.
    destruct (get Samples c) as [old|] eqn:G; [|discriminate].
    destruct (existsb _ old) eqn:X; injection E as <-.
    + apply existsb_exists in X as (r & Hr & Hc).
      exists old, r. repeat split; auto.
      unfold conflicts in Hc; simpl in Hc. rewrite andb_true_r in Hc.
      now apply same_key_text in Hc.
    + eexists _, _. split; [reflexivity|].
      split; [apply in_or_app; right; now left|reflexivity].
  - rewrite R in E. discriminate.
Qed.

Lemma sample_rows_leave_id (pre : list pydict) :
  forall (c c' : database) (tr : list event) (earlier : pydict) (s : string),
    for_each sample_row pre c = (tr, inr c') ->
    In earlier pre ->
    field earlier "SampleID" = PStr s ->
    exists rows r,
      get Samples c' = Some rows /\ In r rows /\ nth 0 r VNull = VText s.
Proof.
  induction pre as [|row pre IH]; intros c c' tr earlier s E Hin F; [contradiction|].
  cbn [for_each] in E.
  apply bind_inr_inv in E as (tr1 & c1 & tr2 & E1 & E2 & _).
  destruct Hin as [->|Hin].
  - destruct (sample_row_leaves_id _ _ _ _ _ E1 F) as (rows & r & G & Hr & Hs).
    destruct (inserts_prefix _ _ _ (sample_rows_inserts _ _ _ _ E2) rows G)
      as [more Hmore].
    exists (rows ++ more), r. repeat split; auto. apply in_or_app. now left.
  - exact (IH _ _ _ _ _ E2 Hin F).
Qed.

(** A line whose SampleID already came on an earlier line changes nothing:
    the load of the file runs exactly as the load of the file without that
    line (INSERT OR IGNORE). *)
Theorem sample_load_ignores_duplicates (pre post : list pydict)
    (row earlier : pydict) (s : string) (db : database) :
  get Samples db <> None ->
  Forall sample_row_loads pre ->
  In earlier pre ->
  field earlier "SampleID" = PStr s ->
  field row "SampleID" = PStr s ->
  sample_table_populator (pre ++ row :: post) db
  = sample_table_populator (pre ++ post) db.
Proof.
  intros Hdb Hpre Hin Fe Fr.
  assert (H0 : get Samples (set Samples (Some []) db) <> None)
    by (rewrite get_set_same; discriminate).
  destruct (sample_rows_return pre Hpre _ H0) as (tr1 & cur1 & E1 & H1 & _).
  destruct (sample_rows_leave_id pre _ _ _ earlier s E1 Hin Fe)
    as (rows & r & G & Hr & Hs).
  assert (Hsplit : splits_in_two s = true).
  { rewrite Forall_forall in Hpre. destruct (Hpre earlier Hin) as [K|(s' & F' & S)].
    - rewrite (field_no_key _ _ K) in Fe. discriminate.
    - rewrite Fe in F'. now injection F' as <-. }
  assert (Erow : sample_row row cur1 = ([], inr cur1)).
  { destruct (sample_row_cases row cur1)
      as [[K _]|[(_ & F' & _)|(s' & _ & F' & [(a & b & _ & R)|(S & _)])]].
    - rewrite (field_no_key _ _ K) in Fr. discriminate.
    - congruence.
    - rewrite Fr in F'. injection F' as <-. rewrite R.
      unfold lift, insert_or_ignore. rewrite G.
      replace (existsb _ rows) with true; [reflexivity|].
      symmetry. apply existsb_exists. exists r. split; [exact Hr|].
      unfold conflicts; simpl. destruct r as [|v r]; [discriminate|].
      simpl in Hs. subst v. simpl. now rewrite String.eqb_refl.
    - rewrite Fr in F'. injection F' as <-. congruence. }
  assert (Eloops : for_each sample_row (pre ++ row :: post)
                     (set Samples (Some []) db)
                   = for_each sample_row (pre ++ post)
                       (set Samples (Some []) db)).
  { rewrite !for_each_app. apply (bind_ext_at _ _ _ _ _ E1).
    cbn [for_each]. rewrite Erow. unfold bind; simpl.
    now destruct (for_each sample_row post cur1). }
  destruct (for_each sample_row (pre ++ post) (set Samples (Some []) db))
    as [tr r0] eqn:L.
  rewrite (sample_table_populator_loop _ _ _ _ Hdb Eloops).
  now rewrite (sample_table_populator_loop _ _ _ _ Hdb L).
Qed.

Lemma sample_load_ignores_duplicates_witness :
  sample_table_populator
    ([[("SampleID", PStr "S1-01")]; [("SampleID", PStr "S2-E1")]]
       ++ [("SampleID", PStr "S1-01")] :: [[("SampleID", PStr "S2-02")]])
    fresh_database
  = sample_table_populator
      ([[("SampleID", PStr "S1-01")]; [("SampleID", PStr "S2-E1")]]
         ++ [[("SampleID", PStr "S2-02")]])
      fresh_database.
Proof.
  apply (sample_load_ignores_duplicates _ _ _ [("SampleID", PStr "S1-01")] "S1-01").
  - discriminate.
  - constructor; [|constructor; [|constructor]].
    + right. exists "S1-01". split; reflexivity.
    + right. exists "S2-E1". split; reflexivity.
  - now left.
  - reflexivity.
  - reflexivity.
Defined.

Lemma sample_rows_cons (row : pydict) (file : list pydict) :
  sample_rows (row :: file)
  = map sample_record (sample_parts row) ++ sample_rows file.
Proof. unfold sample_rows. simpl. now rewrite map_app. Qed.

(** On rows that load and bring no identifier twice, the loop appends the
    rows of the file to the table. *)
Lemma sample_rows_stored (file : list pydict) :
  Forall sample_row_loads file ->
  forall (cur : database) (old : table),
    get Samples cur = Some old ->
    (forall r r', In r (sample_rows file) -> In r' old ->
                  conflicts Samples r r' = false) ->
    collision_free Samples (sample_rows file) ->
    exists tr,
      for_each sample_row file cur
      = (tr, inr (set Samples (Some (old ++ sample_rows file)) cur)).
Proof.
  induction 1 as [|row file Hrow _ IH]; intros cur old G Hold Hfree.
  - exists []. unfold sample_rows; simpl. rewrite app_nil_r.
    pose proof (set_get Samples cur) as E. rewrite G in E.
    unfold ret. do 2 f_equal. symmetry; exact E.
  - rewrite sample_rows_cons in Hold, Hfree. rewrite sample_rows_cons.
    destruct (sample_row_cases row cur)
      as [[K R]|[(K & F & _)|(s & K & F & [(a & b & S & R)|(S & _)])]].
    + assert (P : sample_parts row = [])
        by (unfold sample_parts; now rewrite (field_no_key _ _ K)).
      rewrite P in *. simpl in *.
      destruct (IH cur old G Hold Hfree) as [tr E].
      eexists. cbn [for_each].
      exact (bind_eq (sample_row row cur) (fun c => for_each sample_row file c)
               _ _ _ _ R E).
    + destruct Hrow as [K'|(s & F' & _)]; congruence.
    + assert (P : sample_parts row = [(s, a, b)])
        by (unfold sample_parts; now rewrite F, S).
      rewrite P in *. simpl map in *. simpl app in Hold, Hfree.
      unfold collision_free in Hfree. inversion Hfree as [|x l Hhead Htail]; subst.
      assert (I : insert_or_ignore Samples [PStr s; PStr a; PStr b] cur
                  = inr (set Samples (Some (old ++ [sample_record (s, a, b)])) cur)).
      { unfold insert_or_ignore. rewrite G.
        change (bind_row Samples [PStr s; PStr a; PStr b])
          with (sample_record (s, a, b)).
        rewrite existsb_false; [reflexivity|].
        intros r' Hr'. apply Hold; [now left|exact Hr']. }
      destruct (IH (set Samples (Some (old ++ [sample_record (s, a, b)])) cur)
                  (old ++ [sample_record (s, a, b)])) as [tr E].
      * apply get_set_same.
      * intros r r' Hr Hr'. apply in_app_or in Hr' as [Hr'|[<-|[]]].
        -- apply Hold; [now right|exact Hr'].
        -- rewrite Forall_forall in Hhead. now apply Hhead.
      * exact Htail.
      * rewrite set_set, <- app_assoc in E. simpl app in E.
        eexists. cbn [for_each]. rewrite R.
        exact (bind_eq (lift (insert_or_ignore Samples [PStr s; PStr a; PStr b] cur))
                 (fun c => for_each sample_row file c) [] _ _ _
                 (f_equal (pair []) I) E).
    + destruct Hrow as [K'|(s' & F' & S')]; [congruence|].
      rewrite F in F'. injection F' as <-. congruence.
Qed.

Lemma string_compare_refl (s : string) : String.compare s s = Eq.
Proof.
  pose proof (String.compare_antisym s s) as H.
  destruct (String.compare s s); [reflexivity|discriminate..].
Qed.

Lemma text_eq (a b : string) :
  holds (sql_eq (VText a) (VText b)) = String.eqb a b.
Proof.
  unfold sql_eq, sql_cmp; simpl.
  destruct (String.eqb_spec a b) as [->|Hne].
  - now rewrite string_compare_refl.
  - destruct (String.compare a b) eqn:C; try reflexivity.
    apply String.compare_eq_iff in C. contradiction.
Qed.

Lemma select_visits_of_rows (db : database) (parts : list (string * string * string)) :
  get Samples db = Some (map sample_record parts) ->
  select_visits_by_ZNQOVZV db
  = inr (map (fun p => [store AffInteger (PStr (snd p))])
           (filter (fun p => String.eqb (snd (fst p)) "ZNQOVZV") parts)).
Proof.
  intros G. unfold select_visits_by_ZNQOVZV, scan. rewrite G. f_equal.
  clear G. induction parts as [|[[s a] b] parts IH]; [reflexivity|].
  cbn [map filter].
  change (column Samples "SubjectID" (sample_record (s, a, b))) with (VText a).
  rewrite text_eq. cbn [fst snd].
  destruct (String.eqb a "ZNQOVZV"); cbn [map]; now rewrite IH.
Qed.

(** Loading a samples file and then asking for the visits of ZNQOVZV gives
    back the visit parts of the lines of that subject, in file order, each
    as the INTEGER column stores it.  The file may hold rows without a
    SampleID (they are skipped); its identifiers split in two and are
    pairwise different. *)
Theorem visits_after_sample_load (file : list pydict) (db : database) :
  get Samples db <> None ->
  Forall sample_row_loads file ->
  collision_free Samples (sample_rows file) ->
  exists tr db',
    sample_table_populator file db = (tr, inr db')
    /\ get Samples db' = Some (sample_rows file)
    /\ visits_by_ZNQOVZV db' = ([Connect; Close], inr (visits_of_ZNQOVZV file)).
Proof.
  intros Hdb Hrows Hfree.
  destruct (sample_rows_stored file Hrows (set Samples (Some []) db) []
              (get_set_same _ _ _)) as [tr L]; [intros _ r' _ []|exact Hfree|].
  rewrite set_set in L. simpl app in L.
  eexists _, _. split.
  { rewrite (sample_table_populator_loop _ _ _ _ Hdb L). reflexivity. }
  split; [apply get_set_same|].
  unfold visits_by_ZNQOVZV.
  rewrite (select_visits_of_rows _ (flat_map sample_parts file))
    by apply get_set_same.
  reflexivity.
Qed.

Lemma visits_after_sample_load_witness :
  exists tr db',
    sample_table_populator
      [[("SampleID", PStr "ZNQOVZV-01")]; [("Sample", PStr "x")];
       [("SampleID", PStr "S2-E1")]; [("SampleID", PStr "ZNQOVZV-E7")]]
      fresh_database
    = (tr, inr db')
    /\ get Samples db'
       = Some (sample_rows
                 [[("SampleID", PStr "ZNQOVZV-01")]; [("Sample", PStr "x")];
                  [("SampleID", PStr "S2-E1")]; [("SampleID", PStr "ZNQOVZV-E7")]])
    /\ visits_by_ZNQOVZV db'
       = ([Connect; Close],
          inr (visits_of_ZNQOVZV
                 [[("SampleID", PStr "ZNQOVZV-01")]; [("Sample", PStr "x")];
                  [("SampleID", PStr "S2-E1")];
                  [("SampleID", PStr "ZNQOVZV-E7")]])).
Proof.
  apply (visits_after_sample_load _ fresh_database).
  - discriminate.
  - constructor; [|constructor; [|constructor; [|constructor; [|constructor]]]].
    + right. exists "ZNQOVZV-01". split; reflexivity.
    + left. reflexivity.
    + right. exists "S2-E1". split; reflexivity.
    + right. exists "ZNQOVZV-E7". split; reflexivity.
  - unfold collision_free; simpl. repeat constructor.
Defined.

Example visits_after_sample_load_run :
  visits_of_ZNQOVZV
    [[("SampleID", PStr "ZNQOVZV-01")]; [("Sample", PStr "x")];
     [("SampleID", PStr "S2-E1")]; [("SampleID", PStr "ZNQOVZV-E7")]]
  = [[VInt 1]; [VText "E7"]].
Proof. reflexivity. Qed.

(** * Further properties of the queries *)

(** ** Query 1 *)

Lemma existsb_nonempty_filter {A} (p : A -> bool) (l : list A) :
  existsb p l = nonempty (filter p l).
Proof.
  induction l as [|a l IH]; [reflexivity|]. simpl.
  destruct (p a); [reflexivity|exact IH].
Qed.

Lemma age_gt_70 (age : value) :
  holds (sql_gt age (VInt 70)) = over_70 age.
Proof.
  destruct age as [|z|q|s]; try reflexivity.
  - unfold sql_gt, sql_cmp, over_70; simpl. unfold Qcompare; simpl.
    destruct (Z.ltb_spec 70 z);
      match goal with
      | |- context [Z.compare ?a ?b] => destruct (Z.compare_spec a b)
      end; simpl; try reflexivity; lia.
  - unfold sql_gt, sql_cmp, over_70, compare_values, to_Q, is_null, orb, holds.
    unfold Qle_bool, Qcompare. cbn [Qnum Qden inject_Z].
    match goal with
    | |- context [Z.leb ?a ?b] => destruct (Z.leb_spec a b)
    end;
      match goal with
      | |- context [Z.compare ?a ?b] => destruct (Z.compare_spec a b)
      end; simpl; try reflexivity; lia.
Qed.

Lemma subjects_over_70_result (db : database) (rows : table) :
  get Subjects db = Some rows ->
  subjects_over_70 db
  = ([Connect; Close]
       ++ (if existsb (fun r => over_70 (column Subjects "Age" r)) rows
           then [] else [Print (Text "No subjects over age 70.")]),
     inr (map (fun r => [column Subjects "SubjectID" r; column Subjects "Age" r])
            (filter (fun r => over_70 (column Subjects "Age" r)) rows))).
Proof.
  intros G. unfold subjects_over_70, select_subjects_over_70, scan. rewrite G.
  rewrite (filter_ext _ (fun r => over_70 (column Subjects "Age" r))
             (fun r => age_gt_70 (column Subjects "Age" r))).
  rewrite (existsb_nonempty_filter (fun r => over_70 (column Subjects "Age" r))).
  unfold bind; simpl. now destruct (filter _ rows).
Qed.

(** On a database that has Subjects, [subjects_over_70] returns, in table
    order, SubjectID and Age of the rows whose Age is a number above 70 or
    any text at all; it prints its message exactly when there is none. *)
Theorem subjects_over_70_spec (db : database) (rows : table) :
  get Subjects db = Some rows ->
  subjects_over_70 db
  = ([Connect; Close]
       ++ (if existsb (fun r => over_70 (column Subjects "Age" r)) rows
           then [] else [Print (Text "No subjects over age 70.")]),
     inr (map (fun r => [column Subjects "SubjectID" r; column Subjects "Age" r])
            (filter (fun r => over_70 (column Subjects "Age" r)) rows))).
Proof. intros G. now apply subjects_over_70_result. Qed.

Lemma subjects_over_70_spec_witness :
  subjects_over_70 subjects_with_NA_age
  = ([Connect; Close]
       ++ (if existsb (fun r => over_70 (column Subjects "Age" r)) rows_with_NA_age
           then [] else [Print (Text "No subjects over age 70.")]),
     inr (map (fun r => [column Subjects "SubjectID" r; column Subjects "Age" r])
            (filter (fun r => over_70 (column Subjects "Age" r))
               rows_with_NA_age))).
Proof.
  apply (subjects_over_70_spec subjects_with_NA_age rows_with_NA_age).
  reflexivity.
Defined.

(** Loader and query 1 together: a subject whose Age is NA in the file is
    listed by [subjects_over_70], with NA for its age. *)
Theorem subject_with_NA_age_is_over_70 (file : list pydict) (db : database)
    (row : pydict) (id : string) :
  get Subjects db <> None ->
  subjects_file_ok file ->
  In row file ->
  field row "SubjectID" = PStr id ->
  field row "Age" = PStr "NA" ->
  exists tr db' tr' answer,
    subject_table_populator file db = (tr, inr db')
    /\ subjects_over_70 db' = (tr', inr answer)
    /\ In [VText id; VText "NA"] answer.
Proof.
  intros Hdb Hok Hin Hid Hage.
  pose proof (subject_table_populator_ok file db Hdb Hok) as L.
  eexists _, _, _, _. split; [exact L|]. split.
  { apply subjects_over_70_result. apply get_set_same. }
  apply in_map_iff. exists (bind_row Subjects (subject_params row)).
  split.
  - unfold column, bind_row, subject_params; simpl. now rewrite Hid, Hage.
  - apply filter_In. split.
    { exact (in_map (fun row => bind_row Subjects (subject_params row))
               file row Hin). }
    rewrite column_age_of_subject, Hage. reflexivity.
Qed.

Lemma subject_with_NA_age_is_over_70_witness :
  exists tr db' tr' answer,
    subject_table_populator
      [subject "S1" "F" "10" "22.4" "C" "NA" "IS";
       subject "S2" "M" "NA" "30.1" "A" "91" "IR"] fresh_database
    = (tr, inr db')
    /\ subjects_over_70 db' = (tr', inr answer)
    /\ In [VText "S2"; VText "NA"] answer.
Proof.
  apply (subject_with_NA_age_is_over_70
           [subject "S1" "F" "10" "22.4" "C" "NA" "IS";
            subject "S2" "M" "NA" "30.1" "A" "91" "IR"]
           fresh_database (subject "S2" "M" "NA" "30.1" "A" "91" "IR") "S2").
  - discriminate.
  - split; [repeat constructor|].
    unfold collision_free; simpl. repeat constructor.
  - right; now left.
  - reflexivity.
  - reflexivity.
Defined.

(** ** Three-valued conditions *)

Lemma holds_and (a b : option bool) :
  holds (sql_and a b) = holds a && holds b.
Proof. now destruct a as [[|]|], b as [[|]|]. Qed.

Lemma holds_or (a b : option bool) :
  holds (sql_or a b) = holds a || holds b.
Proof. now destruct a as [[|]|], b as [[|]|]. Qed.

Lemma holds_in (x : value) (vs : list value) :
  holds (sql_in x vs) = existsb (fun v => holds (sql_eq x v)) vs.
Proof.
  unfold sql_in. induction vs as [|v vs IH]; [reflexivity|].
  simpl. now rewrite holds_or, IH.
Qed.

Lemma existsb_map_filter {A B} (f : A -> B) (p : A -> bool) (q : B -> bool)
    (l : list A) :
  existsb q (map f (filter p l)) = existsb (fun a => p a && q (f a)) l.
Proof.
  induction l as [|a l IH]; [reflexivity|]. simpl.
  destruct (p a); simpl; now rewrite IH.
Qed.

(** ** Query 9 *)

Lemma age_bmi_plot_result (db : database) (rows : table) :
  get Subjects db = Some rows ->
  age_bmi_plot db
  = ([Connect; Close; Print (TextRows "Retrieved data: " (age_bmi_rows rows))]
       ++ (if existsb plottable (age_bmi_rows rows)
           then [Savefig "age_vs_bmi_scatterplot.png";
                 Print (Text "Plot saved as 'age_vs_bmi_scatterplot.png'")]
           else [Print (Text "No valid Age and BMI data to plot.")]),
     inr (age_bmi_rows rows)).
Proof.
  intros G. unfold age_bmi_plot, select_age_bmi, scan. rewrite G.
  assert (E : map (fun r => [column Subjects "Age" r; column Subjects "BMI" r])
                (filter (fun r =>
                     holds (sql_and (is_not_null (column Subjects "Age" r))
                              (is_not_null (column Subjects "BMI" r))))
                   rows)
              = age_bmi_rows rows).
  { unfold age_bmi_rows. f_equal. apply filter_ext. intros r.
    rewrite holds_and. unfold is_not_null.
    now destruct (is_null (column Subjects "Age" r)),
      (is_null (column Subjects "BMI" r)). }
  rewrite E. rewrite (existsb_nonempty_filter plottable).
  change (fun r : list value =>
            is_number (nth 0 r VNull) && is_number (nth 1 r VNull))
    with plottable.
  cbv beta iota delta [bind emit lift fst snd]. unfold row.
  destruct (@filter (list value) plottable (age_bmi_rows rows)); reflexivity.
Qed.

(** On a database that has Subjects, [age_bmi_plot] returns every (Age, BMI)
    pair in which neither value is NULL, text values included; it prints
    what it retrieved, and it saves the plot exactly when some pair has two
    numbers, printing the matching message. *)
Theorem age_bmi_plot_spec (db : database) (rows : table) :
  get Subjects db = Some rows ->
  age_bmi_plot db
  = ([Connect; Close; Print (TextRows "Retrieved data: " (age_bmi_rows rows))]
       ++ (if existsb plottable (age_bmi_rows rows)
           then [Savefig "age_vs_bmi_scatterplot.png";
                 Print (Text "Plot saved as 'age_vs_bmi_scatterplot.png'")]
           else [Print (Text "No valid Age and BMI data to plot.")]),
     inr (age_bmi_rows rows)).
Proof. intros G. now apply age_bmi_plot_result. Qed.

Lemma age_bmi_plot_spec_witness :
  age_bmi_plot subjects_with_NA_age
  = ([Connect; Close;
      Print (TextRows "Retrieved data: " (age_bmi_rows rows_with_NA_age))]
       ++ (if existsb plottable (age_bmi_rows rows_with_NA_age)
           then [Savefig "age_vs_bmi_scatterplot.png";
                 Print (Text "Plot saved as 'age_vs_bmi_scatterplot.png'")]
           else [Print (Text "No valid Age and BMI data to plot.")]),
     inr (age_bmi_rows rows_with_NA_age)).
Proof.
  apply (age_bmi_plot_spec subjects_with_NA_age rows_with_NA_age). reflexivity.
Defined.

(** Through the dispatcher, query 9 announces a plot whenever it retrieved
    a row: when rows were retrieved but none has two numbers, no plot is
    saved, and the run prints both that there is nothing to plot and that
    the data was "successfully retrieved and plotted". *)
Theorem main_query9_announces_missing_plot (db : database) (rows : table) :
  get Subjects db = Some rows ->
  age_bmi_rows rows <> [] ->
  existsb plottable (age_bmi_rows rows) = false ->
  main (only_query 9) db
  = ([Connect; Close;
      Print (TextRows "Retrieved data: " (age_bmi_rows rows));
      Print (Text "No valid Age and BMI data to plot.");
      Print (Text "Age vs BMI data successfully retrieved and plotted.")],
     inr db).
Proof.
  intros G Hdata Hplot.
  unfold main, only_query; simpl. rewrite !bind_ret.
  change (run_query 9 db)
    with (bind (age_bmi_plot db)
            (fun answer =>
               if nonempty answer
               then print (Text "Age vs BMI data successfully retrieved and plotted.")
               else print (Text "No valid Age and BMI data available to plot."))).
  rewrite (age_bmi_plot_result db rows G), Hplot.
  destruct (age_bmi_rows rows) as [|r data]; [congruence|]. reflexivity.
Qed.

Lemma main_query9_announces_missing_plot_witness :
  main (only_query 9)
    (set Subjects
       (Some [[VText "S2"; VText "M"; VText "NA"; VReal (301 # 10);
               VText "A"; VReal (91 # 1); VText "IR"]])
       fresh_database)
  = ([Connect; Close;
      Print (TextRows "Retrieved data: "
               (age_bmi_rows
                  [[VText "S2"; VText "M"; VText "NA"; VReal (301 # 10);
                    VText "A"; VReal (91 # 1); VText "IR"]]));
      Print (Text "No valid Age and BMI data to plot.");
      Print (Text "Age vs BMI data successfully retrieved and plotted.")],
     inr (set Subjects
            (Some [[VText "S2"; VText "M"; VText "NA"; VReal (301 # 10);
                    VText "A"; VReal (91 # 1); VText "IR"]])
            fresh_database)).
Proof.
  apply (main_query9_announces_missing_plot _
           [[VText "S2"; VText "M"; VText "NA"; VReal (301 # 10);
             VText "A"; VReal (91 # 1); VText "IR"]]).
  - reflexivity.
  - discriminate.
  - reflexivity.
Defined.

(** ** Query 6 through the dispatcher *)

(** When no age is valid (every Age null or NA, or no subject at all),
    [main] with query 6 does not reach its "No valid age data" branch: the
    answer is a list holding the row of nulls, which is true, and formatting
    the first null with [.2f] raises a TypeError. *)
Theorem main_query6_without_valid_age (db : database) (rows : table) :
  get Subjects db = Some rows ->
  valid_ages rows = [] ->
  main (only_query 6) db
  = ([Connect; Close; Print (Text "No valid data found.")],
     inl (TypeError "unsupported format string passed to NoneType.__format__")).
Proof.
  intros G Hv.
  pose proof (statistical_data_on_age_returns db _ _ _
                (select_age_statistics_spec db rows G)) as R.
  rewrite Hv in R. simpl in R.
  unfold main, only_query; simpl. rewrite !bind_ret.
  change (run_query 6 db)
    with (bind (statistical_data_on_age db)
            (fun answer =>
               match answer with
               | [] => print (Text "No valid age data")
               | [min_age; max_age; avg_age] :: _ =>
                   print_fixed2 "Minimum Age: " min_age ;;
                   print_fixed2 "Maximum Age: " max_age ;;
                   print_fixed2 "Average Age: " avg_age
               | _ :: _ => raise (ValueError "wrong number of values to unpack")
               end)).
  rewrite R. reflexivity.
Qed.

Lemma main_query6_without_valid_age_witness :
  main (only_query 6) fresh_database
  = ([Connect; Close; Print (Text "No valid data found.")],
     inl (TypeError "unsupported format string passed to NoneType.__format__")).
Proof.
  apply (main_query6_without_valid_age fresh_database []); reflexivity.
Defined.

(** ** MIN and MAX *)

Lemma compare_values_antisym (a b : value) :
  compare_values a b = CompOpp (compare_values b a).
Proof.
  destruct a, b; simpl; try reflexivity;
    try (symmetry; apply Qcompare_antisym).
  apply String.compare_antisym.
Qed.

Lemma string_compare_le_trans (a b c : string) :
  String.compare a b <> Gt -> String.compare b c <> Gt ->
  String.compare a c <> Gt.
Proof.
  intros H1 H2.
  destruct (String.compare a b) eqn:E1; [| |congruence];
    destruct (String.compare b c) eqn:E2; try congruence.
  - apply String.compare_eq_iff in E1, E2. subst.
    now rewrite string_compare_refl.
  - apply String.compare_eq_iff in E1. subst. now rewrite E2.
  - apply String.compare_eq_iff in E2. subst. now rewrite E1.
  - apply OrderedTypeEx.String_as_OT.cmp_lt in E1, E2.
    pose proof (OrderedTypeEx.String_as_OT.lt_trans _ _ _ E1 E2) as E.
    apply OrderedTypeEx.String_as_OT.cmp_lt in E.
    unfold OrderedTypeEx.String_as_OT.cmp in E. now rewrite E.
Qed.

(** The order of the store is transitive. *)
Lemma compare_values_le_trans (a b c : value) :
  compare_values a b <> Gt -> compare_values b c <> Gt ->
  compare_values a c <> Gt.
Proof.
  destruct a, b, c; cbn [compare_values to_Q]; intros H1 H2;
    try discriminate; try congruence;
    try (apply Qle_alt; apply Qle_alt in H1; apply Qle_alt in H2;
         eapply Qle_trans; eassumption).
  now apply (string_compare_le_trans s s0 s1).
Qed.

Lemma compare_values_refl (v : value) : compare_values v v = Eq.
Proof.
  destruct v as [|z|q|s]; cbn [compare_values to_Q].
  - reflexivity.
  - apply Qeq_alt. reflexivity.
  - apply Qeq_alt. reflexivity.
  - apply string_compare_refl.
Qed.

(** MAX is an upper bound of the values it saw. *)
Lemma agg_max_upper (vs : list value) (w : value) :
  In w vs -> compare_values w (agg_max vs) <> Gt.
Proof.
  unfold agg_max.
  assert (G : forall vs acc,
             let result :=
               fold_left (fun acc v =>
                   if is_null v then acc
                   else if is_null acc then v
                   else match compare_values v acc with Gt => v | _ => acc end)
                 vs acc in
             compare_values acc result <> Gt
             /\ forall w, In w vs -> compare_values w result <> Gt).
  { clear. induction vs as [|v vs IH]; intros acc; simpl.
    - split; [now rewrite compare_values_refl|intros w []].
    - set (acc' := if is_null v then acc
                   else if is_null acc then v
                   else match compare_values v acc with Gt => v | _ => acc end).
      destruct (IH acc') as [Hacc Hin].
      assert (Ha : compare_values acc acc' <> Gt
                   /\ compare_values v acc' <> Gt).
      { unfold acc'. destruct (is_null v) eqn:Nv.
        - split; [now rewrite compare_values_refl|].
          destruct v; try discriminate Nv. destruct acc; discriminate.
        - destruct (is_null acc) eqn:Na.
          + split; [|now rewrite compare_values_refl].
            destruct acc; try discriminate Na. destruct v; discriminate.
          + destruct (compare_values v acc) eqn:C.
            * split; [now rewrite compare_values_refl|now rewrite C].
            * split; [now rewrite compare_values_refl|now rewrite C].
            * split; [|now rewrite compare_values_refl].
              rewrite compare_values_antisym, C. discriminate. }
      destruct Ha as [Ha Hv]. split.
      + eapply compare_values_le_trans; eassumption.
      + intros w [<-|Hw]; [|now apply Hin].
        eapply compare_values_le_trans; eassumption. }
  intros Hw. now apply (G vs VNull).
Qed.

(** ** Query 8 *)

Lemma agg_max_from (vs : list value) (acc : value) :
  let result :=
    fold_left (fun acc v =>
        if is_null v then acc
        else if is_null acc then v
        else match compare_values v acc with Gt => v | _ => acc end)
      vs acc in
  is_null result = is_null acc && forallb is_null vs
  /\ (result = acc \/ In result vs).
Proof.
  revert acc; induction vs as [|v vs IH]; intros acc; simpl.
  - rewrite andb_true_r. auto.
  - destruct (IH (if is_null v then acc
                  else if is_null acc then v
                  else match compare_values v acc with Gt => v | _ => acc end))
      as [N M].
    split.
    + rewrite N. destruct (is_null v) eqn:Hv; simpl; [reflexivity|].
      destruct (is_null acc) eqn:Ha; simpl; [now rewrite Hv|].
      destruct (compare_values v acc); simpl; now rewrite ?Hv, ?Ha.
    + destruct M as [M|M]; [|now right; right].
      rewrite M. destruct (is_null v); [now left|].
      destruct (is_null acc); [now right; left|].
      destruct (compare_values v acc); auto.
Qed.

Lemma A1BG_where (abundances samples : table) :
  map (column TranscriptAbundance "Abundance")
    (filter (fun r =>
         holds (sql_and
                  (sql_eq (column TranscriptAbundance "TranscriptID" r)
                     (VText "A1BG"))
                  (sql_in (column TranscriptAbundance "SampleID" r)
                     (map (column Samples "SampleID")
                        (filter (fun s =>
                             holds (sql_eq (column Samples "SubjectID" s)
                                      (VText "ZOZOW1T")))
                           samples)))))
       abundances)
  = A1BG_abundances abundances samples.
Proof.
  unfold A1BG_abundances. f_equal. apply filter_ext. intros r.
  rewrite holds_and, holds_in. f_equal.
  apply (existsb_map_filter (column Samples "SampleID")
           (fun s => holds (sql_eq (column Samples "SubjectID" s) (VText "ZOZOW1T")))
           (fun v => holds (sql_eq (column TranscriptAbundance "SampleID" r) v))).
Qed.

(** On a database that has TranscriptAbundance and Samples,
    [max_A1BG_abundance] looks at the abundances of transcript A1BG in the
    samples of subject ZOZOW1T.  When one of them is not null it returns one
    of them, the greatest in the order of the store, and prints nothing;
    when all are null or there is none it prints its message and returns
    null. *)
Theorem max_A1BG_abundance_spec (db : database) (abundances samples : table) :
  get TranscriptAbundance db = Some abundances ->
  get Samples db = Some samples ->
  (forallb is_null (A1BG_abundances abundances samples) = false ->
   exists v,
     max_A1BG_abundance db = ([Connect; Close], inr v)
     /\ In v (A1BG_abundances abundances samples)
     /\ v <> VNull
     /\ forall w,
          In w (A1BG_abundances abundances samples) ->
          compare_values w v <> Gt)
  /\ (forallb is_null (A1BG_abundances abundances samples) = true ->
      max_A1BG_abundance db
      = ([Connect; Close;
          Print (Text "No data found for A1BG abundance for Subject 'ZOZOW1T'.")],
         inr VNull)).
Proof.
  intros Ga Gs.
  assert (S : select_max_A1BG db
              = inr [agg_max (A1BG_abundances abundances samples)]).
  { unfold select_max_A1BG, scan. rewrite Ga, Gs. now rewrite A1BG_where. }
  destruct (agg_max_from (A1BG_abundances abundances samples) VNull) as [N M].
  fold (agg_max (A1BG_abundances abundances samples)) in N, M.
  simpl in N.
  unfold max_A1BG_abundance. rewrite S.
  cbv beta iota delta [bind emit lift fst snd nonempty nth andb].
  split; intros H; rewrite H in N.
  - exists (agg_max (A1BG_abundances abundances samples)).
    rewrite N. split; [reflexivity|].
    destruct M as [M|M].
    + rewrite M in N. discriminate.
    + split; [exact M|]. split; [|apply agg_max_upper].
      intros E. rewrite E in N. discriminate.
  - rewrite N.
    destruct (agg_max (A1BG_abundances abundances samples)); try discriminate.
    reflexivity.
Qed.

Lemma max_A1BG_abundance_spec_witness :
  (exists v,
      max_A1BG_abundance transcripts_of_two_subjects = ([Connect; Close], inr v)
      /\ In v (A1BG_abundances abundance_rows_of_two_subjects
                 sample_rows_of_two_subjects)
      /\ v <> VNull
      /\ forall w,
           In w (A1BG_abundances abundance_rows_of_two_subjects
                   sample_rows_of_two_subjects) ->
           compare_values w v <> Gt)
  /\ max_A1BG_abundance fresh_database
     = ([Connect; Close;
         Print (Text "No data found for A1BG abundance for Subject 'ZOZOW1T'.")],
        inr VNull).
Proof.
  split.
  - exact (proj1 (max_A1BG_abundance_spec transcripts_of_two_subjects
                    abundance_rows_of_two_subjects sample_rows_of_two_subjects
                    eq_refl eq_refl)
             eq_refl).
  - exact (proj2 (max_A1BG_abundance_spec fresh_database [] [] eq_refl eq_refl)
             eq_refl).
Defined.

(** In that database the greatest A1BG abundance of ZOZOW1T is 2.5; the 9
    of the other subject and the 7 of the other transcript do not count. *)
Example max_A1BG_abundance_run :
  max_A1BG_abundance transcripts_of_two_subjects
  = ([Connect; Close], inr (VReal (5 # 2))).
Proof. reflexivity. Qed.

(** ** Queries before the schema *)

(** Each query function other than [statistical_data_on_age] lets the error
    of its statement through and never reaches its [close]: on a database
    without the table it reads, it raises the "no such table" error of the
    store with the connection left open. *)
Theorem queries_leave_connection_open (db : database) :
  (get Subjects db = None ->
   subjects_over_70 db = ([Connect], inl (no_such_table Subjects))
   /\ females_with_healthy_BMI db = ([Connect], inl (no_such_table Subjects))
   /\ age_bmi_plot db = ([Connect], inl (no_such_table Subjects)))
  /\ (get Samples db = None ->
      visits_by_ZNQOVZV db = ([Connect], inl (no_such_table Samples))
      /\ subjects_metabolomic_insulin_resistant db
         = ([Connect], inl (no_such_table Samples)))
  /\ (get Annotation db = None ->
      KEGG_id_retriever db = ([Connect], inl (no_such_table Annotation))
      /\ pathway_annotation_counter db
         = ([Connect], inl (no_such_table Annotation)))
  /\ (get TranscriptAbundance db = None ->
      max_A1BG_abundance db
      = ([Connect], inl (no_such_table TranscriptAbundance))).
Proof.
  split; [intros G; repeat split
         |split; [intros G; split|split; [intros G; split|intros G]]];
    cbv beta delta
      [subjects_over_70 select_subjects_over_70
       females_with_healthy_BMI select_females_with_healthy_BMI
       age_bmi_plot select_age_bmi
       visits_by_ZNQOVZV select_visits_by_ZNQOVZV
       subjects_metabolomic_insulin_resistant select_insulin_resistant
       KEGG_id_retriever select_KEGG_ids
       pathway_annotation_counter select_pathway_counts
       max_A1BG_abundance select_max_A1BG scan];
    rewrite G; reflexivity.
Qed.

Lemma queries_leave_connection_open_witness :
  subjects_over_70 empty_database = ([Connect], inl (no_such_table Subjects))
  /\ females_with_healthy_BMI empty_database
     = ([Connect], inl (no_such_table Subjects))
  /\ age_bmi_plot empty_database = ([Connect], inl (no_such_table Subjects)).
Proof.
  exact (proj1 (queries_leave_connection_open empty_database) eq_refl).
Defined.

(** ** The order of the store and ORDER BY *)

Lemma insert_desc_perm (key : row -> value) (r : row) (l : list row) :
  Permutation (insert_desc key r l) (r :: l).
Proof.
  induction l as [|a l IH]; simpl; [reflexivity|].
  destruct (compare_values (key r) (key a)); try reflexivity;
    (rewrite IH; apply perm_swap).
Qed.

Lemma insert_desc_sorted (key : row -> value) (r : row) (l : list row) :
  Sorted (not_before key) l -> Sorted (not_before key) (insert_desc key r l).
Proof.
  induction 1 as [|a l Hl IH Ha]; simpl; [repeat constructor|].
  destruct (compare_values (key r) (key a)) eqn:C.
  - constructor; [exact IH|].
    destruct l as [|b l]; simpl.
    + constructor. unfold not_before. rewrite compare_values_antisym, C. discriminate.
    + inversion Ha as [|? ? Hab]; subst.
      destruct (compare_values (key r) (key b)); constructor; try exact Hab;
        unfold not_before; rewrite compare_values_antisym, C; discriminate.
  - constructor; [exact IH|].
    destruct l as [|b l]; simpl.
    + constructor. unfold not_before. rewrite compare_values_antisym, C. discriminate.
    + inversion Ha as [|? ? Hab]; subst.
      destruct (compare_values (key r) (key b)); constructor; try exact Hab;
        unfold not_before; rewrite compare_values_antisym, C; discriminate.
  - constructor; [now constructor|].
    constructor. unfold not_before. rewrite C. discriminate.
Qed.

Lemma order_by_desc_fold (key : row -> value) (rows acc : list row) :
  Sorted (not_before key) acc ->
  Sorted (not_before key)
    (fold_left (fun sorted r => insert_desc key r sorted) rows acc)
  /\ Permutation
       (fold_left (fun sorted r => insert_desc key r sorted) rows acc)
       (rows ++ acc).
Proof.
  revert acc; induction rows as [|r rows IH]; intros acc Hacc; simpl.
  - split; [exact Hacc|reflexivity].
  - destruct (IH (insert_desc key r acc) (insert_desc_sorted key r acc Hacc))
      as [S P].
    split; [exact S|]. rewrite P, insert_desc_perm.
    symmetry. apply Permutation_middle.
Qed.

(** [ORDER BY key DESC] rearranges the rows, and in the result no row comes
    before its neighbour on the left. *)
Lemma order_by_desc_spec (key : row -> value) (rows : list row) :
  Sorted (not_before key) (order_by_desc key rows)
  /\ Permutation (order_by_desc key rows) rows.
Proof.
  destruct (order_by_desc_fold key rows [] (Sorted_nil _)) as [S P].
  split; [exact S|]. unfold order_by_desc. now rewrite P, app_nil_r.
Qed.

(** ** Query 2 *)

Lemma is_text_eq (s : string) (v : value) :
  holds (sql_eq v (VText s)) = is_text s v.
Proof.
  destruct v as [| | |s']; try reflexivity. apply text_eq.
Qed.

Lemma between_healthy (bmi : value) :
  holds (sql_between bmi (VReal (185 # 10)) (VReal (249 # 10))) = healthy_bmi bmi.
Proof.
  unfold sql_between. rewrite holds_and.
  destruct bmi as [|z|q|s]; try reflexivity.
  - unfold sql_ge, sql_le, sql_cmp, healthy_bmi, compare_values, to_Q, is_null,
      orb, holds.
    f_equal.
    + unfold Qle_bool, Qcompare.
      match goal with
      | |- context [Z.leb ?a ?b] => destruct (Z.leb_spec a b)
      end;
        match goal with
        | |- context [Z.compare ?a ?b] => destruct (Z.compare_spec a b)
        end; try reflexivity; lia.
    + unfold Qle_bool, Qcompare.
      match goal with
      | |- context [Z.leb ?a ?b] => destruct (Z.leb_spec a b)
      end;
        match goal with
        | |- context [Z.compare ?a ?b] => destruct (Z.compare_spec a b)
        end; try reflexivity; lia.
  - unfold sql_ge, sql_le, sql_cmp, healthy_bmi, compare_values, to_Q, is_null,
      orb, holds.
    f_equal.
    + unfold Qle_bool, Qcompare.
      match goal with
      | |- context [Z.leb ?a ?b] => destruct (Z.leb_spec a b)
      end;
        match goal with
        | |- context [Z.compare ?a ?b] => destruct (Z.compare_spec a b)
        end; try reflexivity; lia.
    + unfold Qle_bool, Qcompare.
      match goal with
      | |- context [Z.leb ?a ?b] => destruct (Z.leb_spec a b)
      end;
        match goal with
        | |- context [Z.compare ?a ?b] => destruct (Z.compare_spec a b)
        end; try reflexivity; lia.
Qed.

(** On a database that has Subjects, [females_with_healthy_BMI] returns the
    SubjectIDs of exactly the rows whose Sex is the text F and whose BMI is a
    number from 18.5 to 24.9 (a rearrangement of them), in descending order
    of SubjectID; it prints its message exactly when there is none. *)
Theorem females_with_healthy_BMI_spec (db : database) (rows : table) :
  get Subjects db = Some rows ->
  exists selected,
    females_with_healthy_BMI db
    = ([Connect; Close]
         ++ (if nonempty (healthy_females rows) then []
             else [Print (Text "No Females with Healthy BMI.")]),
       inr (map (fun r => [column Subjects "SubjectID" r]) selected))
    /\ Permutation selected (healthy_females rows)
    /\ Sorted (not_before (column Subjects "SubjectID")) selected.
Proof.
  intros G.
  destruct (order_by_desc_spec (column Subjects "SubjectID") (healthy_females rows))
    as [S P].
  exists (order_by_desc (column Subjects "SubjectID") (healthy_females rows)).
  split; [|split; assumption]. clear S.
  unfold females_with_healthy_BMI, select_females_with_healthy_BMI, scan.
  rewrite G.
  rewrite (filter_ext _
             (fun r => is_text "F" (column Subjects "Sex" r)
                       && healthy_bmi (column Subjects "BMI" r))).
  2:{ intros r. now rewrite holds_and, is_text_eq, between_healthy. }
  fold (healthy_females rows).
  cbv beta iota delta [bind emit lift fst snd].
  destruct (order_by_desc (column Subjects "SubjectID") (healthy_females rows))
    as [|r l] eqn:O.
  - apply Permutation_nil in P. now rewrite P.
  - destruct (healthy_females rows) eqn:E; [|reflexivity].
    symmetry in P. apply Permutation_nil in P. discriminate.
Qed.

Lemma females_with_healthy_BMI_spec_witness :
  exists selected,
    females_with_healthy_BMI subjects_with_NA_age
    = ([Connect; Close]
         ++ (if nonempty (healthy_females rows_with_NA_age) then []
             else [Print (Text "No Females with Healthy BMI.")]),
       inr (map (fun r => [column Subjects "SubjectID" r]) selected))
    /\ Permutation selected (healthy_females rows_with_NA_age)
    /\ Sorted (not_before (column Subjects "SubjectID")) selected.
Proof.
  apply (females_with_healthy_BMI_spec subjects_with_NA_age rows_with_NA_age).
  reflexivity.
Defined.

(** ** Query 7 *)

Lemma count_at_least_10 (n : Z) :
  holds (sql_ge (VInt n) (VInt 10)) = (10 <=? n).
Proof.
  unfold sql_ge, sql_cmp; simpl. unfold Qcompare; simpl.
  destruct (Z.leb_spec 10 n);
    match goal with
    | |- context [Z.compare ?a ?b] => destruct (Z.compare_spec a b)
    end; simpl; try reflexivity; lia.
Qed.

Lemma distinct_incl (vs : list value) (v : value) :
  In v (distinct vs) -> In v vs.
Proof.
  revert v; induction vs as [|w vs IH]; intros v; simpl; [auto|].
  intros [->|H]; [now left|]. right. apply IH.
  now apply filter_In in H.
Qed.

(** On a database that has Annotation, [pathway_annotation_counter] returns
    rows (pathway, count) in descending order of count; every returned
    pathway is the Pathway of some annotation, its count is the number of
    annotations with that pathway, and the count is 10 or more. *)
Theorem pathway_annotation_counter_spec (db : database) (rows : table) :
  get Annotation db = Some rows ->
  exists answer,
    snd (pathway_annotation_counter db) = inr answer
    /\ Sorted (not_before (fun g => nth 1 g VNull)) answer
    /\ forall g,
         In g answer ->
         exists p,
           g = [p; VInt (annotations_of rows p)]
           /\ In p (map (column Annotation "Pathway") rows)
           /\ 10 <= annotations_of rows p.
Proof.
  intros G.
  set (groups :=
         filter (fun g => holds (sql_ge (nth 1 g VNull) (VInt 10)))
           (map (fun p => [p; VInt (annotations_of rows p)])
              (distinct (map (column Annotation "Pathway") rows)))).
  destruct (order_by_desc_spec (fun g => nth 1 g VNull) groups) as [S P].
  exists (order_by_desc (fun g => nth 1 g VNull) groups).
  split; [|split; [exact S|]].
  - unfold pathway_annotation_counter, select_pathway_counts, scan. rewrite G.
    fold groups. cbv beta iota delta [bind emit lift fst snd].
    unfold annotations_of in groups. fold groups.
    now destruct (order_by_desc (fun g => nth 1 g VNull) groups).
  - intros g Hg. apply (Permutation_in _ P) in Hg.
    unfold groups in Hg. apply filter_In in Hg as [Hg H10].
    apply in_map_iff in Hg as (p & <- & Hp).
    exists p. split; [reflexivity|]. split; [now apply distinct_incl|].
    change (nth 1 [p; VInt (annotations_of rows p)] VNull)
      with (VInt (annotations_of rows p)) in H10.
    rewrite count_at_least_10 in H10. now apply Z.leb_le.
Qed.

Lemma pathway_annotation_counter_spec_witness :
  exists answer,
    snd (pathway_annotation_counter database_of_twelve_annotations) = inr answer
    /\ Sorted (not_before (fun g => nth 1 g VNull)) answer
    /\ forall g,
         In g answer ->
         exists p,
           g = [p; VInt (annotations_of twelve_annotations p)]
           /\ In p (map (column Annotation "Pathway") twelve_annotations)
           /\ 10 <= annotations_of twelve_annotations p.
Proof.
  apply (pathway_annotation_counter_spec database_of_twelve_annotations
           twelve_annotations).
  reflexivity.
Defined.

(** With ten annotations of one pathway and two of another, only the first
    is returned. *)
Example pathway_annotation_counter_run :
  pathway_annotation_counter database_of_twelve_annotations
  = ([Connect; Close], inr [[VText "Taurine metabolism"; VInt 10]]).
Proof. vm_compute. reflexivity. Qed.

(** ** DISTINCT *)

Lemma same_value_refl (v : value) : same_value v v = true.
Proof.
  unfold same_value. destruct v as [|z|q|s]; cbn [compare_values to_Q].
  - reflexivity.
  - now rewrite (proj1 (Qeq_alt _ _) (Qeq_refl (inject_Z z))).
  - now rewrite (proj1 (Qeq_alt _ _) (Qeq_refl q)).
  - now rewrite string_compare_refl.
Qed.

Lemma same_value_trans (a b c : value) :
  same_value a b = true -> same_value b c = true -> same_value a c = true.
Proof.
  unfold same_value.
  destruct (compare_values a b) eqn:H1; try discriminate.
  destruct (compare_values b c) eqn:H2; try discriminate.
  intros _ _.
  assert (H : compare_values a c = Eq); [|now rewrite H].
  destruct a, b, c; cbn [compare_values to_Q] in *;
    try discriminate; try reflexivity;
    try (apply Qeq_alt in H1; apply Qeq_alt in H2; apply Qeq_alt;
         etransitivity; eassumption).
  apply String.compare_eq_iff in H1, H2. subst. apply string_compare_refl.
Qed.

Lemma pairwise_filter (p : value -> bool) (vs : list value) :
  pairwise_distinct vs -> pairwise_distinct (filter p vs).
Proof.
  unfold pairwise_distinct. induction 1 as [|v vs Hv _ IH]; simpl; [constructor|].
  destruct (p v); [|exact IH]. constructor; [|exact IH].
  rewrite Forall_forall in *. intros w Hw. apply Hv.
  now apply filter_In in Hw.
Qed.

Lemma distinct_pairwise (vs : list value) : pairwise_distinct (distinct vs).
Proof.
  induction vs as [|v vs IH]; simpl; [constructor|].
  constructor; [|now apply pairwise_filter].
  apply Forall_forall. intros w Hw. apply filter_In in Hw as [_ Hw].
  now apply negb_true_iff in Hw.
Qed.

Lemma distinct_covers (vs : list value) (x : value) :
  In x vs -> exists w, In w (distinct vs) /\ same_value w x = true.
Proof.
  induction vs as [|v vs IH]; [contradiction|].
  intros [->|Hx]; simpl.
  - exists x. split; [now left|apply same_value_refl].
  - destruct (IH Hx) as (w & Hw & Hwx).
    destruct (same_value v w) eqn:Hvw.
    + exists v. split; [now left|]. now apply (same_value_trans v w x).
    + exists w. split; [|exact Hwx]. right. apply filter_In.
      split; [exact Hw|]. now rewrite Hvw.
Qed.

Lemma nonempty_distinct (vs : list value) :
  nonempty (map (fun v => [v]) (distinct vs)) = nonempty vs.
Proof. now destruct vs. Qed.

(** ** Query 4 *)

(** On a database that has Samples and Subjects,
    [subjects_metabolomic_insulin_resistant] returns the SubjectIDs of the
    samples whose subject is recorded with InsulinStatus IR, each once; no
    abundance table is consulted. *)
Theorem subjects_metabolomic_insulin_resistant_spec (db : database)
    (samples subjects : table) :
  get Samples db = Some samples ->
  get Subjects db = Some subjects ->
  exists ids,
    subjects_metabolomic_insulin_resistant db
    = ([Connect; Close]
         ++ (if nonempty ids then []
             else [Print (Text "No Insulin-Resistant Subjects with metabolomics samples found")]),
       inr (map (fun v => [v]) ids))
    /\ pairwise_distinct ids
    /\ (forall v,
          In v ids ->
          exists s sub,
            In s samples /\ In sub subjects
            /\ v = column Samples "SubjectID" s
            /\ holds (sql_eq v (column Subjects "SubjectID" sub)) = true
            /\ column Subjects "InsulinStatus" sub = VText "IR")
    /\ (forall s sub,
          In s samples -> In sub subjects ->
          holds (sql_eq (column Samples "SubjectID" s)
                   (column Subjects "SubjectID" sub)) = true ->
          column Subjects "InsulinStatus" sub = VText "IR" ->
          exists v, In v ids /\ same_value v (column Samples "SubjectID" s) = true).
Proof.
  intros Gs Gu.
  exists (distinct (resistant_sample_subjects samples subjects)).
  assert (E : select_insulin_resistant db
              = inr (map (fun v => [v])
                       (distinct (resistant_sample_subjects samples subjects)))).
  { unfold select_insulin_resistant, scan. rewrite Gs, Gu. do 3 f_equal.
    unfold resistant_sample_subjects. apply flat_map_ext. intros s.
    f_equal. apply filter_ext. intros sub. now rewrite is_text_eq. }
  split; [|split; [apply distinct_pairwise|split]].
  - unfold subjects_metabolomic_insulin_resistant. rewrite E.
    cbv beta iota delta [bind emit lift fst snd].
    rewrite nonempty_distinct.
    now destruct (resistant_sample_subjects samples subjects).
  - intros v Hv. apply distinct_incl in Hv.
    unfold resistant_sample_subjects in Hv.
    apply in_flat_map in Hv as (s & Hs & Hv).
    apply in_map_iff in Hv as (sub & <- & Hsub).
    apply filter_In in Hsub as [Hsub Hc]. apply andb_true_iff in Hc as [Hj Hir].
    exists s, sub. repeat split; auto.
    destruct (column Subjects "InsulinStatus" sub); try discriminate.
    simpl in Hir. apply String.eqb_eq in Hir. now subst.
  - intros s sub Hs Hsub Hj Hir.
    apply distinct_covers. unfold resistant_sample_subjects.
    apply in_flat_map. exists s. split; [exact Hs|].
    apply in_map_iff. exists sub. split; [reflexivity|].
    apply filter_In. split; [exact Hsub|]. now rewrite Hj, Hir.
Qed.

Lemma subjects_metabolomic_insulin_resistant_spec_witness :
  exists ids,
    subjects_metabolomic_insulin_resistant
      (set Samples (Some sample_rows_of_two_subjects) subjects_with_NA_age)
    = ([Connect; Close]
         ++ (if nonempty ids then []
             else [Print (Text "No Insulin-Resistant Subjects with metabolomics samples found")]),
       inr (map (fun v => [v]) ids))
    /\ pairwise_distinct ids
    /\ (forall v,
          In v ids ->
          exists s sub,
            In s sample_rows_of_two_subjects /\ In sub rows_with_NA_age
            /\ v = column Samples "SubjectID" s
            /\ holds (sql_eq v (column Subjects "SubjectID" sub)) = true
            /\ column Subjects "InsulinStatus" sub = VText "IR")
    /\ (forall s sub,
          In s sample_rows_of_two_subjects -> In sub rows_with_NA_age ->
          holds (sql_eq (column Samples "SubjectID" s)
                   (column Subjects "SubjectID" sub)) = true ->
          column Subjects "InsulinStatus" sub = VText "IR" ->
          exists v, In v ids /\ same_value v (column Samples "SubjectID" s) = true).
Proof.
  apply (subjects_metabolomic_insulin_resistant_spec
           (set Samples (Some sample_rows_of_two_subjects) subjects_with_NA_age)
           sample_rows_of_two_subjects rows_with_NA_age); reflexivity.
Defined.

(** In that database subject S2 is insulin-resistant and has one sample. *)
Example subjects_metabolomic_insulin_resistant_run :
  subjects_metabolomic_insulin_resistant
    (set Samples (Some sample_rows_of_two_subjects) subjects_with_NA_age)
  = ([Connect; Close], inr [[VText "S2"]]).
Proof. vm_compute. reflexivity. Qed.

(** ** Query 5 *)

Lemma in_queried_peaks (x : value) :
  holds (sql_in x (map VText queried_peaks))
  = existsb (fun peak => is_text peak x) queried_peaks.
Proof.
  rewrite holds_in. generalize queried_peaks. intros peaks.
  induction peaks as [|peak peaks IH]; [reflexivity|].
  simpl. now rewrite is_text_eq, IH.
Qed.

(** On a database that has Annotation, [KEGG_id_retriever] returns the KEGG
    values of the annotations of the four peaks, each once (null counts as a
    value), and nothing else. *)
Theorem KEGG_id_retriever_spec (db : database) (rows : table) :
  get Annotation db = Some rows ->
  exists keggs,
    KEGG_id_retriever db
    = ([Connect; Close]
         ++ (if nonempty keggs then []
             else [Print (Text "No KEGG IDs found for specified peaks")]),
       inr (map (fun v => [v]) keggs))
    /\ pairwise_distinct keggs
    /\ (forall k,
          In k keggs ->
          exists r peak,
            In r rows /\ In peak queried_peaks
            /\ column Annotation "PeakID" r = VText peak
            /\ k = column Annotation "KEGG" r)
    /\ (forall r peak,
          In r rows -> In peak queried_peaks ->
          column Annotation "PeakID" r = VText peak ->
          exists k, In k keggs /\ same_value k (column Annotation "KEGG" r) = true).
Proof.
  intros G. exists (distinct (queried_keggs rows)).
  assert (E : select_KEGG_ids db
              = inr (map (fun v => [v]) (distinct (queried_keggs rows)))).
  { unfold select_KEGG_ids, scan. rewrite G. do 3 f_equal.
    unfold queried_keggs. f_equal. apply filter_ext. intros r.
    exact (in_queried_peaks (column Annotation "PeakID" r)). }
  split; [|split; [apply distinct_pairwise|split]].
  - unfold KEGG_id_retriever. rewrite E.
    cbv beta iota delta [bind emit lift fst snd].
    rewrite nonempty_distinct. now destruct (queried_keggs rows).
  - intros k Hk. apply distinct_incl in Hk. unfold queried_keggs in Hk.
    apply in_map_iff in Hk as (r & <- & Hr).
    apply filter_In in Hr as [Hr Hp].
    apply existsb_exists in Hp as (peak & Hpeak & Ht).
    exists r, peak. repeat split; auto.
    destruct (column Annotation "PeakID" r); try discriminate.
    simpl in Ht. apply String.eqb_eq in Ht. now subst.
  - intros r peak Hr Hpeak Hp. apply distinct_covers. unfold queried_keggs.
    apply in_map. apply filter_In. split; [exact Hr|].
    apply existsb_exists. exists peak. split; [exact Hpeak|].
    rewrite Hp. simpl. apply String.eqb_refl.
Qed.

Lemma KEGG_id_retriever_spec_witness :
  exists keggs,
    KEGG_id_retriever database_of_twelve_annotations
    = ([Connect; Close]
         ++ (if nonempty keggs then []
             else [Print (Text "No KEGG IDs found for specified peaks")]),
       inr (map (fun v => [v]) keggs))
    /\ pairwise_distinct keggs
    /\ (forall k,
          In k keggs ->
          exists r peak,
            In r twelve_annotations /\ In peak queried_peaks
            /\ column Annotation "PeakID" r = VText peak
            /\ k = column Annotation "KEGG" r)
    /\ (forall r peak,
          In r twelve_annotations -> In peak queried_peaks ->
          column Annotation "PeakID" r = VText peak ->
          exists k, In k keggs /\ same_value k (column Annotation "KEGG" r) = true).
Proof.
  apply (KEGG_id_retriever_spec database_of_twelve_annotations twelve_annotations).
  reflexivity.
Defined.

(** The twelve annotations carry one KEGG identifier and one null. *)
Example KEGG_id_retriever_run :
  KEGG_id_retriever database_of_twelve_annotations
  = ([Connect; Close], inr [[VText "C00245"]; [VNull]]).
Proof. vm_compute. reflexivity. Qed.

(** * The command line, phases together *)

(** As soon as Subjects exists, the first statement of the script fails and
    [database_struct] leaves the database as it found it. *)
Lemma database_struct_with_subjects (db : database) :
  get Subjects db <> None ->
  database_struct db
  = ([Connect;
      Print (Text "Database Construction Has Begun");
      Print (TextExn "SQLite error: "
               (OperationalError "table Subjects already exists"));
      Close],
     inr db).
Proof.
  intros H. unfold database_struct, schema_script; simpl executescript.
  unfold create_table. destruct (get Subjects db); [reflexivity|congruence].
Qed.

(** [main] with [--createdb --loaddb --subjects]: the three phases run in
    this order whatever the first one meets.  On a database that already has
    its tables the creation fails and is reported, yet "Database Structure
    has Been Created" is printed all the same and the load goes on, replacing
    the subjects; on a new file the tables are created first and the load
    fills Subjects. *)
Theorem main_create_then_load (file : list pydict) (db : database) :
  subjects_file_ok file ->
  ((forall t, get t db <> None) ->
   main (create_and_load_subjects file) db
   = ([Print (Text "Creating Database Structure");
       Connect;
       Print (Text "Database Construction Has Begun");
       Print (TextExn "SQLite error: "
                (OperationalError "table Subjects already exists"));
       Close;
       Print (Text "Database Structure has Been Created");
       Connect; Commit; Close;
       Print (Text "Subjects table populated successfully.");
       Print (Text "All data loaded successfully.")],
      inr (set Subjects (Some (subject_rows file)) db)))
  /\ main (create_and_load_subjects file) empty_database
     = ([Print (Text "Creating Database Structure");
         Connect;
         Print (Text "Database Construction Has Begun");
         Commit;
         Close;
         Print (Text "Database Structure has Been Created");
         Connect; Commit; Close;
         Print (Text "Subjects table populated successfully.");
         Print (Text "All data loaded successfully.")],
        inr (set Subjects (Some (subject_rows file)) fresh_database)).
Proof.
  intros Hok. split.
  - intros Hdb.
    pose proof (database_struct_with_subjects db (Hdb Subjects)) as C.
    pose proof (subject_table_populator_ok file db (Hdb Subjects) Hok) as L.
    unfold main, create_and_load_subjects; simpl.
    unfold when_given. rewrite C.
    cbv beta iota delta [bind emit lift print ret fst snd]. rewrite L.
    reflexivity.
  - assert (Hf : get Subjects fresh_database <> None) by discriminate.
    pose proof (subject_table_populator_ok file fresh_database Hf Hok) as L.
    unfold main, create_and_load_subjects; simpl.
    unfold when_given. rewrite database_struct_creates.
    cbv beta iota delta [bind emit lift print ret fst snd]. rewrite L.
    reflexivity.
Qed.

Lemma main_create_then_load_witness :
  main (create_and_load_subjects
          [subject "S1" "F" "61" "22.4" "C" "NA" "IS";
           subject "S2" "M" "NA" "30.1" "A" "91" "IR"])
    subjects_with_NA_age
  = ([Print (Text "Creating Database Structure");
      Connect;
      Print (Text "Database Construction Has Begun");
      Print (TextExn "SQLite error: "
               (OperationalError "table Subjects already exists"));
      Close;
      Print (Text "Database Structure has Been Created");
      Connect; Commit; Close;
      Print (Text "Subjects table populated successfully.");
      Print (Text "All data loaded successfully.")],
     inr (set Subjects
            (Some (subject_rows
                     [subject "S1" "F" "61" "22.4" "C" "NA" "IS";
                      subject "S2" "M" "NA" "30.1" "A" "91" "IR"]))
            subjects_with_NA_age)).
Proof.
  refine (proj1 (main_create_then_load
                   [subject "S1" "F" "61" "22.4" "C" "NA" "IS";
                    subject "S2" "M" "NA" "30.1" "A" "91" "IR"]
                   subjects_with_NA_age _) _).
  - split; [repeat constructor|].
    unfold collision_free; simpl. repeat constructor.
  - intros t; destruct t; discriminate.
Defined.

(** * Witnesses of earlier lemmas *)

Lemma database_struct_preserves_witness :
  exists tr db',
    database_struct
      (mkdb None (Some sample_rows_of_two_subjects) None None None None)
    = (tr, inr db')
    /\ get Samples db' = Some sample_rows_of_two_subjects
    /\ last tr Connect = Close.
Proof.
  apply (database_struct_preserves
           (mkdb None (Some sample_rows_of_two_subjects) None None None None)
           Samples sample_rows_of_two_subjects).
  reflexivity.
Defined.

Lemma invalid_query_number_reported_witness :
  main (only_query (-3)) fresh_database
  = ([Print (Text "Invalid query number. Please choose between 1 and 9.")],
     inr fresh_database).
Proof.
  apply (invalid_query_number_reported (-3) fresh_database); lia.
Defined.

Lemma queries_report_empty_result_witness :
  subjects_over_70 fresh_database
  = ([Connect; Close; Print (Text "No subjects over age 70.")], inr []).
Proof.
  exact (proj1 (queries_report_empty_result fresh_database) eq_refl).
Defined.

(** * Query 6: the bounds *)

Lemma agg_min_from_spec (vs : list value) (acc : value) :
  let result :=
    fold_left (fun acc v =>
        if is_null v then acc
        else if is_null acc then v
        else match compare_values v acc with Lt => v | _ => acc end)
      vs acc in
  (result = acc \/ In result vs)
  /\ (is_null acc = false -> compare_values result acc <> Gt)
  /\ forall w, In w vs -> is_null w = false -> compare_values result w <> Gt.
Proof.
  revert acc; induction vs as [|v vs IH]; intros acc; simpl.
  - split; [now left|]. split; [|intros w []].
    intros _. now rewrite compare_values_refl.
  - set (acc' := if is_null v then acc
                 else if is_null acc then v
                 else match compare_values v acc with Lt => v | _ => acc end).
    destruct (IH acc') as (M & Hacc & Hin).
    assert (Ha : (acc' = acc \/ acc' = v)
                 /\ (is_null acc = false -> compare_values acc' acc <> Gt)
                 /\ (is_null v = false ->
                     compare_values acc' v <> Gt /\ is_null acc' = false)).
    { unfold acc'. destruct (is_null v) eqn:Nv.
      - split; [now left|]. split; [|discriminate].
        intros _. now rewrite compare_values_refl.
      - destruct (is_null acc) eqn:Na.
        + split; [now right|]. split; [discriminate|].
          intros _. now rewrite compare_values_refl.
        + destruct (compare_values v acc) eqn:C.
          * split; [now left|]. split; [now rewrite compare_values_refl|].
            intros _. split; [|exact Na].
            rewrite compare_values_antisym, C. discriminate.
          * split; [now right|]. split; [now rewrite C|].
            intros _. split; [now rewrite compare_values_refl|exact Nv].
          * split; [now left|]. split; [now rewrite compare_values_refl|].
            intros _. split; [|exact Na].
            rewrite compare_values_antisym, C. discriminate. }
    destruct Ha as (Hor & Hle & Hv). split; [|split].
    + destruct M as [M|M]; [|now right; right].
      rewrite M. destruct Hor as [->| ->]; [now left|now right; left].
    + intros Na. destruct (is_null acc') eqn:Na'.
      * assert (E : acc' = acc).
        { destruct Hor as [E|E]; [exact E|].
          destruct (is_null v) eqn:Nv.
          - reflexivity.
          - destruct (Hv eq_refl) as [_ K]. congruence. }
        rewrite E in Na'. congruence.
      * eapply compare_values_le_trans; [apply Hacc; reflexivity|now apply Hle].
    + intros w [<-|Hw] Nw; [|now apply Hin].
      destruct (Hv Nw) as [Hle' Na'].
      eapply compare_values_le_trans; [apply Hacc; exact Na'|exact Hle'].
Qed.

Lemma valid_age_not_null (rows : table) (a : value) :
  In a (valid_ages rows) -> is_null a = false /\ a <> VText "NA".
Proof.
  unfold valid_ages. intros H. apply filter_In in H as [_ H].
  apply andb_true_iff in H as [H1 H2].
  split; [now destruct (is_null a)|].
  intros ->. discriminate H2.
Qed.

(** When some age is valid, the minimum and the maximum that
    [statistical_data_on_age] returns are ages of the table, and they bound
    every valid age in the order of the store (numbers by magnitude, any
    text above all numbers); nothing is printed. *)
Theorem statistical_data_on_age_bounds (db : database) (rows : table) :
  get Subjects db = Some rows ->
  valid_ages rows <> [] ->
  exists least greatest average,
    statistical_data_on_age db
    = ([Connect; Close], inr [[least; greatest; average]])
    /\ In least (valid_ages rows)
    /\ In greatest (valid_ages rows)
    /\ forall a,
         In a (valid_ages rows) ->
         compare_values least a <> Gt /\ compare_values a greatest <> Gt.
Proof.
  intros G Hne.
  pose proof (statistical_data_on_age_returns db _ _ _
                (select_age_statistics_spec db rows G)) as R.
  destruct (agg_min_from_spec (valid_ages rows) VNull) as (Mmin & _ & Lmin).
  destruct (agg_max_from (valid_ages rows) VNull) as (Nmax & Mmax).
  fold (agg_min (valid_ages rows)) in Mmin, Lmin.
  fold (agg_max (valid_ages rows)) in Nmax, Mmax.
  assert (Hex : forallb is_null (valid_ages rows) = false).
  { destruct (valid_ages rows) as [|a l] eqn:E; [congruence|].
    assert (Ha : In a (valid_ages rows)) by (rewrite E; now left).
    apply valid_age_not_null in Ha as [Ha _]. simpl. now rewrite Ha. }
  simpl in Nmax. rewrite Hex in Nmax.
  assert (Imax : In (agg_max (valid_ages rows)) (valid_ages rows)).
  { destruct Mmax as [E|I]; [|exact I]. rewrite E in Nmax. discriminate. }
  assert (Imin : In (agg_min (valid_ages rows)) (valid_ages rows)).
  { destruct Mmin as [E|I]; [|exact I].
    destruct (valid_ages rows) as [|a l] eqn:V; [congruence|].
    assert (Ha : In a (valid_ages rows)) by (rewrite V; now left).
    apply valid_age_not_null in Ha as [Ha _].
    exfalso. revert E. rewrite <- V. intros E.
    pose proof (agg_min_not_null a l) as K. rewrite <- V in K.
    apply K; [|exact E]. intros ->. discriminate Ha. }
  exists (agg_min (valid_ages rows)), (agg_max (valid_ages rows)),
    (agg_avg (valid_ages rows)).
  split.
  { rewrite R. destruct (valid_age_not_null _ _ Imin) as [Nmin _].
    now rewrite Nmin. }
  split; [exact Imin|]. split; [exact Imax|].
  intros a Ha. split.
  - apply Lmin; [exact Ha|]. now apply valid_age_not_null in Ha.
  - now apply agg_max_upper.
Qed.

Lemma statistical_data_on_age_bounds_witness :
  exists least greatest average,
    statistical_data_on_age subjects_with_NA_age
    = ([Connect; Close], inr [[least; greatest; average]])
    /\ In least (valid_ages rows_with_NA_age)
    /\ In greatest (valid_ages rows_with_NA_age)
    /\ forall a,
         In a (valid_ages rows_with_NA_age) ->
         compare_values least a <> Gt /\ compare_values a greatest <> Gt.
Proof.
  apply (statistical_data_on_age_bounds subjects_with_NA_age rows_with_NA_age).
  - reflexivity.
  - discriminate.
Defined.
